(** * Enterprise query engine: the client-side formatter and dispatcher

    A shallow embedding of [src/index.tsx]: the token colouriser
    [highlightCode], the result formatter [displayQueryResult], the
    dispatcher [executeQuery] and the input advisory
    [validateQueryInput], together with the parts of the ECMAScript
    library they call ([String.prototype.trim], [replace] with a global
    regular expression, [JSON.parse], [JSON.stringify], [Number]
    arithmetic and printing) and the conversions that the language
    applies to the parsed values ([ToBoolean], [ToString],
    [ToNumber]). *)

From Stdlib Require Import Ascii String NArith ZArith Bool Lia List.
From Stdlib Require Import DecimalString.
From Stdlib Require Import Floats.SpecFloat.
Import ListNotations.

Set Warnings "-register-all".

Open Scope N_scope.

(** ** ECMAScript strings

    A string value is a finite sequence of UTF-16 code units; a code unit
    is kept as its number. *)

Module JsString.

Definition codeunit := N.
Definition jsstring := list codeunit.

(** The code unit of a character written in the sources. *)
Definition ch (a : ascii) : codeunit := N_of_ascii a.

(** A literal of the sources (they are all ASCII), as a string value. *)
Definition js (s : string) : jsstring := map ch (list_ascii_of_string s).

Definition dquote : codeunit := 34.
Definition newline : codeunit := 10.

Definition eqb (a b : jsstring) : bool :=
  if list_eq_dec N.eq_dec a b then true else false.

(** [WhiteSpace] and [LineTerminator] code points, the ones
    [String.prototype.trim] strips. *)
Definition isWhiteSpace (c : codeunit) : bool :=
  existsb (N.eqb c)
    [0x9; 0xA; 0xB; 0xC; 0xD; 0x20; 0xA0; 0x1680; 0x2028; 0x2029;
     0x202F; 0x205F; 0x3000; 0xFEFF]
  || ((0x2000 <=? c) && (c <=? 0x200A)).

Fixpoint trimStart (s : jsstring) : jsstring :=
  match s with
  | c :: s' => if isWhiteSpace c then trimStart s' else s
  | [] => []
  end.

Definition trimEnd (s : jsstring) : jsstring := rev (trimStart (rev s)).

Definition trim (s : jsstring) : jsstring := trimEnd (trimStart s).

Fixpoint startsWith (p s : jsstring) : bool :=
  match p, s with
  | [], _ => true
  | a :: p', b :: s' => (a =? b) && startsWith p' s'
  | _ :: _, [] => false
  end.

(** [s.includes(p)] *)
Fixpoint includes (s p : jsstring) : bool :=
  startsWith p s ||
  match s with
  | [] => false
  | _ :: s' => includes s' p
  end.

(** [Array.prototype.join] on an array of strings. *)
Fixpoint join (sep : jsstring) (l : list jsstring) : jsstring :=
  match l with
  | [] => []
  | [x] => x
  | x :: l' => x ++ sep ++ join sep l'
  end.

Definition isDigit (c : codeunit) : bool := (48 <=? c) && (c <=? 57).
Definition isUpper (c : codeunit) : bool := (65 <=? c) && (c <=? 90).
Definition isLower (c : codeunit) : bool := (97 <=? c) && (c <=? 122).

(** The decimal digits of a natural number. *)
Definition decimal (n : N) : jsstring :=
  js (NilZero.string_of_uint (N.to_uint n)).

End JsString.
Import JsString.

(** ** Regular expressions

    The fragment of the ECMAScript pattern language that the sources use:
    characters and classes, sequence, alternation tried left to right,
    greedy repetition of a class (the sources repeat nothing else),
    capture groups and the assertion [\b], matched by backtracking. *)

Module RegExp.

Inductive regex :=
| Eps
| Chr (p : codeunit -> bool)
| Seq (r1 r2 : regex)
| Alt (r1 r2 : regex)
| Star (p : codeunit -> bool)
| Group (i : nat) (r : regex)
| WordB.

Definition captures := list (nat * jsstring).

Fixpoint capture (i : nat) (cs : captures) : jsstring :=
  match cs with
  | [] => []
  | (j, s) :: cs' => if Nat.eqb i j then s else capture i cs'
  end.

(** [IsWordChar]: without the [u] flag the word characters are
    [A-Za-z0-9_]. *)
Definition isWordChar (c : option codeunit) : bool :=
  match c with
  | None => false
  | Some c => isDigit c || isUpper c || isLower c || (c =? 95)
  end.

(** A matcher in continuation-passing style: [prev] is the code unit
    before the current position, [k] is what remains of the pattern. *)
Fixpoint matcher {A} (r : regex) (prev : option codeunit) (s : jsstring)
    (cs : captures)
    (k : option codeunit -> jsstring -> captures -> option A) : option A :=
  match r with
  | Eps => k prev s cs
  | Chr p =>
      match s with
      | c :: s' => if p c then k (Some c) s' cs else None
      | [] => None
      end
  | Seq r1 r2 =>
      matcher r1 prev s cs (fun p' s' cs' => matcher r2 p' s' cs' k)
  | Alt r1 r2 =>
      match matcher r1 prev s cs k with
      | Some x => Some x
      | None => matcher r2 prev s cs k
      end
  | Star p =>
      (fix star (prev : option codeunit) (s : jsstring) : option A :=
         match s with
         | c :: s' =>
             if p c then
               match star (Some c) s' with
               | Some x => Some x
               | None => k prev s cs
               end
             else k prev s cs
         | [] => k prev s cs
         end) prev s
  | Group i r' =>
      matcher r' prev s cs
        (fun p' s' cs' =>
           k p' s' ((i, firstn (length s - length s') s) :: cs'))
  | WordB =>
      if xorb (isWordChar prev) (isWordChar (hd_error s))
      then k prev s cs else None
  end.

(** One attempt at the current position: what follows the match, and the
    captures. *)
Definition exec (r : regex) (prev : option codeunit) (s : jsstring)
  : option (jsstring * captures) :=
  matcher r prev s [] (fun _ s' cs => Some (s', cs)).

(** [s.replace(r, f)] for a pattern with the [g] flag: every match, from
    left to right and without overlap, is replaced by [f] of the matched
    text and the captures; the text between matches is copied.  [skip]
    counts the code units of the current match still to be passed over;
    an empty match advances by one code unit. *)
Fixpoint replaceFrom (r : regex) (f : jsstring -> captures -> jsstring)
    (prev : option codeunit) (skip : nat) (s : jsstring) : jsstring :=
  match skip, s with
  | S n, c :: s' => replaceFrom r f (Some c) n s'
  | S _, [] => []
  | O, _ =>
      match exec r prev s with
      | Some (rest, cs) =>
          let len := (length s - length rest)%nat in
          f (firstn len s) cs ++
          match s with
          | [] => []
          | c :: s' =>
              match len with
              | O => c :: replaceFrom r f (Some c) O s'
              | S n => replaceFrom r f (Some c) n s'
              end
          end
      | None =>
          match s with
          | [] => []
          | c :: s' => c :: replaceFrom r f (Some c) O s'
          end
      end
  end.

Definition replace (r : regex) (f : jsstring -> captures -> jsstring)
    (s : jsstring) : jsstring :=
  replaceFrom r f None O s.

(** Pattern constructors. *)

Definition chr (c : codeunit) : regex := Chr (N.eqb c).
Definition notChr (c : codeunit) : codeunit -> bool :=
  fun x => negb (x =? c).
Definition digits : regex := Seq (Chr isDigit) (Star isDigit).
Definition opt (r : regex) : regex := Alt r Eps.

(** [Canonicalize] under the [i] flag, for the ASCII letters: a code unit
    outside ASCII never canonicalizes to an ASCII one, so an ASCII pattern
    character matches exactly its two cases. *)
Definition upperAscii (c : codeunit) : codeunit := if isLower c then c - 32 else c.
Definition chrI (c : codeunit) : regex :=
  Chr (fun x => upperAscii x =? upperAscii c).

Fixpoint lit (s : jsstring) : regex :=
  match s with
  | [] => Eps
  | [c] => chr c
  | c :: s' => Seq (chr c) (lit s')
  end.

Fixpoint litI (s : jsstring) : regex :=
  match s with
  | [] => Eps
  | [c] => chrI c
  | c :: s' => Seq (chrI c) (litI s')
  end.

(** [a|b|c|...], in this order. *)
Fixpoint alts (l : list regex) : regex :=
  match l with
  | [] => Chr (fun _ => false)
  | [r] => r
  | r :: l' => Alt r (alts l')
  end.

End RegExp.
Import RegExp.

(** ** Number values

    A Number is an IEEE 754 binary64 value; the operations are the ones of
    the Standard Library's specification of binary floating point, with
    rounding to nearest, ties to even. *)

Module Number.

Definition number := spec_float.

Definition prec : Z := 53.
Definition emax : Z := 1024.

Definition ofZ (z : Z) : number := binary_normalize prec emax z 0 false.

(** [x * y] *)
Definition mul (x y : number) : number := SFmul prec emax x y.

(** The Number of the decimal numeral [m * 10^e], negative when [neg]:
    the quotient of two exact integers, correctly rounded. *)
Definition ofDecimal (neg : bool) (m : N) (e : Z) : number :=
  match m with
  | N0 => S754_zero neg
  | Npos p =>
      if (0 <=? e)%Z
      then SFdiv prec emax
             (S754_finite neg (p * Z.to_pos (10 ^ e)) 0)
             (S754_finite false 1 0)
      else SFdiv prec emax
             (S754_finite neg p 0)
             (S754_finite false (Z.to_pos (10 ^ (- e))) 0)
  end.

(** [ToBoolean]: zero and NaN are falsy. *)
Definition toBoolean (x : number) : bool :=
  match x with
  | S754_zero _ | S754_nan => false
  | _ => true
  end.

(** Numerator and denominator of [m * 2^e * 10^p]. *)
Definition scaled (m : positive) (e p : Z) : Z * Z :=
  ((Zpos m * (if 0 <=? e then 2 ^ e else 1)
            * (if 0 <=? p then 10 ^ p else 1))%Z,
   ((if 0 <=? e then 1 else 2 ^ (- e))
    * (if 0 <=? p then 1 else 10 ^ (- p)))%Z).

(** The [n] with [10^(n-1) <= m * 2^e < 10^n]: from a first guess,
    downwards while the value is below [10^(n-1)], then upwards while it
    is at least [10^n].  The exponents of binary64 values lie between
    -324 and 309. *)
Fixpoint lowerFrom (fuel : nat) (m : positive) (e n : Z) : Z :=
  match fuel with
  | O => n
  | S fuel' =>
      let (num, den) := scaled m e (1 - n) in
      if (num <? den)%Z then lowerFrom fuel' m e (n - 1)%Z else n
  end.

Fixpoint raiseFrom (fuel : nat) (m : positive) (e n : Z) : Z :=
  match fuel with
  | O => n
  | S fuel' =>
      let (num, den) := scaled m e (- n) in
      if (den <=? num)%Z then raiseFrom fuel' m e (n + 1)%Z else n
  end.

(** The guess comes from the binary length [b] of the value:
    [30103 / 100000] approximates the decimal logarithm of 2. *)
Definition magnitude (m : positive) (e : Z) : Z :=
  let b := (Zdigits2 (Zpos m) + e)%Z in
  raiseFrom 700 m e (lowerFrom 700 m e (b * 30103 / 100000)%Z).

Definition roundTrips (m : positive) (e : Z) (s n : Z) : bool :=
  match SFcompare (ofDecimal false (Z.to_N s) n) (S754_finite false m e) with
  | Some Eq => true
  | _ => false
  end.

(** The shortest digit string: the least [k] (from [k] on) for which an
    integer [s] of [k] digits has [s * 10^(n-k)] round to the value; of
    two such [s] the one closer to the value, the even one on a tie.
    Seventeen digits tell any two binary64 values apart. *)
Fixpoint shortestFrom (fuel : nat) (m : positive) (e n k : Z) : Z * Z :=
  let (num, den) := scaled m e (k - n) in
  let lo := (num / den)%Z in
  let hi := (lo + 1)%Z in
  let nearest :=
    match (2 * num ?= (lo + hi) * den)%Z with
    | Lt => lo
    | Gt => hi
    | Eq => if Z.even lo then lo else hi
    end in
  match fuel with
  | O => (nearest, k)
  | S fuel' =>
      match roundTrips m e lo (n - k), roundTrips m e hi (n - k) with
      | true, true => (nearest, k)
      | true, false => (lo, k)
      | false, true => (hi, k)
      | false, false => shortestFrom fuel' m e n (k + 1)%Z
      end
  end.

Fixpoint stripZeros (rev_digits : jsstring) : jsstring :=
  match rev_digits with
  | c :: r => if c =? ch "0" then stripZeros r else rev_digits
  | [] => []
  end.

Definition zeros (n : Z) : jsstring := repeat (ch "0") (Z.to_nat n).

(** [Number::toString] of the positive finite value [m * 2^e]. *)
Definition toStringPos (m : positive) (e : Z) : jsstring :=
  let n0 := magnitude m e in
  let (s, k0) := shortestFrom 17 m e n0 1 in
  let all := decimal (Z.to_N s) in
  let n := (n0 + (Z.of_nat (length all) - k0))%Z in
  let digits := rev (stripZeros (rev all)) in
  let k := Z.of_nat (length digits) in
  if ((k <=? n) && (n <=? 21))%Z then digits ++ zeros (n - k)
  else if ((0 <? n) && (n <=? 21))%Z then
    firstn (Z.to_nat n) digits ++ js "." ++ skipn (Z.to_nat n) digits
  else if ((-6 <? n) && (n <=? 0))%Z then
    js "0." ++ zeros (- n) ++ digits
  else
    let exponent :=
      js "e" ++ (if (n - 1 <? 0)%Z then js "-" else js "+")
             ++ decimal (Z.to_N (Z.abs (n - 1))) in
    if (k =? 1)%Z then digits ++ exponent
    else firstn 1 digits ++ js "." ++ skipn 1 digits ++ exponent.

(** [Number::toString] *)
Definition toString (x : number) : jsstring :=
  match x with
  | S754_nan => js "NaN"
  | S754_zero _ => js "0"
  | S754_infinity neg => (if neg then js "-" else []) ++ js "Infinity"
  | S754_finite neg m e => (if neg then js "-" else []) ++ toStringPos m e
  end.

(** [x.toFixed(0)] *)
Definition toFixed0 (x : number) : jsstring :=
  match x with
  | S754_finite neg m e =>
      let (num, den) := scaled m e 0 in
      (if neg then js "-" else []) ++
      (if (10 ^ 21 * den <=? num)%Z then toStringPos m e
       else decimal (Z.to_N ((2 * num + den) / (2 * den))))
  | S754_zero _ => js "0"
  | _ => toString x
  end.

End Number.

(** ** JSON values, [JSON.parse] and [JSON.stringify] *)

Module JSON.

Import Number.

Inductive json :=
| JNull
| JBool (b : bool)
| JNum (x : number)
| JStr (s : jsstring)
| JArr (items : list json)
| JObj (members : list (jsstring * json)).

(** *** Lexical level *)

Inductive token :=
| TLBrace | TRBrace | TLBrack | TRBrack | TColon | TComma
| TStr (s : jsstring)
| TNum (x : number)
| TTrue | TFalse | TNull.

Fixpoint spanDigits (s : jsstring) : jsstring * jsstring :=
  match s with
  | c :: s' =>
      if isDigit c then let (ds, rest) := spanDigits s' in (c :: ds, rest)
      else ([], s)
  | [] => ([], [])
  end.

Definition digitsValue (ds : jsstring) : N :=
  fold_left (fun acc c => 10 * acc + (c - 48)) ds 0.

(** A JSON number: an optional minus, an integer part without a leading
    zero, an optional fraction and an optional exponent; its value is the
    nearest Number. *)
Definition parseNumber (s : jsstring) : option number :=
  let (neg, s) :=
    match s with
    | c :: s' => if c =? ch "-" then (true, s') else (false, s)
    | [] => (false, s)
    end in
  let (int, s) := spanDigits s in
  match int with
  | [] => None
  | d :: int' =>
      if (d =? ch "0") && negb (Nat.eqb (length int') 0) then None
      else
        let fraction :=
          match s with
          | c :: s' =>
              if c =? ch "." then
                let (fr, rest) := spanDigits s' in
                match fr with [] => None | _ => Some (fr, rest) end
              else Some ([], s)
          | [] => Some ([], [])
          end in
        match fraction with
        | None => None
        | Some (fr, s) =>
            let exponent :=
              match s with
              | [] => Some 0%Z
              | c :: s' =>
                  if (c =? ch "e") || (c =? ch "E") then
                    let (eneg, s'') :=
                      match s' with
                      | c' :: t =>
                          if c' =? ch "-" then (true, t)
                          else if c' =? ch "+" then (false, t)
                          else (false, s')
                      | [] => (false, s')
                      end in
                    let (ds, rest) := spanDigits s'' in
                    match ds, rest with
                    | _ :: _, [] =>
                        Some (if eneg then (- Z.of_N (digitsValue ds))%Z
                              else Z.of_N (digitsValue ds))
                    | _, _ => None
                    end
                  else None
              end in
            match exponent with
            | None => None
            | Some e =>
                Some (ofDecimal neg (digitsValue (int ++ fr))
                        (e - Z.of_nat (length fr))%Z)
            end
        end
  end.

Definition hexValue (c : codeunit) : option N :=
  if isDigit c then Some (c - 48)
  else if (65 <=? c) && (c <=? 70) then Some (c - 55)
  else if (97 <=? c) && (c <=? 102) then Some (c - 87)
  else None.

Inductive mode :=
| LStart
| LStr (acc : jsstring)
| LEsc (acc : jsstring)
| LUni (acc : jsstring) (n : nat) (value : N)
| LNum (acc : jsstring)
| LWord (acc : jsstring).

Definition isNumberChar (c : codeunit) : bool :=
  isDigit c || existsb (N.eqb c) [ch "-"; ch "+"; ch "."; ch "e"; ch "E"].

Definition wordToken (w : jsstring) : option token :=
  if eqb w (js "true") then Some TTrue
  else if eqb w (js "false") then Some TFalse
  else if eqb w (js "null") then Some TNull
  else None.

(** The token that ends when the lexer leaves [m], if [m] holds one. *)
Definition flush (m : mode) : option (list token) :=
  match m with
  | LStart => Some []
  | LNum acc => option_map (fun x => [TNum x]) (parseNumber (rev acc))
  | LWord acc => option_map (fun t => [t]) (wordToken (rev acc))
  | _ => None
  end.

(** A code unit read between tokens. *)
Definition start (c : codeunit) : option (list token * mode) :=
  if existsb (N.eqb c) [0x9; 0xA; 0xD; 0x20] then Some ([], LStart)
  else if c =? ch "{" then Some ([TLBrace], LStart)
  else if c =? ch "}" then Some ([TRBrace], LStart)
  else if c =? ch "[" then Some ([TLBrack], LStart)
  else if c =? ch "]" then Some ([TRBrack], LStart)
  else if c =? ch ":" then Some ([TColon], LStart)
  else if c =? ch "," then Some ([TComma], LStart)
  else if c =? dquote then Some ([], LStr [])
  else if (c =? ch "-") || isDigit c then Some ([], LNum [c])
  else if isLower c then Some ([], LWord [c])
  else None.

Definition lexStep (m : mode) (c : codeunit) : option (list token * mode) :=
  match m with
  | LStart => start c
  | LStr acc =>
      if c =? dquote then Some ([TStr (rev acc)], LStart)
      else if c =? ch "\" then Some ([], LEsc acc)
      else if c <? 0x20 then None
      else Some ([], LStr (c :: acc))
  | LEsc acc =>
      if (c =? dquote) || (c =? ch "\") || (c =? ch "/")
      then Some ([], LStr (c :: acc))
      else if c =? ch "b" then Some ([], LStr (0x8 :: acc))
      else if c =? ch "f" then Some ([], LStr (0xC :: acc))
      else if c =? ch "n" then Some ([], LStr (0xA :: acc))
      else if c =? ch "r" then Some ([], LStr (0xD :: acc))
      else if c =? ch "t" then Some ([], LStr (0x9 :: acc))
      else if c =? ch "u" then Some ([], LUni acc 0 0)
      else None
  | LUni acc n value =>
      match hexValue c with
      | Some d =>
          if Nat.eqb n 3 then Some ([], LStr (16 * value + d :: acc))
          else Some ([], LUni acc (S n) (16 * value + d))
      | None => None
      end
  | LNum acc =>
      if isNumberChar c then Some ([], LNum (c :: acc))
      else
        match flush m, start c with
        | Some ts, Some (ts', m') => Some (ts ++ ts', m')
        | _, _ => None
        end
  | LWord acc =>
      if isLower c then Some ([], LWord (c :: acc))
      else
        match flush m, start c with
        | Some ts, Some (ts', m') => Some (ts ++ ts', m')
        | _, _ => None
        end
  end.

Fixpoint lex (m : mode) (s : jsstring) : option (list token) :=
  match s with
  | [] => flush m
  | c :: s' =>
      match lexStep m c with
      | Some (ts, m') => option_map (app ts) (lex m' s')
      | None => None
      end
  end.

(** *** Syntactic level: a pushdown automaton over the tokens *)

Inductive frame :=
| FArr (acc : list json)
| FObj (acc : list (jsstring * json)) (key : option jsstring).

Inductive expect :=
| EValue | EValueOrEnd | EKeyOrEnd | EKey | EColon | ECommaOrEnd
| EDone (v : json).

(** [CreateDataProperty]: a key met again keeps its place and takes the
    new value. *)
Fixpoint setProperty (k : jsstring) (v : json)
    (ms : list (jsstring * json)) : list (jsstring * json) :=
  match ms with
  | [] => [(k, v)]
  | (k', v') :: ms' =>
      if eqb k k' then (k', v) :: ms' else (k', v') :: setProperty k v ms'
  end.

(** A finished value goes to the enclosing container. *)
Definition deliver (v : json) (stack : list frame)
  : option (expect * list frame) :=
  match stack with
  | [] => Some (EDone v, [])
  | FArr acc :: st => Some (ECommaOrEnd, FArr (v :: acc) :: st)
  | FObj acc (Some k) :: st =>
      Some (ECommaOrEnd, FObj (setProperty k v acc) None :: st)
  | FObj _ None :: _ => None
  end.

Definition closeArray (stack : list frame) : option (expect * list frame) :=
  match stack with
  | FArr acc :: st => deliver (JArr (rev acc)) st
  | _ => None
  end.

Definition closeObject (stack : list frame) : option (expect * list frame) :=
  match stack with
  | FObj acc None :: st => deliver (JObj acc) st
  | _ => None
  end.

Definition value (t : token) (stack : list frame)
  : option (expect * list frame) :=
  match t with
  | TLBrack => Some (EValueOrEnd, FArr [] :: stack)
  | TLBrace => Some (EKeyOrEnd, FObj [] None :: stack)
  | TStr s => deliver (JStr s) stack
  | TNum x => deliver (JNum x) stack
  | TTrue => deliver (JBool true) stack
  | TFalse => deliver (JBool false) stack
  | TNull => deliver JNull stack
  | _ => None
  end.

Definition key (t : token) (stack : list frame)
  : option (expect * list frame) :=
  match t, stack with
  | TStr k, FObj acc None :: st => Some (EColon, FObj acc (Some k) :: st)
  | _, _ => None
  end.

Definition step (e : expect) (stack : list frame) (t : token)
  : option (expect * list frame) :=
  match e with
  | EValue => value t stack
  | EValueOrEnd =>
      match t with TRBrack => closeArray stack | _ => value t stack end
  | EKeyOrEnd =>
      match t with TRBrace => closeObject stack | _ => key t stack end
  | EKey => key t stack
  | EColon => match t with TColon => Some (EValue, stack) | _ => None end
  | ECommaOrEnd =>
      match t, stack with
      | TComma, FArr _ :: _ => Some (EValue, stack)
      | TComma, FObj _ _ :: _ => Some (EKey, stack)
      | TRBrack, _ => closeArray stack
      | TRBrace, _ => closeObject stack
      | _, _ => None
      end
  | EDone _ => None
  end.

Fixpoint run (e : expect) (stack : list frame) (ts : list token)
  : option json :=
  match ts with
  | [] => match e with EDone v => Some v | _ => None end
  | t :: ts' =>
      match step e stack t with
      | Some (e', stack') => run e' stack' ts'
      | None => None
      end
  end.

(** [JSON.parse(text)]: [None] stands for the [SyntaxError]. *)
Definition parse (text : jsstring) : option json :=
  match lex LStart text with
  | Some ts => run EValue [] ts
  | None => None
  end.

(** *** [JSON.stringify(value, null, 2)] *)

Definition hexDigit (n : N) : codeunit := if n <? 10 then 48 + n else 87 + n.

(** The escape [\uXXXX], in lowercase hexadecimal. *)
Definition unicodeEscape (c : codeunit) : jsstring :=
  js "\u" ++ map hexDigit
    [c / 4096 mod 16; c / 256 mod 16; c / 16 mod 16; c mod 16].

Definition isLeadSurrogate (c : codeunit) : bool :=
  (0xD800 <=? c) && (c <=? 0xDBFF).
Definition isTrailSurrogate (c : codeunit) : bool :=
  (0xDC00 <=? c) && (c <=? 0xDFFF).

Definition quoteUnit (c : codeunit) : jsstring :=
  if c =? 0x8 then js "\b"
  else if c =? 0x9 then js "\t"
  else if c =? 0xA then js "\n"
  else if c =? 0xC then js "\f"
  else if c =? 0xD then js "\r"
  else if c =? dquote then ch "\" :: [dquote]
  else if c =? ch "\" then js "\\"
  else if (c <? 0x20) || isLeadSurrogate c || isTrailSurrogate c
  then unicodeEscape c
  else [c].

(** The body of [QuoteJSONString]: code point by code point, a surrogate
    pair is kept and a lone surrogate is escaped. *)
Fixpoint quoteBody (s : jsstring) : jsstring :=
  match s with
  | [] => []
  | c :: s' =>
      match s' with
      | c' :: s'' =>
          if isLeadSurrogate c && isTrailSurrogate c'
          then c :: c' :: quoteBody s''
          else quoteUnit c ++ quoteBody s'
      | [] => quoteUnit c
      end
  end.

Definition quote (s : jsstring) : jsstring :=
  [dquote] ++ quoteBody s ++ [dquote].

(** An array index: the canonical numeral of an integer below
    [2^32 - 1]. *)
Definition arrayIndex (k : jsstring) : option N :=
  match k with
  | [] => None
  | c :: k' =>
      if forallb isDigit k
         && negb ((c =? ch "0") && negb (Nat.eqb (length k') 0))
         && (digitsValue k <? 4294967295)
      then Some (digitsValue k) else None
  end.

Fixpoint insertIndexed {A} (i : N) (x : A) (l : list (N * A))
  : list (N * A) :=
  match l with
  | [] => [(i, x)]
  | (j, y) :: l' =>
      if i <? j then (i, x) :: l else (j, y) :: insertIndexed i x l'
  end.

(** [OrdinaryOwnPropertyKeys]: the array indices in ascending order, then
    the other keys in the order of their creation. *)
Definition ownPropertyOrder {A} (ms : list (jsstring * A))
  : list (jsstring * A) :=
  let indexed :=
    fold_left
      (fun acc kv =>
         match arrayIndex (fst kv) with
         | Some i => insertIndexed i kv acc
         | None => acc
         end) ms [] in
  map snd indexed ++
  filter (fun kv => match arrayIndex (fst kv) with
                    | Some _ => false | None => true end) ms.

Definition gap : jsstring := js "  ".

Definition bracket (open close indent : jsstring) (parts : list jsstring)
  : jsstring :=
  match parts with
  | [] => open ++ close
  | _ =>
      open ++ [newline] ++ indent ++ gap ++
      join (js "," ++ [newline] ++ indent ++ gap) parts ++
      [newline] ++ indent ++ close
  end.

(** [SerializeJSONProperty] with the gap of two spaces; [indent] is the
    indentation of the enclosing line. *)
Fixpoint serialize (indent : jsstring) (v : json) : jsstring :=
  match v with
  | JNull => js "null"
  | JBool true => js "true"
  | JBool false => js "false"
  | JNum x =>
      match x with
      | S754_finite _ _ _ | S754_zero _ => Number.toString x
      | _ => js "null"
      end
  | JStr s => quote s
  | JArr items =>
      bracket (js "[") (js "]") indent
        (map (serialize (indent ++ gap)) items)
  | JObj members =>
      bracket (js "{") (js "}") indent
        (map (fun kv => quote (fst kv) ++ js ": " ++ snd kv)
           (ownPropertyOrder
              (map (fun kv => (fst kv, serialize (indent ++ gap) (snd kv)))
                 members)))
  end.

Definition stringify (v : json) : jsstring := serialize [] v.

End JSON.

(** ** Conversions of values

    What [JSON.parse] returns has the type [any] in the sources, and the
    formatter applies the conversions of the language to it: the test of
    a condition, the multiplication, the template literal and the
    assignment to [textContent].  They are given here for the values
    that [JSON.parse] can return: primitives, arrays and objects whose
    prototypes are the built-in ones and whose properties hold such
    values again, none of them callable. *)

Module Value.

Import Number JSON.

(** The own property [k] of an object with the members [ms]. *)
Fixpoint getOwnProperty (k : jsstring) (ms : list (jsstring * json))
  : option json :=
  match ms with
  | [] => None
  | (k', v) :: ms' => if eqb k' k then Some v else getOwnProperty k ms'
  end.

(** [ToBoolean] *)
Definition ToBoolean (v : json) : bool :=
  match v with
  | JNull => false
  | JBool b => b
  | JNum x => Number.toBoolean x
  | JStr [] => false
  | JStr (_ :: _) => true
  | JArr _ | JObj _ => true
  end.

(** All the strings, when each conversion has given one. *)
Fixpoint sequence (l : list (option jsstring)) : option (list jsstring) :=
  match l with
  | [] => Some []
  | Some x :: l' => option_map (cons x) (sequence l')
  | None :: _ => None
  end.

(** [ToString]; [None] is the [TypeError] of [OrdinaryToPrimitive].  An
    array goes through [Array.prototype.join], which takes [null] for the
    empty string.  An object goes through [Object.prototype.toString],
    unless it has an own property [toString]: its value is not callable,
    and [valueOf], own or inherited, gives no primitive either. *)
Fixpoint ToString (v : json) : option jsstring :=
  match v with
  | JNull => Some (js "null")
  | JBool true => Some (js "true")
  | JBool false => Some (js "false")
  | JNum x => Some (Number.toString x)
  | JStr s => Some s
  | JArr items =>
      option_map (join (js ","))
        (sequence
           (map (fun item => match item with
                             | JNull => Some []
                             | _ => ToString item
                             end) items))
  | JObj members =>
      match getOwnProperty (js "toString") members with
      | Some _ => None
      | None => Some (js "[object Object]")
      end
  end.

(** The value of a sequence of digits of the radix, which is at most 16;
    [None] when a character is not such a digit. *)
Fixpoint radixValue (radix acc : N) (s : jsstring) : option N :=
  match s with
  | [] => Some acc
  | c :: s' =>
      match hexValue c with
      | Some d =>
          if d <? radix then radixValue radix (radix * acc + d) s' else None
      | None => None
      end
  end.

(** [NonDecimalIntegerLiteral]: [0x], [0o] or [0b], in either case, and
    at least one digit. *)
Definition nonDecimalLiteral (s : jsstring) : option number :=
  match s with
  | z :: x :: d :: ds =>
      let radix :=
        if (x =? ch "x") || (x =? ch "X") then Some 16
        else if (x =? ch "o") || (x =? ch "O") then Some 8
        else if (x =? ch "b") || (x =? ch "B") then Some 2
        else None in
      match radix with
      | Some r =>
          if z =? ch "0"
          then option_map (fun n => Number.ofZ (Z.of_N n))
                 (radixValue r 0 (d :: ds))
          else None
      | None => None
      end
  | _ => None
  end.

(** [ExponentPart], or nothing: what follows the digits of a decimal
    literal. *)
Definition exponentPart (s : jsstring) : option Z :=
  match s with
  | [] => Some 0%Z
  | c :: s' =>
      if (c =? ch "e") || (c =? ch "E") then
        let (negative, s'') :=
          match s' with
          | c' :: t =>
              if c' =? ch "-" then (true, t)
              else if c' =? ch "+" then (false, t)
              else (false, s')
          | [] => (false, s')
          end in
        let (ds, rest) := spanDigits s'' in
        match ds, rest with
        | _ :: _, [] =>
            Some (if negative then (- Z.of_N (digitsValue ds))%Z
                  else Z.of_N (digitsValue ds))
        | _, _ => None
        end
      else None
  end.

(** [StrUnsignedDecimalLiteral] with the sign that stood before it:
    [Infinity], or digits with a point among them or not, then an
    optional exponent; the value is the nearest Number. *)
Definition unsignedDecimalLiteral (negative : bool) (s : jsstring)
  : option number :=
  if eqb s (js "Infinity") then Some (S754_infinity negative)
  else
    let (int, s1) := spanDigits s in
    let (fraction, s2) :=
      match s1 with
      | c :: s' => if c =? ch "." then spanDigits s' else ([], s1)
      | [] => ([], [])
      end in
    match int ++ fraction with
    | [] => None
    | _ :: _ =>
        option_map
          (fun e =>
             Number.ofDecimal negative (digitsValue (int ++ fraction))
               (e - Z.of_nat (length fraction))%Z)
          (exponentPart s2)
    end.

(** [StringToNumber]: white space around the literal is skipped, the
    empty literal is zero, and a text that is no [StringNumericLiteral]
    is NaN. *)
Definition StringToNumber (s : jsstring) : number :=
  match trim s with
  | [] => S754_zero false
  | c :: t =>
      let literal :=
        if c =? ch "+" then unsignedDecimalLiteral false t
        else if c =? ch "-" then unsignedDecimalLiteral true t
        else
          match nonDecimalLiteral (c :: t) with
          | Some x => Some x
          | None => unsignedDecimalLiteral false (c :: t)
          end in
      match literal with
      | Some x => x
      | None => S754_nan
      end
  end.

(** [ToNumber]; [None] is the [TypeError] of [OrdinaryToPrimitive].  For
    an array or an object, [valueOf] gives no primitive and the string of
    [ToString] is read as a number. *)
Definition ToNumber (v : json) : option number :=
  match v with
  | JNull => Some (S754_zero false)
  | JBool true => Some (Number.ofZ 1)
  | JBool false => Some (S754_zero false)
  | JNum x => Some x
  | JStr s => Some (StringToNumber s)
  | JArr _ | JObj _ => option_map StringToNumber (ToString v)
  end.

End Value.

(** ** The token colouriser ([highlightCode], the substitutions) *)

Module Highlight.

(** The opening tag of a span of class [cls], the closing tag, and a whole
    span around [body]. *)
Definition spanOpen (cls : string) : jsstring :=
  js "<span class=" ++ [dquote] ++ js cls ++ [dquote] ++ js ">".
Definition spanClose : jsstring := js "</span>".
Definition span (cls : string) (body : jsstring) : jsstring :=
  spanOpen cls ++ body ++ spanClose.

(** The alternatives of a pattern source written [a|b|c]. *)
Fixpoint splitBar (acc s : jsstring) : list jsstring :=
  match s with
  | [] => [rev acc]
  | c :: s' =>
      if c =? ch "|" then rev acc :: splitBar [] s'
      else splitBar (c :: acc) s'
  end.

(** Lines 200-203: the three global replacements of [&], [<] and [>] by
    their entities, in this order. *)
Definition escapeHtml (code : jsstring) : jsstring :=
  let code := replace (chr (ch "&")) (fun _ _ => js "&amp;") code in
  let code := replace (chr (ch "<")) (fun _ _ => js "&lt;") code in
  replace (chr (ch ">")) (fun _ _ => js "&gt;") code.

(** Line 209: two dashes and every code unit up to the end of the line,
    as group 1. *)
Definition commentPattern : regex :=
  Group 1 (Seq (lit (js "--")) (Star (notChr newline))).

(** Lines 212-213: a quote [q], the code units up to the next [q], and
    that [q], as group 1. *)
Definition quotedPattern (q : codeunit) : regex :=
  Group 1 (Seq (chr q) (Seq (Star (notChr q)) (chr q))).

Definition keywordSource : jsstring :=
  js "SELECT|FROM|WHERE|LEFT|RIGHT|INNER|JOIN|ON|GROUP BY|ORDER BY|HAVING|LIMIT|AS|DISTINCT|CASE|WHEN|THEN|ELSE|END|WITH|AND|OR|NOT|IN|NOW|INTERVAL|DATE_TRUNC|AVG|SUM|COUNT|MAX|MIN|RANK|OVER|PARTITION BY|ROWS|PRECEDING|DATE_SUB|ISODate".

(** Line 217: the alternatives between two word boundaries, with the
    flags [g] and [i]. *)
Definition keywordPattern : regex :=
  Seq WordB (Seq (Group 1 (alts (map litI (splitBar [] keywordSource)))) WordB).

Definition mongoSource : jsstring :=
  js "match|group|project|addFields|lookup|sort|limit|unwind|cond|eq|ne|gt|gte|lt|lte|in|sum|avg|max|min|dateToString|size|subtract|divide|literal|push|ne|and|or|in".

(** Line 220: a string span whose body is a double-quoted [$] followed by
    one of the operator names; group 1 is the [$] and the name. *)
Definition mongoOperators : regex :=
  Seq (lit (spanOpen "token-string" ++ [dquote]))
    (Seq (Group 1 (Seq (chr (ch "$"))
                       (alts (map lit (splitBar [] mongoSource)))))
         (lit ([dquote] ++ spanClose))).

(** Line 224: digits, optionally a dot and digits, between two word
    boundaries. *)
Definition numberPattern : regex :=
  Seq WordB
    (Seq (Group 1 (Seq digits
                       (opt (Group 2 (Seq (chr (ch ".")) digits)))))
         WordB).

(** Line 227: one of the three literals between two word boundaries. *)
Definition booleanPattern : regex :=
  Seq WordB
    (Seq (Group 1 (alts [lit (js "true"); lit (js "false"); lit (js "null")]))
         WordB).

(** The replacement text: a span of class [cls] around [$1]. *)
Definition wrap1 (cls : string) : jsstring -> captures -> jsstring :=
  fun _ cs => span cls (capture 1 cs).

(** The replacement text: a span of class [cls] around [$&]. *)
Definition wrapMatch (cls : string) : jsstring -> captures -> jsstring :=
  fun m _ => span cls m.

Definition ruleComments : jsstring -> jsstring :=
  replace commentPattern (wrap1 "token-comment").
Definition ruleSingleQuoted : jsstring -> jsstring :=
  replace (quotedPattern (ch "'")) (wrap1 "token-string").
Definition ruleDoubleQuoted : jsstring -> jsstring :=
  replace (quotedPattern dquote) (wrap1 "token-string").
Definition ruleKeywords : jsstring -> jsstring :=
  replace keywordPattern (wrapMatch "token-keyword").
Definition ruleMongoOperators : jsstring -> jsstring :=
  replace mongoOperators
    (fun _ cs => span "token-keyword" ([dquote] ++ capture 1 cs ++ [dquote])).
Definition ruleNumbers : jsstring -> jsstring :=
  replace numberPattern (wrap1 "token-number").
Definition ruleBooleans : jsstring -> jsstring :=
  replace booleanPattern (wrap1 "token-boolean").

(** Lines 205-229: the substitutions, in the order of the source. *)
Definition tokenRules (code : jsstring) : jsstring :=
  let code := ruleComments code in
  let code := ruleSingleQuoted code in
  let code := ruleDoubleQuoted code in
  let code := ruleKeywords code in
  let code := ruleMongoOperators code in
  let code := ruleNumbers code in
  ruleBooleans code.

End Highlight.

(** * The application ([src/index.tsx]) *)

Module App.

Import Highlight.

(** ** [highlightCode], lines 186-230 *)

Definition highlightCode (code : jsstring) : jsstring :=
  let formattedCode := trim code in
  let isMongo :=
    startsWith (js "[") formattedCode || startsWith (js "{") formattedCode in
  let formattedCode :=
    if isMongo then
      match JSON.parse formattedCode with
      | Some value => JSON.stringify value
      | None => formattedCode
      end
    else formattedCode in
  tokenRules (escapeHtml formattedCode).

(** ** The result and the page

    [displayQueryResult] receives a value of type [any]: what
    [JSON.parse] made of the text of the answer (line 158), or the
    object literal of line 171.  It reads seven properties off it (lines
    252-258), the ones that [responseSchema] names (lines 132-144).  The
    record holds what these reads give: the value of the property, of
    whatever type, or [None] for [undefined].  Nothing checks it against
    the schema. *)

Import Value.

Record QueryResult := {
  queryComplexity : option JSON.json;
  estimatedExecutionTime : option JSON.json;
  targetDatabases : option JSON.json;
  confidenceScore : option JSON.json;
  generatedSQL : option JSON.json;
  queryReasoning : option JSON.json;
  optimizationApplied : option JSON.json
}.

(** The object literal of line 171. *)
Definition emptyResult : QueryResult :=
  {| queryComplexity := None; estimatedExecutionTime := None;
     targetDatabases := None; confidenceScore := None;
     generatedSQL := None; queryReasoning := None;
     optimizationApplied := None |}.

(** [data.name] on a value that is not [null], for one of the seven
    names: an own property of an object, [undefined] on every other
    value, since no built-in prototype has a property of such a name. *)
Definition get (name : string) (data : JSON.json) : option JSON.json :=
  match data with
  | JSON.JObj members => getOwnProperty (js name) members
  | _ => None
  end.

(** The seven reads on the value [data]; [None] for [null], on which the
    first read throws. *)
Definition properties (data : JSON.json) : option QueryResult :=
  match data with
  | JSON.JNull => None
  | _ =>
      Some {| queryComplexity := get "queryComplexity" data;
              estimatedExecutionTime := get "estimatedExecutionTime" data;
              targetDatabases := get "targetDatabases" data;
              confidenceScore := get "confidenceScore" data;
              generatedSQL := get "generatedSQL" data;
              queryReasoning := get "queryReasoning" data;
              optimizationApplied := get "optimizationApplied" data |}
  end.

(** [v || fallback] *)
Definition orElse (v : option JSON.json) (fallback : jsstring) : JSON.json :=
  match v with
  | Some x => if ToBoolean x then x else JSON.JStr fallback
  | None => JSON.JStr fallback
  end.

(** The seven constants of lines 252-258.  The two template literals
    convert their value, and are [None] when the conversion throws; the
    five others are the value of the property, or the fallback. *)
Record Fields := {
  confidence : option jsstring;
  complexity : JSON.json;
  time : JSON.json;
  targets : JSON.json;
  reasoning : JSON.json;
  optimization : option jsstring;
  sqlQuery : JSON.json
}.

Definition hundred : Number.number := Number.ofZ 100.

Definition renderFields (data : QueryResult) : Fields :=
  {| confidence :=
       match confidenceScore data with
       | Some score =>
           if ToBoolean score
           then option_map
                  (fun x => Number.toFixed0 (Number.mul x hundred) ++ js "%")
                  (ToNumber score)
           else Some (js "N/A")
       | None => Some (js "N/A")
       end;
     complexity := orElse (queryComplexity data) (js "N/A");
     time := orElse (estimatedExecutionTime data) (js "N/A");
     targets := orElse (targetDatabases data) (js "N/A");
     reasoning := orElse (queryReasoning data) (js "No reasoning provided.");
     optimization :=
       match optimizationApplied data with
       | Some applied =>
           if ToBoolean applied
           then option_map
                  (fun text =>
                     js "<strong>Optimization Applied:</strong> " ++ text)
                  (ToString applied)
           else Some []
       | None => Some []
       end;
     sqlQuery := orElse (generatedSQL data) (js "-- No query generated --") |}.

(** The elements that [displayQueryResult] writes, under the names of its
    variables. *)
Inductive DisplayEl :=
| confidenceEl | complexityEl | timeEl | targetsEl
| sqlCodeEl | reasoningEl | optimizationEl.

Definition displayEls : list DisplayEl :=
  [confidenceEl; complexityEl; timeEl; targetsEl; sqlCodeEl; reasoningEl;
   optimizationEl].

Definition DisplayEl_eqb (a b : DisplayEl) : bool :=
  match a, b with
  | confidenceEl, confidenceEl | complexityEl, complexityEl
  | timeEl, timeEl | targetsEl, targetsEl | sqlCodeEl, sqlCodeEl
  | reasoningEl, reasoningEl | optimizationEl, optimizationEl => true
  | _, _ => false
  end.

(** What is thrown: an [Error] with its message, or another value with
    its [String(...)]. *)
Inductive Thrown :=
| ErrorObject (message : jsstring)
| OtherValue (asString : jsstring).

(** [error instanceof Error ? error.message : String(error)] *)
Definition errorText (e : Thrown) : jsstring :=
  match e with
  | ErrorObject message => message
  | OtherValue s => s
  end.

Inductive completion :=
| Normal
| Throw (e : Thrown).

Inductive ConsoleEntry :=
| ElementsNotFound
| QueryError (e : Thrown).

Record TextArea := {
  value : jsstring;
  borderColor : jsstring;
  boxShadow : jsstring
}.

(** The page, as far as the code reads and writes it.  An element that
    the document lacks is [None].  [index.html] is not among the sources:
    which display elements lie inside [#queryAnalysis] is a parameter of
    the page ([insideAnalysis]), since writing the [innerHTML] of an
    element removes its descendants from the document. *)
Record Document := {
  queryInput : option TextArea;
  activeChips : list (option jsstring);
  buttonDisabled : option bool;
  buttonTextHidden : option bool;
  loadingHidden : option bool;
  resultHidden : option bool;
  analysis : option jsstring;
  display : DisplayEl -> option jsstring;
  insideAnalysis : DisplayEl -> bool;
  alerts : list jsstring;
  console : list ConsoleEntry;
  requests : list jsstring
}.

Definition setQueryInput (v : option TextArea) (d : Document) : Document :=
  {| queryInput := v; activeChips := activeChips d;
     buttonDisabled := buttonDisabled d;
     buttonTextHidden := buttonTextHidden d;
     loadingHidden := loadingHidden d; resultHidden := resultHidden d;
     analysis := analysis d; display := display d;
     insideAnalysis := insideAnalysis d; alerts := alerts d;
     console := console d; requests := requests d |}.

Definition setButtonDisabled (v : option bool) (d : Document) : Document :=
  {| queryInput := queryInput d; activeChips := activeChips d;
     buttonDisabled := v;
     buttonTextHidden := buttonTextHidden d;
     loadingHidden := loadingHidden d; resultHidden := resultHidden d;
     analysis := analysis d; display := display d;
     insideAnalysis := insideAnalysis d; alerts := alerts d;
     console := console d; requests := requests d |}.

Definition setButtonTextHidden (v : option bool) (d : Document) : Document :=
  {| queryInput := queryInput d; activeChips := activeChips d;
     buttonDisabled := buttonDisabled d;
     buttonTextHidden := v;
     loadingHidden := loadingHidden d; resultHidden := resultHidden d;
     analysis := analysis d; display := display d;
     insideAnalysis := insideAnalysis d; alerts := alerts d;
     console := console d; requests := requests d |}.

Definition setLoadingHidden (v : option bool) (d : Document) : Document :=
  {| queryInput := queryInput d; activeChips := activeChips d;
     buttonDisabled := buttonDisabled d;
     buttonTextHidden := buttonTextHidden d;
     loadingHidden := v; resultHidden := resultHidden d;
     analysis := analysis d; display := display d;
     insideAnalysis := insideAnalysis d; alerts := alerts d;
     console := console d; requests := requests d |}.

Definition setResultHidden (v : option bool) (d : Document) : Document :=
  {| queryInput := queryInput d; activeChips := activeChips d;
     buttonDisabled := buttonDisabled d;
     buttonTextHidden := buttonTextHidden d;
     loadingHidden := loadingHidden d; resultHidden := v;
     analysis := analysis d; display := display d;
     insideAnalysis := insideAnalysis d; alerts := alerts d;
     console := console d; requests := requests d |}.

Definition setContent (a : option jsstring)
    (f : DisplayEl -> option jsstring) (d : Document) : Document :=
  {| queryInput := queryInput d; activeChips := activeChips d;
     buttonDisabled := buttonDisabled d;
     buttonTextHidden := buttonTextHidden d;
     loadingHidden := loadingHidden d; resultHidden := resultHidden d;
     analysis := a; display := f;
     insideAnalysis := insideAnalysis d; alerts := alerts d;
     console := console d; requests := requests d |}.

(** [alert(message)] *)
Definition alert (message : jsstring) (d : Document) : Document :=
  {| queryInput := queryInput d; activeChips := activeChips d;
     buttonDisabled := buttonDisabled d;
     buttonTextHidden := buttonTextHidden d;
     loadingHidden := loadingHidden d; resultHidden := resultHidden d;
     analysis := analysis d; display := display d;
     insideAnalysis := insideAnalysis d; alerts := alerts d ++ [message];
     console := console d; requests := requests d |}.

(** [console.error(...)] *)
Definition consoleError (entry : ConsoleEntry) (d : Document) : Document :=
  {| queryInput := queryInput d; activeChips := activeChips d;
     buttonDisabled := buttonDisabled d;
     buttonTextHidden := buttonTextHidden d;
     loadingHidden := loadingHidden d; resultHidden := resultHidden d;
     analysis := analysis d; display := display d;
     insideAnalysis := insideAnalysis d; alerts := alerts d;
     console := console d ++ [entry]; requests := requests d |}.

(** The request leaves for the model service. *)
Definition send (prompt : jsstring) (d : Document) : Document :=
  {| queryInput := queryInput d; activeChips := activeChips d;
     buttonDisabled := buttonDisabled d;
     buttonTextHidden := buttonTextHidden d;
     loadingHidden := loadingHidden d; resultHidden := resultHidden d;
     analysis := analysis d; display := display d;
     insideAnalysis := insideAnalysis d; alerts := alerts d;
     console := console d; requests := requests d ++ [prompt] |}.

(** [el?.classList.add('hidden')], [el?.classList.remove('hidden')] and
    [if (button) button.disabled = v] on an element that may be missing. *)
Definition assign {A} (v : A) (el : option A) : option A :=
  option_map (fun _ => v) el.

(** [el.textContent = text] and [el.innerHTML = html] on a display
    element. *)
Definition write (el : DisplayEl) (content : jsstring) (d : Document)
  : Document :=
  setContent (analysis d)
    (fun x => if DisplayEl_eqb x el then assign content (display d x)
              else display d x) d.

(** [analysis.innerHTML = html]: the former descendants of the element
    leave the document. *)
Definition writeAnalysis (html : jsstring) (d : Document) : Document :=
  match analysis d with
  | Some _ =>
      setContent (Some html)
        (fun x => if insideAnalysis d x then None else display d x) d
  | None => d
  end.

(** ** [displayQueryResult]

    The messages of the [TypeError]s that the formatter can meet are left
    to the engine: of a property read on [null], of a call of something
    that is no function, and of a conversion that finds no primitive. *)

Record TypeErrors := {
  nullRead : Thrown;
  notFunction : Thrown;
  notPrimitive : Thrown
}.

Section Display.

Variable typeErrors : TypeErrors.

(** A statement: the page after it, and how it completed. *)
Definition statement := Document -> Document * completion.

Definition andThen (first next : statement) : statement :=
  fun d =>
    match first d with
    | (d', Normal) => next d'
    | (d', Throw e) => (d', Throw e)
    end.

Notation "first ;; next" := (andThen first next)
  (at level 61, right associativity).

(** [el.textContent = v], the value converted by [ToString]. *)
Definition setTextContent (el : DisplayEl) (v : JSON.json) : statement :=
  fun d =>
    match ToString v with
    | Some text => (write el text d, Normal)
    | None => (d, Throw (notPrimitive typeErrors))
    end.

(** [el.innerHTML = html] *)
Definition setInnerHTML (el : DisplayEl) (html : jsstring) : statement :=
  fun d => (write el html d, Normal).

(** Line 267: [highlightCode] calls [code.trim()] first (line 187), and
    only a string has a method of this name. *)
Definition setHighlighted (el : DisplayEl) (code : JSON.json) : statement :=
  fun d =>
    match code with
    | JSON.JStr text => (write el (highlightCode text) d, Normal)
    | _ => (d, Throw (notFunction typeErrors))
    end.

(** Lines 236-268.  [data] is [None] for the value [null]. *)
Definition displayQueryResult (data : option QueryResult) (d : Document)
  : Document * completion :=
  if forallb (fun el => match display d el with
                        | Some _ => true | None => false end) displayEls
  then
    match data with
    | None => (d, Throw (nullRead typeErrors))
    | Some data =>
        let f := renderFields data in
        match confidence f, optimization f with
        | Some confidence, Some optimization =>
            (setTextContent confidenceEl (JSON.JStr confidence) ;;
             setTextContent complexityEl (complexity f) ;;
             setTextContent timeEl (time f) ;;
             setTextContent targetsEl (targets f) ;;
             setTextContent reasoningEl (reasoning f) ;;
             setInnerHTML optimizationEl optimization ;;
             setHighlighted sqlCodeEl (sqlQuery f)) d
        | _, _ => (d, Throw (notPrimitive typeErrors))
        end
    end
  else (consoleError ElementsNotFound d, Normal).

(** ** [executeQuery] *)

(** What the awaited call and the parsing of its text come to:
    [generateContent] rejects with [e]; or it answers and
    [JSON.parse(response.text)] throws [e]; or the text is parsed, to
    [null] ([None]) or to a value off which the seven properties are
    read (see [properties]). *)
Inductive Outcome :=
| Rejected (e : Thrown)
| NotJson (e : Thrown)
| Parsed (data : option QueryResult).

(** The template literal of lines 115-130. *)
Definition buildPrompt (queryInput : jsstring)
    (selectedDbs : list (option jsstring)) : jsstring :=
  [newline] ++
  js "You are a world-class database engineer and data analyst. Your task is to convert a natural language query into an optimized, secure, and dialect-specific query for the given databases." ++ [newline] ++
  [newline] ++
  js "**Natural Language Query:**" ++ [newline] ++
  [dquote] ++ queryInput ++ [dquote] ++ [newline] ++
  [newline] ++
  js "**Target Databases:**" ++ [newline] ++
  join (js ", ")
    (map (fun db => match db with Some s => s | None => [] end) selectedDbs)
    ++ [newline] ++
  [newline] ++
  js "**Instructions:**" ++ [newline] ++
  js "1.  **Analyze the Query:** Understand the user's intent, including entities, relationships, and constraints." ++ [newline] ++
  js "2.  **Select Best Query Language:** If 'mongodb' is the only selected database or the query implies document-based data (e.g., user profiles, activity logs), generate a MongoDB Aggregation Pipeline query as a JSON string. Otherwise, generate SQL. If multiple SQL databases are selected, generate a standard, compatible SQL. If a mix of SQL and MongoDB is selected, generate a federated query comment block explaining how the two would interact, followed by the primary SQL query." ++ [newline] ++
  js "3.  **Generate the Query:** Write the query. Ensure it is optimized, secure (prevent SQL injection), and readable." ++ [newline] ++
  js "4.  **Provide Analysis & Explanation:** Briefly explain the generated query, the logic behind it, and any optimizations applied." ++ [newline] ++
  js "5.  **Return JSON:** Respond ONLY with a valid JSON object matching the provided schema. Do not include any markdown formatting like ```json." ++ [newline].

(** Lines 162-171, the handler of the [catch]. *)
Definition errorMessage (e : Thrown) : jsstring :=
  js "<p style=" ++ [dquote]
    ++ js "color: var(--danger); grid-column: 1 / -1;" ++ [dquote]
    ++ js ">An error occurred. Please check the console for details. <br> "
    ++ errorText e ++ js "</p>".

Definition handler (e : Thrown) (d : Document) : Document * completion :=
  let d := consoleError (QueryError e) d in
  let d := setResultHidden (assign false (resultHidden d)) d in
  let d := writeAnalysis (errorMessage e) d in
  displayQueryResult (Some emptyResult) d.

(** Lines 173-176, the [finally]. *)
Definition finalizer (d : Document) : Document :=
  let d := setButtonTextHidden (assign false (buttonTextHidden d)) d in
  let d := setLoadingHidden (assign true (loadingHidden d)) d in
  setButtonDisabled (assign false (buttonDisabled d)) d.

Definition tryCatchFinally
    (body : Document -> Document * completion)
    (handler : Thrown -> Document -> Document * completion)
    (finalizer : Document -> Document) (d : Document)
  : Document * completion :=
  let (d, c) := body d in
  let (d, c) :=
    match c with
    | Normal => (d, Normal)
    | Throw e => handler e d
    end in
  (finalizer d, c).

(** Lines 155-159, the rest of the [try] once the awaited call has come
    to [o], on the page as it is then. *)
Definition afterAwait (o : Outcome) (d : Document) : Document * completion :=
  match o with
  | Rejected e => (d, Throw e)
  | NotJson e => (setResultHidden (assign false (resultHidden d)) d, Throw e)
  | Parsed resultData =>
      displayQueryResult resultData
        (setResultHidden (assign false (resultHidden d)) d)
  end.

(** Lines 115-159, the body of the [try]; [generateContent] answers for
    the model service. *)
Definition body (generateContent : jsstring -> Outcome)
    (queryInput : jsstring) (selectedDbs : list (option jsstring))
    (d : Document) : Document * completion :=
  let prompt := buildPrompt queryInput selectedDbs in
  afterAwait (generateContent prompt) (send prompt d).

(** Lines 108-112. *)
Definition showLoading (d : Document) : Document :=
  let d := setButtonTextHidden (assign true (buttonTextHidden d)) d in
  let d := setLoadingHidden (assign false (loadingHidden d)) d in
  let d := setButtonDisabled (assign true (buttonDisabled d)) d in
  setResultHidden (assign true (resultHidden d)) d.

(** Lines 87-178.  The page is taken not to change while the call is
    awaited. *)
Definition executeQuery (generateContent : jsstring -> Outcome)
    (d : Document) : Document * completion :=
  match option_map value (queryInput d) with
  | Some (c :: s) =>
      let queryInput := c :: s in
      match trim queryInput with
      | [] => (alert (js "Please enter a query") d, Normal)
      | _ :: _ =>
          let selectedDbs := activeChips d in
          match selectedDbs with
          | [] => (alert (js "Please select at least one database.") d, Normal)
          | _ :: _ =>
              tryCatchFinally (body generateContent queryInput selectedDbs)
                handler finalizer (showLoading d)
          end
      end
  | _ => (alert (js "Please enter a query") d, Normal)
  end.

(** The call in two parts, since other events are handled while it
    awaits the model service.  Lines 87-146: up to the point where the
    request has left and the call is suspended; [false] when the
    validation has returned before. *)
Definition startQuery (d : Document) : Document * bool :=
  match option_map value (queryInput d) with
  | Some (c :: s) =>
      let queryInput := c :: s in
      match trim queryInput with
      | [] => (alert (js "Please enter a query") d, false)
      | _ :: _ =>
          let selectedDbs := activeChips d in
          match selectedDbs with
          | [] => (alert (js "Please select at least one database.") d, false)
          | _ :: _ =>
              (send (buildPrompt queryInput selectedDbs) (showLoading d),
               true)
          end
      end
  | _ => (alert (js "Please enter a query") d, false)
  end.

(** Lines 146-177: the call resumes when the awaited promise has settled
    with [o], on the page as it is then.  The elements that the
    [finally] and the [catch] touch were found before the call was
    suspended (lines 103-106). *)
Definition resumeQuery (o : Outcome) (d : Document) : Document * completion :=
  tryCatchFinally (afterAwait o) handler finalizer d.

End Display.

(** ** [validateQueryInput] *)

(** [String.prototype.toLowerCase], code unit by code unit: the letters of
    ASCII and of Latin-1.  The case pairs beyond Latin-1 are left out; none
    of them brings a text to contain one of the keywords below. *)
Definition lowerUnit (c : codeunit) : codeunit :=
  if isUpper c then c + 32
  else if (0xC0 <=? c) && (c <=? 0xDE) && negb (c =? 0xD7) then c + 32
  else c.

Definition toLowerCase (s : jsstring) : jsstring := map lowerUnit s.

Definition mutatingKeywords : list jsstring :=
  [js "delete"; js "drop"; js "truncate"; js "update"; js "insert"].

(** Line 324. *)
Definition isReadOnly (text : jsstring) : bool :=
  negb (existsb (fun keyword => includes (toLowerCase text) keyword)
          mutatingKeywords).

(** Lines 319-333. *)
Definition validateQueryInput (d : Document) : Document :=
  match queryInput d with
  | Some el =>
      if negb (isReadOnly (value el)) then
        setQueryInput
          (Some {| value := value el;
                   borderColor := js "var(--warning)";
                   boxShadow := js "0 0 0 3px rgba(245, 158, 11, 0.1)" |}) d
      else
        setQueryInput
          (Some {| value := value el;
                   borderColor := js "var(--border)";
                   boxShadow := js "none" |}) d
  | None => d
  end.

End App.

(** * Reference values

    The inputs that the specification names, what the code makes of them,
    and the notions in which the properties are stated. *)

Module Examples.

Import Highlight App.

(** The entity that stands for a code unit in markup. *)
Definition escapeUnit (c : codeunit) : jsstring :=
  if c =? ch "&" then js "&amp;"
  else if c =? ch "<" then js "&lt;"
  else if c =? ch ">" then js "&gt;"
  else [c].

(** [s] between double quotes. *)
Definition quoted (s : string) : jsstring := [dquote] ++ js s ++ [dquote].

Definition lines (l : list jsstring) : jsstring := join [newline] l.

(** *** The SQL example *)

Definition sqlExample : jsstring :=
  js "SELECT * FROM users WHERE age > 18 -- adults".

Definition sqlPrefix : jsstring :=
  span "token-keyword" (js "SELECT") ++ js " * " ++
  span "token-keyword" (js "FROM") ++ js " users " ++
  span "token-keyword" (js "WHERE") ++ js " age &gt; " ++
  span "token-number" (js "18") ++ js " ".

(** What the specification describes: the comment in a comment span. *)
Definition sqlIntended : jsstring :=
  sqlPrefix ++ span "token-comment" (js "-- adults").

(** What [highlightCode] returns: the class attribute of the comment span
    is itself wrapped in a string span. *)
Definition sqlHighlighted : jsstring :=
  sqlPrefix ++
  js "<span class=" ++ span "token-string" (quoted "token-comment") ++
  js ">-- adults</span>".

(** *** The document-query example *)

Definition mongoExample : jsstring :=
  js "{" ++ quoted "$match" ++ js ": {" ++ quoted "age" ++ js ": {" ++
  quoted "$gt" ++ js ": 18}}}".

Definition mongoPretty : jsstring :=
  lines
    [js "{";
     js "  " ++ quoted "$match" ++ js ": {";
     js "    " ++ quoted "age" ++ js ": {";
     js "      " ++ quoted "$gt" ++ js ": 18";
     js "    }";
     js "  }";
     js "}"].

(** After the rule for double-quoted strings: three string spans. *)
Definition mongoStrings : jsstring :=
  lines
    [js "{";
     js "  " ++ span "token-string" (quoted "$match") ++ js ": {";
     js "    " ++ span "token-string" (quoted "age") ++ js ": {";
     js "      " ++ span "token-string" (quoted "$gt") ++ js ": 18";
     js "    }";
     js "  }";
     js "}"].

Definition mongoHighlighted : jsstring :=
  lines
    [js "{";
     js "  " ++ span "token-keyword" (quoted "$match") ++ js ": {";
     js "    " ++ span "token-string" (quoted "age") ++ js ": {";
     js "      " ++ span "token-keyword" (quoted "$gt") ++ js ": " ++
       span "token-number" (js "18");
     js "    }";
     js "  }";
     js "}"].

(** *** The malformed example *)



(** *** Submissions *)

(** The text of the question: the value of [#queryInput], nothing when the
    element is missing. *)
Definition questionText (d : Document) : jsstring :=
  match queryInput d with
  | Some el => value el
  | None => []
  end.

(** A submission passes the local validation. *)
Definition dispatched (d : Document) : Prop :=
  trim (questionText d) <> [] /\ activeChips d <> [].

(** What each display element receives for the constants [f] (lines
    260-267): the text of a value for [textContent], the markup of the
    highlighted query for the code element; [None] when the conversion on
    the way throws. *)
Definition contentOf (f : Fields) (el : DisplayEl) : option jsstring :=
  match el with
  | confidenceEl => confidence f
  | complexityEl => Value.ToString (complexity f)
  | timeEl => Value.ToString (time f)
  | targetsEl => Value.ToString (targets f)
  | reasoningEl => Value.ToString (reasoning f)
  | optimizationEl => optimization f
  | sqlCodeEl =>
      match sqlQuery f with
      | JSON.JStr code => Some (highlightCode code)
      | _ => None
      end
  end.

Definition converts (data : QueryResult) (el : DisplayEl) : bool :=
  match contentOf (renderFields data) el with
  | Some _ => true
  | None => false
  end.

(** The formatter gets through the record: no conversion on its way
    throws. *)
Definition formats (data : QueryResult) : bool :=
  forallb (converts data) displayEls.

(** What the formatter throws on a record that it does not get through:
    a value that is no string reaches [highlightCode] only when every
    conversion before it has succeeded. *)
Definition raised (typeErrors : TypeErrors) (data : QueryResult) : Thrown :=
  if forallb (converts data)
       [confidenceEl; complexityEl; timeEl; targetsEl; reasoningEl;
        optimizationEl]
  then notFunction typeErrors
  else notPrimitive typeErrors.


(** The types of [responseSchema] (lines 132-144): a property that is
    there holds a string, [confidenceScore] a Number. *)
Definition stringOrAbsent (v : option JSON.json) : bool :=
  match v with
  | None | Some (JSON.JStr _) => true
  | Some _ => false
  end.

Definition numberOrAbsent (v : option JSON.json) : bool :=
  match v with
  | None | Some (JSON.JNum _) => true
  | Some _ => false
  end.

Definition conforms (data : QueryResult) : bool :=
  stringOrAbsent (queryComplexity data) &&
  stringOrAbsent (estimatedExecutionTime data) &&
  stringOrAbsent (targetDatabases data) &&
  numberOrAbsent (confidenceScore data) &&
  stringOrAbsent (generatedSQL data) &&
  stringOrAbsent (queryReasoning data) &&
  stringOrAbsent (optimizationApplied data).

(** The [TypeError]s of V8: for the first property read of
    [displayQueryResult] on [null], for the call of [code.trim] on a
    value without such a method, and for a conversion that finds no
    primitive. *)
Definition v8Errors : TypeErrors :=
  {| nullRead :=
       ErrorObject
         (js "Cannot read properties of null (reading 'confidenceScore')");
     notFunction := ErrorObject (js "code.trim is not a function");
     notPrimitive :=
       ErrorObject (js "Cannot convert object to primitive value") |}.

(** A page that shows the result of an earlier query. *)
Definition page (question : jsstring) (chips : list (option jsstring))
  : Document :=
  {| queryInput :=
       Some {| value := question; borderColor := js "var(--border)";
               boxShadow := js "none" |};
     activeChips := chips;
     buttonDisabled := Some false;
     buttonTextHidden := Some false;
     loadingHidden := Some true;
     resultHidden := Some false;
     analysis := Some (js "earlier analysis");
     display := fun _ => Some (js "earlier result");
     insideAnalysis := fun _ => false;
     alerts := [];
     console := [];
     requests := [] |}.

Definition blankPage : Document := page (js "   ") [Some (js "postgresql")].

Definition askedPage : Document :=
  page (js "list all users") [Some (js "postgresql"); Some (js "mongodb")].

Definition transportFailure : jsstring -> Outcome :=
  fun _ => Rejected (ErrorObject (js "Failed to fetch")).


(** *** Results *)

(** A result that has only a confidence score. *)
Definition withScore (score : Number.number) : QueryResult :=
  {| queryComplexity := None; estimatedExecutionTime := None;
     targetDatabases := None; confidenceScore := Some (JSON.JNum score);
     generatedSQL := None; queryReasoning := None;
     optimizationApplied := None |}.

(** The Number of the numeral [0.873]. *)
Definition score873 : Number.number := Number.ofDecimal false 873 (-3).

Definition zero : Number.number := S754_zero false.


(** The integer nearest to [m * 2^e], the larger one of two. *)
Definition nearestInteger (m : positive) (e : Z) : Z :=
  let (num, den) := Number.scaled m e 0 in
  ((2 * num + den) / (2 * den))%Z.

(** *** The advisory *)

Definition dropText : jsstring := js "DROP TABLE users".

(** The style of [#queryInput] after the advisory has looked at [text]. *)
Definition advisedStyle (text : jsstring) : TextArea :=
  if isReadOnly text then
    {| value := text; borderColor := js "var(--border)";
       boxShadow := js "none" |}
  else
    {| value := text; borderColor := js "var(--warning)";
       boxShadow := js "0 0 0 3px rgba(245, 158, 11, 0.1)" |}.

(** *** Known values of the library functions *)

Definition tenth : Number.number := Number.ofDecimal false 1 (-1).

Definition duplicateKeys : jsstring :=
  js "{" ++ quoted "b" ++ js ":1," ++ quoted "2" ++ js ":2," ++
  quoted "a" ++ js ":[]," ++ quoted "1" ++ js ":{}," ++
  quoted "b" ++ js ":5e-1}".

Definition duplicateKeysPretty : jsstring :=
  lines
    [js "{";
     js "  " ++ quoted "1" ++ js ": {},";
     js "  " ++ quoted "2" ++ js ": 2,";
     js "  " ++ quoted "b" ++ js ": 0.5,";
     js "  " ++ quoted "a" ++ js ": []";
     js "}"].

Definition placeholder : jsstring := js "-- No query generated --".

End Examples.

(** * The rest of the page: chips, keys, demo queries, the copy button *)

Module Events.

Import Highlight App Examples.

(** ** The engine chips, lines 38-55

    A chip has the class [active] or not, an [aria-checked] attribute or
    none, and a [data-db] or none. *)

Record Chip := {
  active : bool;
  ariaChecked : option jsstring;
  db : option jsstring
}.

(** Lines 38-42. *)
Definition toggleDbChip (chip : Chip) : Chip :=
  let isActive := negb (active chip) in
  {| active := isActive;
     ariaChecked := Some (if isActive then js "true" else js "false");
     db := db chip |}.

Record KeyboardEvent := {
  key : jsstring;
  ctrlKey : bool;
  metaKey : bool
}.

(** Lines 49-54, the [keydown] listener of a chip, with whether it called
    [preventDefault]. *)
Definition chipKeydown (e : KeyboardEvent) (chip : Chip) : Chip * bool :=
  if eqb (key e) (js " ") || eqb (key e) (js "Enter")
  then (toggleDbChip chip, true)
  else (chip, false).

(** The listeners are installed on every chip (line 47); [i] is the place
    of the chip in the document. *)
Fixpoint updateAt {A} (i : nat) (f : A -> A) (l : list A) : list A :=
  match l, i with
  | [], _ => []
  | x :: l', O => f x :: l'
  | x :: l', S i' => x :: updateAt i' f l'
  end.

(** Lines 95-96: the [data-db] of the chips that are active, in the order
    of the document. *)
Definition selectedDbs (chips : list Chip) : list (option jsstring) :=
  map db (filter active chips).

(** ** The page with its chips

    [pending] counts the calls of [executeQuery] that await the model
    service. *)

Record Page := {
  document : Document;
  chips : list Chip;
  queryInterface : bool;
  scrolls : nat;
  inputFocused : bool;
  demoTimers : nat;
  pending : nat;
  rejections : list Thrown
}.

Definition setDocument (d : Document) (p : Page) : Page :=
  {| document := d; chips := chips p; queryInterface := queryInterface p;
     scrolls := scrolls p; inputFocused := inputFocused p;
     demoTimers := demoTimers p; pending := pending p;
     rejections := rejections p |}.

Definition setChips (cs : list Chip) (p : Page) : Page :=
  {| document := document p; chips := cs;
     queryInterface := queryInterface p;
     scrolls := scrolls p; inputFocused := inputFocused p;
     demoTimers := demoTimers p; pending := pending p;
     rejections := rejections p |}.

Definition setActiveChips (dbs : list (option jsstring)) (d : Document)
  : Document :=
  {| queryInput := queryInput d; activeChips := dbs;
     buttonDisabled := buttonDisabled d;
     buttonTextHidden := buttonTextHidden d;
     loadingHidden := loadingHidden d; resultHidden := resultHidden d;
     analysis := analysis d; display := display d;
     insideAnalysis := insideAnalysis d; alerts := alerts d;
     console := console d; requests := requests d |}.

(** [queryInput.value = text] *)
Definition setValue (text : jsstring) (d : Document) : Document :=
  setQueryInput
    (option_map
       (fun el => {| value := text; borderColor := borderColor el;
                     boxShadow := boxShadow el |}) (queryInput d)) d.

(** The document as [executeQuery] finds it: the active chips are the
    ones of the page. *)
Definition currentDocument (p : Page) : Document :=
  setActiveChips (selectedDbs (chips p)) (document p).

(** A call of [executeQuery] (lines 79 and 276, and the submit control):
    it runs until it returns from the validation or is suspended at the
    [await] of line 146; the listener that called it returns, and other
    events are handled before the call resumes. *)
Definition callExecuteQuery (p : Page) : Page :=
  let (d, awaiting) := startQuery (currentDocument p) in
  {| document := d; chips := chips p; queryInterface := queryInterface p;
     scrolls := scrolls p; inputFocused := inputFocused p;
     demoTimers := demoTimers p;
     pending := if awaiting then S (pending p) else pending p;
     rejections := rejections p |}.

(** The promise that a suspended call awaits settles with [o], and the
    call runs to its end.  Nobody awaits the promise of [executeQuery]
    itself: a rejection would be unhandled. *)
Definition settleQuery (typeErrors : TypeErrors) (o : Outcome) (p : Page)
  : Page :=
  match pending p with
  | O => p
  | S n =>
      let (d, c) := resumeQuery typeErrors o (document p) in
      {| document := d; chips := chips p;
         queryInterface := queryInterface p;
         scrolls := scrolls p; inputFocused := inputFocused p;
         demoTimers := demoTimers p; pending := n;
         rejections := match c with
                       | Normal => rejections p
                       | Throw e => rejections p ++ [e]
                       end |}
  end.

(** Lines 60-64. *)
Definition scrollToQuery (p : Page) : Page :=
  {| document := document p; chips := chips p;
     queryInterface := queryInterface p;
     scrolls := if queryInterface p then S (scrolls p) else scrolls p;
     inputFocused := inputFocused p;
     demoTimers := demoTimers p; pending := pending p;
     rejections := rejections p |}.

(** [queryInput?.focus()] *)
Definition focusInput (p : Page) : Page :=
  {| document := document p; chips := chips p;
     queryInterface := queryInterface p; scrolls := scrolls p;
     inputFocused := match queryInput (document p) with
                     | Some _ => true
                     | None => inputFocused p
                     end;
     demoTimers := demoTimers p; pending := pending p;
     rejections := rejections p |}.

(** Lines 71-81, up to the timer; [demo] is the text of the first [p]
    inside the clicked element, [None] when there is none. *)
Definition stripQuotes (text : jsstring) : jsstring :=
  replace (chr dquote) (fun _ _ => []) text.

Definition loadDemoQuery (demo : option jsstring) (p : Page) : Page :=
  let query :=
    match option_map stripQuotes demo with
    | Some (c :: s) => c :: s
    | _ => []
    end in
  let p := setDocument (setValue query (document p)) p in
  let p := scrollToQuery p in
  {| document := document p; chips := chips p;
     queryInterface := queryInterface p; scrolls := scrolls p;
     inputFocused := inputFocused p;
     demoTimers := S (demoTimers p); pending := pending p;
     rejections := rejections p |}.

(** Lines 78-80, the timer of a demo query when it fires. *)
Definition demoTimer (p : Page) : Page :=
  match demoTimers p with
  | O => p
  | S n =>
      callExecuteQuery
        {| document := document p; chips := chips p;
           queryInterface := queryInterface p; scrolls := scrolls p;
           inputFocused := inputFocused p;
           demoTimers := n; pending := pending p;
           rejections := rejections p |}
  end.

(** Lines 273-278, the [keydown] listener of the input, with whether it
    called [preventDefault]. *)
Definition inputKeydown (e : KeyboardEvent) (p : Page) : Page * bool :=
  if ctrlKey e && eqb (key e) (js "Enter")
  then (callExecuteQuery p, true)
  else (p, false).

(** Lines 298-314, the [keydown] listener of the document. *)
Definition documentKeydown (e : KeyboardEvent) (p : Page) : Page * bool :=
  let (p, prevented) :=
    if (ctrlKey e || metaKey e) && eqb (key e) (js "k")
    then (focusInput p, true)
    else (p, false) in
  if eqb (key e) (js "Escape") then
    let p := focusInput (setDocument (setValue [] (document p)) p) in
    let d := document p in
    (setDocument (setResultHidden (assign true (resultHidden d)) d) p,
     prevented)
  else (p, prevented).

(** Lines 336-338: the user edits the text, and the [input] event runs
    the advisory. *)
Definition inputEdited (text : jsstring) (p : Page) : Page :=
  setDocument (validateQueryInput (setValue text (document p))) p.

(** What happens on the page.  A key pressed on a chip or on the input
    reaches the listener of the document afterwards.  [Settles o]: the
    model service answers a call that awaits it, or fails to. *)
Inductive Event :=
| ChipClick (i : nat)
| ChipKey (i : nat) (e : KeyboardEvent)
| InputKey (e : KeyboardEvent)
| OtherKey (e : KeyboardEvent)
| Edit (text : jsstring)
| DemoClick (demo : option jsstring)
| DemoTimerFires
| Submit
| Settles (o : Outcome).

Definition handle (typeErrors : TypeErrors) (ev : Event) (p : Page) : Page :=
  match ev with
  | ChipClick i => setChips (updateAt i toggleDbChip (chips p)) p
  | ChipKey i e =>
      fst (documentKeydown e
             (setChips (updateAt i (fun c => fst (chipKeydown e c)) (chips p))
                p))
  | InputKey e => fst (documentKeydown e (fst (inputKeydown e p)))
  | OtherKey e => fst (documentKeydown e p)
  | Edit text => inputEdited text p
  | DemoClick demo => loadDemoQuery demo p
  | DemoTimerFires => demoTimer p
  | Submit => callExecuteQuery p
  | Settles o => settleQuery typeErrors o p
  end.

Definition run (typeErrors : TypeErrors) (evs : list Event) (p : Page)
  : Page :=
  fold_left (fun p ev => handle typeErrors ev p) evs p.

(** ** The copy button, lines 340-375 *)

Inductive CopyTimer :=
| AfterCopied
| AfterFailed.

Record CopyButton := {
  copyText : jsstring;
  copyIcon : jsstring;
  copyColor : jsstring;
  clipboard : list jsstring;
  copyErrors : nat;
  copyTimers : list CopyTimer
}.

(** Lines 355-359, the markup of the check mark. *)
Definition checkIcon : jsstring :=
  lines
    [[];
     js "                    <svg xmlns=" ++ quoted "http://www.w3.org/2000/svg" ++ js " width=" ++ quoted "16" ++ js " height=" ++ quoted "16" ++ js " fill=" ++ quoted "currentColor" ++ js " viewBox=" ++ quoted "0 0 16 16" ++ js ">";
     js "                        <path d=" ++ quoted "M12.736 3.97a.733.733 0 0 1 1.047 0c.286.289.29.756.01 1.05L7.88 12.01a.733.733 0 0 1-1.065.02L3.217 8.384a.757.757 0 0 1 0-1.06.733.733 0 0 1 1.047 0l3.052 3.093 5.4-6.425a.247.247 0 0 1 .02-.022z" ++ js "/>";
     js "                    </svg>";
     js "                "].

Section Copy.

(** The markup of the icon when the page was loaded (line 346), and the
    text that the browser gives for the markup of the code element. *)
Variable originalIconHTML : jsstring.
Variable textContent : jsstring -> jsstring.

(** Lines 348-374: a click, with what the code element holds ([None] when
    it is missing) and whether the clipboard takes the text. *)
Definition copyClick (code : option jsstring) (written : bool)
    (b : CopyButton) : CopyButton :=
  match code with
  | None => b
  | Some html =>
      let codeToCopy := textContent html in
      if written then
        {| copyText := js "Copied!"; copyIcon := checkIcon;
           copyColor := js "var(--success)";
           clipboard := clipboard b ++ [codeToCopy];
           copyErrors := copyErrors b;
           copyTimers := copyTimers b ++ [AfterCopied] |}
      else
        {| copyText := js "Failed"; copyIcon := copyIcon b;
           copyColor := copyColor b;
           clipboard := clipboard b;
           copyErrors := S (copyErrors b);
           copyTimers := copyTimers b ++ [AfterFailed] |}
  end.

(** The oldest timer fires (all of them wait 2000 ms). *)
Definition copyTimerFires (b : CopyButton) : CopyButton :=
  match copyTimers b with
  | [] => b
  | AfterCopied :: ts =>
      {| copyText := js "Copy"; copyIcon := originalIconHTML;
         copyColor := []; clipboard := clipboard b;
         copyErrors := copyErrors b; copyTimers := ts |}
  | AfterFailed :: ts =>
      {| copyText := js "Copy"; copyIcon := copyIcon b;
         copyColor := copyColor b; clipboard := clipboard b;
         copyErrors := copyErrors b; copyTimers := ts |}
  end.

Inductive CopyEvent :=
| Click (code : option jsstring) (written : bool)
| TimerFires.

Definition copyHandle (ev : CopyEvent) (b : CopyButton) : CopyButton :=
  match ev with
  | Click code written => copyClick code written b
  | TimerFires => copyTimerFires b
  end.

Definition copyRun (evs : list CopyEvent) (b : CopyButton) : CopyButton :=
  fold_left (fun b ev => copyHandle ev b) evs b.

(** Every pending timer fires. *)
Definition settle (b : CopyButton) : CopyButton :=
  copyRun (repeat TimerFires (length (copyTimers b))) b.

End Copy.

End Events.

(** * Further notions

    What the further properties of the application are stated in. *)

Module Notions.

Import Highlight App Examples.

(** A text of white space only. *)
Definition isBlank (s : jsstring) : bool := forallb isWhiteSpace s.

(** The reading of escaped text: each of the three entities back to its
    character. *)
Fixpoint unescapeHtml (s : jsstring) : jsstring :=
  match s with
  | [] => []
  | c :: t =>
      if c =? ch "&" then
        match t with
        | c1 :: c2 :: c3 :: t3 =>
            if (c1 =? ch "l") && (c2 =? ch "t") && (c3 =? ch ";")
            then ch "<" :: unescapeHtml t3
            else if (c1 =? ch "g") && (c2 =? ch "t") && (c3 =? ch ";")
            then ch ">" :: unescapeHtml t3
            else
              match t3 with
              | c4 :: t4 =>
                  if (c1 =? ch "a") && (c2 =? ch "m") && (c3 =? ch "p")
                     && (c4 =? ch ";")
                  then ch "&" :: unescapeHtml t4
                  else c :: unescapeHtml t
              | [] => c :: unescapeHtml t
              end
        | _ => c :: unescapeHtml t
        end
      else c :: unescapeHtml t
  end.

(** A page like [page] that lacks the element of the reasoning. *)
Definition pageWithoutReasoning : Document :=
  setContent (Some (js "earlier analysis"))
    (fun el => match el with
               | reasoningEl => None
               | _ => Some (js "earlier result")
               end) askedPage.


(** A page like [page] without [#queryAnalysis]. *)
Definition pageWithoutAnalysis : Document :=
  setContent None (display askedPage) askedPage.

(** A result with every property present. *)
Definition fullResult : QueryResult :=
  {| queryComplexity := Some (JSON.JStr (js "Tier 1"));
     estimatedExecutionTime := Some (JSON.JStr (js "1.5s"));
     targetDatabases := Some (JSON.JStr (js "postgresql"));
     confidenceScore := Some (JSON.JNum score873);
     generatedSQL := Some (JSON.JStr (js "SELECT 1"));
     queryReasoning := Some (JSON.JStr (js "A constant."));
     optimizationApplied := Some (JSON.JStr (js "None needed.")) |}.

Definition success : jsstring -> Outcome := fun _ => Parsed (Some fullResult).

(** A result whose query is the Number 5, as [JSON.parse] gives it for
    the text below. *)
Definition numericQuery : QueryResult :=
  {| queryComplexity := Some (JSON.JStr (js "Tier 1"));
     estimatedExecutionTime := None; targetDatabases := None;
     confidenceScore := None;
     generatedSQL := Some (JSON.JNum (Number.ofZ 5));
     queryReasoning := None; optimizationApplied := None |}.


Definition numericQueryText : jsstring :=
  js "{" ++ quoted "queryComplexity" ++ js ":" ++ quoted "Tier 1" ++ js "," ++
  quoted "generatedSQL" ++ js ":5}".

(** The markup that [highlightCode] gives the placeholder of a missing
    query, and the one that a comment span would be. *)
Definition placeholderMarkup : jsstring :=
  js "<span class=" ++ span "token-string" (quoted "token-comment") ++
  js ">" ++ placeholder ++ js "</span>".

Definition placeholderIntended : jsstring :=
  span "token-comment" placeholder.

(** The order in which the formatter writes the display elements (lines
    260-267). *)
Definition writeOrder : list DisplayEl :=
  [confidenceEl; complexityEl; timeEl; targetsEl; reasoningEl;
   optimizationEl; sqlCodeEl].

(** How many elements the formatter writes for the constants [f], on a
    page that has them all: none when a template literal throws (lines
    252 and 257), otherwise the ones before the first conversion that
    throws. *)
Fixpoint convertible (f : Fields) (els : list DisplayEl) : nat :=
  match els with
  | [] => 0
  | el :: els' =>
      match contentOf f el with
      | Some _ => S (convertible f els')
      | None => 0
      end
  end.

Definition written (f : Fields) : nat :=
  match confidence f, optimization f with
  | Some _, Some _ => convertible f writeOrder
  | _, _ => 0
  end.

(** *** Notions for the events of the page *)

(** The [aria-checked] of a chip says what its class says. *)
Definition consistent (chip : Events.Chip) : Prop :=
  Events.ariaChecked chip
  = Some (if Events.active chip then js "true" else js "false").

(** The submit control is enabled, the busy indicator hidden and the text
    of the button shown, as far as these elements exist. *)
Definition idle (d : Document) : Prop :=
  buttonDisabled d = assign false (buttonDisabled d) /\
  loadingHidden d = assign true (loadingHidden d) /\
  buttonTextHidden d = assign false (buttonTextHidden d).

Definition threeChips : list Events.Chip :=
  [ {| Events.active := true; Events.ariaChecked := Some (js "true");
       Events.db := Some (js "postgresql") |};
    {| Events.active := false; Events.ariaChecked := Some (js "false");
       Events.db := Some (js "mysql") |};
    {| Events.active := false; Events.ariaChecked := Some (js "false");
       Events.db := Some (js "mongodb") |} ].

(** A page with three chips, the first one selected, and a question. *)
Definition startPage (question : jsstring) : Events.Page :=
  {| Events.document := page question [];
     Events.chips := threeChips;
     Events.queryInterface := true;
     Events.scrolls := 0;
     Events.inputFocused := false;
     Events.demoTimers := 0;
     Events.pending := 0;
     Events.rejections := [] |}.

Definition transportFailure_outcome : Outcome :=
  Rejected (ErrorObject (js "Failed to fetch")).

Definition keyOf (k : string) (ctrl : bool) : Events.KeyboardEvent :=
  {| Events.key := js k; Events.ctrlKey := ctrl; Events.metaKey := false |}.

(** The copy button as the page is loaded, with no acknowledgement
    pending. *)
Definition freshCopyButton (icon : jsstring) : Events.CopyButton :=
  {| Events.copyText := js "Copy"; Events.copyIcon := icon;
     Events.copyColor := []; Events.clipboard := [];
     Events.copyErrors := 0; Events.copyTimers := [] |}.

(** A click that found the code element. *)
Definition isClick (ev : Events.CopyEvent) : bool :=
  match ev with
  | Events.Click (Some _) _ => true
  | _ => false
  end.

(** A click whose text the clipboard took. *)
Definition isCopied (ev : Events.CopyEvent) : bool :=
  match ev with
  | Events.Click (Some _) true => true
  | _ => false
  end.

(** What holds of the copy button at every moment: an icon other than
    the original one, a label other than [Copy] and a colour other than
    the default one each have a timer pending that will put them back;
    before the first click the button is as it was. *)
Definition copyInvariant (original : jsstring) (start : Events.CopyButton)
    (clicked copied : bool) (b : Events.CopyButton) : Prop :=
  (Events.copyIcon b = original
   \/ In Events.AfterCopied (Events.copyTimers b)) /\
  (clicked = true ->
   Events.copyText b = js "Copy" \/ Events.copyTimers b <> []) /\
  (copied = true ->
   Events.copyColor b = []
   \/ In Events.AfterCopied (Events.copyTimers b)) /\
  (clicked = false ->
   Events.copyText b = Events.copyText start /\
   Events.copyColor b = Events.copyColor start /\
   Events.copyTimers b = []).

(** The code unit before the position that follows [a], when [prev] is
    the one before [a]. *)
Definition lastUnit (a : jsstring) (prev : option codeunit)
  : option codeunit :=
  fold_left (fun _ c => Some c) a prev.

End Notions.

(** * Properties *)

Module Properties.

Import Highlight App Examples Notions.

(** ** Global replacement of a single code unit *)

Lemma exec_chr (c : codeunit) (prev : option codeunit) (x : codeunit)
    (s : jsstring) :
  exec (chr c) prev (x :: s) = if c =? x then Some (s, []) else None.
Proof. reflexivity. Qed.

Lemma replaceFrom_chr (c : codeunit) (r : jsstring) (s : jsstring) :
  forall prev,
    replaceFrom (chr c) (fun _ _ => r) prev O s =
    flat_map (fun x => if c =? x then r else [x]) s.
Proof.
  induction s as [|x s IH]; intros prev.
  - reflexivity.
  - cbn [replaceFrom flat_map]. rewrite exec_chr.
    destruct (c =? x).
    + cbn [length].
      replace (S (length s) - length s)%nat with 1%nat by lia.
      rewrite IH. reflexivity.
    + rewrite IH. reflexivity.
Qed.

Lemma replace_chr (c : codeunit) (r : jsstring) (s : jsstring) :
  replace (chr c) (fun _ _ => r) s =
  flat_map (fun x => if c =? x then r else [x]) s.
Proof. apply replaceFrom_chr. Qed.

Lemma flat_map_compose {A B C} (f : A -> list B) (g : B -> list C)
    (l : list A) :
  flat_map g (flat_map f l) = flat_map (fun x => flat_map g (f x)) l.
Proof.
  induction l as [|x l IH]; [reflexivity|].
  cbn [flat_map]. rewrite flat_map_app, IH. reflexivity.
Qed.

(** The three replacements of lines 200-203 amount to one pass that
    replaces each metacharacter by its entity: the entities written by a
    replacement hold nothing that a later one matches. *)
Lemma escapeHtml_units (s : jsstring) :
  escapeHtml s = flat_map escapeUnit s.
Proof.
  unfold escapeHtml. rewrite !replace_chr, !flat_map_compose.
  apply flat_map_ext. intros c. unfold escapeUnit.
  change (ch "&") with 38; change (ch "<") with 60; change (ch ">") with 62.
  rewrite (N.eqb_sym c 38), (N.eqb_sym c 60), (N.eqb_sym c 62).
  destruct (N.eqb_spec 38 c) as [<-|H38]; [reflexivity|].
  cbn [flat_map app].
  destruct (N.eqb_spec 60 c) as [<-|H60]; [reflexivity|].
  cbn [flat_map app].
  destruct (N.eqb_spec 62 c) as [<-|H62]; reflexivity.
Qed.


(** ** The colouriser on the examples of the specification *)

(** C1: on the SQL example [SELECT], [FROM] and [WHERE] are wrapped as
    keywords and [18] as a number, but the span opened for the comment is
    corrupted: the rule for double-quoted strings, which runs after the
    rule for comments, matches the class attribute that the earlier rule
    wrote and wraps it in a string span.  The result is not the markup
    that the specification describes. *)
Theorem highlight_sql_example_corrupts_comment :
  highlightCode sqlExample = sqlHighlighted /\
  highlightCode sqlExample <> sqlIntended /\
  ruleDoubleQuoted (span "token-comment" (js "-- adults")) =
    js "<span class=" ++ span "token-string" (quoted "token-comment") ++
    js ">-- adults</span>".
Proof.
  split; [vm_compute; reflexivity|].
  split; [|vm_compute; reflexivity].
  intros H.
  assert (E : eqb (highlightCode sqlExample) sqlIntended = true)
    by (rewrite H; unfold eqb;
        destruct (list_eq_dec N.eq_dec sqlIntended sqlIntended);
        [reflexivity|contradiction]).
  vm_compute in E. discriminate E.
Qed.

(** C2: the document-query example is first replaced by its rendering
    with an indentation of two spaces; then all three quoted tokens become
    string spans, the two operators are wrapped again as keywords, the
    field name stays a string and [18] becomes a number. *)
Theorem highlight_mongo_example :
  option_map JSON.stringify (JSON.parse (trim mongoExample))
    = Some mongoPretty /\
  ruleDoubleQuoted
    (ruleSingleQuoted (ruleComments (escapeHtml mongoPretty)))
    = mongoStrings /\
  ruleMongoOperators (ruleKeywords mongoStrings) <> mongoStrings /\
  highlightCode mongoExample = mongoHighlighted.
Proof.
  split; [vm_compute; reflexivity|].
  split; [vm_compute; reflexivity|].
  split; [|vm_compute; reflexivity].
  intros H.
  assert (E : eqb (ruleMongoOperators (ruleKeywords mongoStrings))
                mongoStrings = true)
    by (rewrite H; unfold eqb;
        destruct (list_eq_dec N.eq_dec mongoStrings mongoStrings);
        [reflexivity|contradiction]).
  vm_compute in E. discriminate E.
Qed.



(** ** The dispatcher *)

Section Dispatcher.

Variable typeErrors : TypeErrors.
Variable generateContent : jsstring -> Outcome.

Lemma assign_assign {A} (v w : A) (el : option A) :
  assign v (assign w el) = assign v el.
Proof. destruct el; reflexivity. Qed.

(** A submission that passes the validation runs the guarded call. *)
Lemma executeQuery_dispatched (d : Document) :
  dispatched d ->
  executeQuery typeErrors generateContent d =
  tryCatchFinally
    (body typeErrors generateContent (questionText d) (activeChips d))
    (handler typeErrors) finalizer (showLoading d).
Proof.
  unfold dispatched, questionText, executeQuery. intros [Hq Hdb].
  destruct (queryInput d) as [el|]; cbn [option_map];
    [|contradiction Hq; reflexivity].
  destruct (value el) as [|c s]; [contradiction Hq; reflexivity|].
  destruct (trim (c :: s)); [contradiction Hq; reflexivity|].
  destruct (activeChips d); [contradiction Hdb; reflexivity|].
  reflexivity.
Qed.

(** What every write of the formatter keeps, the formatter keeps. *)
Lemma andThen_invariant (P : Document -> Prop)
    (first next : statement) :
  (forall d, P d -> P (fst (first d))) ->
  (forall d, P d -> P (fst (next d))) ->
  forall d, P d -> P (fst (andThen first next d)).
Proof.
  intros Hf Hn d Hd. unfold andThen.
  specialize (Hf d Hd). destruct (first d) as [d' [|e]]; cbn [fst] in *.
  - apply Hn. exact Hf.
  - exact Hf.
Qed.

Lemma formatter_invariant (P : Document -> Prop) :
  (forall el content d, P d -> P (write el content d)) ->
  forall data d,
    forallb (fun el => match display d el with
                       | Some _ => true | None => false end) displayEls
    = true ->
    P d -> P (fst (displayQueryResult typeErrors data d)).
Proof.
  intros Hw data d Hg Hd. unfold displayQueryResult. rewrite Hg.
  destruct data as [data|]; [|exact Hd].
  cbv zeta.
  destruct (confidence (renderFields data)) as [c|]; [|exact Hd].
  destruct (optimization (renderFields data)) as [o|]; [|exact Hd].
  assert (Ht : forall el v d, P d ->
                 P (fst (setTextContent typeErrors el v d))).
  { intros el v d0 H0. unfold setTextContent.
    destruct (Value.ToString v); [apply Hw|]; exact H0. }
  assert (Hh : forall el v d, P d ->
                 P (fst (setHighlighted typeErrors el v d))).
  { intros el v d0 H0. unfold setHighlighted.
    destruct v; try exact H0. apply Hw. exact H0. }
  revert d Hg Hd. intros d _.
  revert d.
  repeat (apply andThen_invariant; [apply Ht|]).
  apply andThen_invariant; [intros d0 H0; apply Hw; exact H0|apply Hh].
Qed.

Lemma displayQueryResult_invariant (P : Document -> Prop) :
  (forall el content d, P d -> P (write el content d)) ->
  (forall d, P d -> P (consoleError ElementsNotFound d)) ->
  forall data d, P d -> P (fst (displayQueryResult typeErrors data d)).
Proof.
  intros Hw Hc data d Hd.
  destruct (forallb (fun el => match display d el with
                               | Some _ => true | None => false end)
              displayEls) eqn:Hg.
  - apply formatter_invariant; assumption.
  - unfold displayQueryResult. rewrite Hg. apply Hc. exact Hd.
Qed.

(** The formatter leaves the submit control and the busy indicator as
    they are. *)
Lemma displayQueryResult_controls (data : option QueryResult)
    (d : Document) :
  let d' := fst (displayQueryResult typeErrors data d) in
  buttonDisabled d' = buttonDisabled d /\
  buttonTextHidden d' = buttonTextHidden d /\
  loadingHidden d' = loadingHidden d /\
  resultHidden d' = resultHidden d /\
  analysis d' = analysis d /\
  requests d' = requests d /\
  insideAnalysis d' = insideAnalysis d.
Proof.
  cbv zeta.
  apply (displayQueryResult_invariant
           (fun d' =>
              buttonDisabled d' = buttonDisabled d /\
              buttonTextHidden d' = buttonTextHidden d /\
              loadingHidden d' = loadingHidden d /\
              resultHidden d' = resultHidden d /\
              analysis d' = analysis d /\
              requests d' = requests d /\
              insideAnalysis d' = insideAnalysis d)).
  - intros el content d0 H. exact H.
  - intros d0 H. exact H.
  - repeat split.
Qed.

(** On the object literal of line 171 the formatter returns normally. *)
Lemma displayQueryResult_empty_normal (d : Document) :
  snd (displayQueryResult typeErrors (Some emptyResult) d) = Normal.
Proof.
  unfold displayQueryResult. destruct (forallb _ displayEls); reflexivity.
Qed.

Lemma handler_controls (e : Thrown) (d : Document) :
  let d' := fst (handler typeErrors e d) in
  buttonDisabled d' = buttonDisabled d /\
  buttonTextHidden d' = buttonTextHidden d /\
  loadingHidden d' = loadingHidden d /\
  requests d' = requests d /\
  snd (handler typeErrors e d) = Normal.
Proof.
  unfold handler. cbv zeta.
  set (d1 := writeAnalysis _ _).
  destruct (displayQueryResult_controls (Some emptyResult) d1)
    as (Hb & Ht & Hl & _ & _ & Hr & _).
  cbv zeta in Hb, Ht, Hl, Hr. rewrite Hb, Ht, Hl, Hr.
  rewrite displayQueryResult_empty_normal.
  unfold d1, writeAnalysis.
  destruct (analysis _); cbn; repeat split.
Qed.

Lemma afterAwait_controls (o : Outcome) (d : Document) :
  let d' := fst (afterAwait typeErrors o d) in
  buttonDisabled d' = buttonDisabled d /\
  buttonTextHidden d' = buttonTextHidden d /\
  loadingHidden d' = loadingHidden d /\
  requests d' = requests d.
Proof.
  unfold afterAwait. cbv zeta.
  destruct o as [e|e|data]; cbn [fst]; try (cbn; repeat split; fail).
  match goal with
  | |- context [displayQueryResult typeErrors data ?x] =>
      destruct (displayQueryResult_controls data x)
        as (Hb & Ht & Hl & _ & _ & Hr & _)
  end.
  cbv zeta in Hb, Ht, Hl, Hr. rewrite Hb, Ht, Hl, Hr.
  cbn; repeat split.
Qed.

Lemma body_controls (q : jsstring) (dbs : list (option jsstring))
    (d : Document) :
  let d' := fst (body typeErrors generateContent q dbs d) in
  buttonDisabled d' = buttonDisabled d /\
  buttonTextHidden d' = buttonTextHidden d /\
  loadingHidden d' = loadingHidden d /\
  requests d' = requests d ++ [buildPrompt q dbs].
Proof.
  unfold body. cbv zeta.
  destruct (afterAwait_controls (generateContent (buildPrompt q dbs))
              (send (buildPrompt q dbs) d)) as (Hb & Ht & Hl & Hr).
  cbv zeta in Hb, Ht, Hl, Hr. rewrite Hb, Ht, Hl, Hr.
  cbn; repeat split.
Qed.

(** From the point where the call is awaited, on whatever page the call
    finds when it resumes and whatever it comes to: the controls are
    released and nothing is raised. *)
Lemma resumption_releases_controls (o : Outcome) (d : Document) :
  let r := tryCatchFinally (afterAwait typeErrors o) (handler typeErrors)
             finalizer d in
  buttonDisabled (fst r) = assign false (buttonDisabled d) /\
  buttonTextHidden (fst r) = assign false (buttonTextHidden d) /\
  loadingHidden (fst r) = assign true (loadingHidden d) /\
  snd r = Normal.
Proof.
  unfold tryCatchFinally. cbv zeta.
  pose proof (afterAwait_controls o d) as Hbody. cbv zeta in Hbody.
  destruct (afterAwait typeErrors o d) as [d1 c1].
  cbn [fst] in Hbody. destruct Hbody as (Hb & Ht & Hl & _).
  destruct c1 as [|e].
  - cbn. rewrite Hb, Ht, Hl. repeat split.
  - pose proof (handler_controls e d1) as Hh. cbv zeta in Hh.
    destruct (handler typeErrors e d1) as [d2 c2].
    cbn [fst snd] in Hh. destruct Hh as (Hb2 & Ht2 & Hl2 & _ & Hc2).
    cbn. rewrite Hb2, Ht2, Hl2, Hb, Ht, Hl, Hc2. repeat split.
Qed.

(** What the guarded call leaves behind, whatever the outcome. *)
Lemma tryCatchFinally_controls (q : jsstring)
    (dbs : list (option jsstring)) (d : Document) :
  let r := tryCatchFinally (body typeErrors generateContent q dbs)
             (handler typeErrors) finalizer d in
  buttonDisabled (fst r) = assign false (buttonDisabled d) /\
  buttonTextHidden (fst r) = assign false (buttonTextHidden d) /\
  loadingHidden (fst r) = assign true (loadingHidden d) /\
  requests (fst r) = requests d ++ [buildPrompt q dbs] /\
  snd r = Normal.
Proof.
  unfold tryCatchFinally. cbv zeta.
  pose proof (body_controls q dbs d) as Hbody. cbv zeta in Hbody.
  destruct (body typeErrors generateContent q dbs d) as [d1 c1].
  cbn [fst] in Hbody. destruct Hbody as (Hb & Ht & Hl & Hr).
  destruct c1 as [|e].
  - cbn. rewrite Hb, Ht, Hl, Hr. repeat split.
  - pose proof (handler_controls e d1) as Hh. cbv zeta in Hh.
    destruct (handler typeErrors e d1) as [d2 c2].
    cbn [fst snd] in Hh. destruct Hh as (Hb2 & Ht2 & Hl2 & Hr2 & Hc2).
    cbn. rewrite Hb2, Ht2, Hl2, Hr2, Hb, Ht, Hl, Hr, Hc2. repeat split.
Qed.

(** C4: a submission whose question is empty or consists of white space,
    and a submission with no selected engine, ends in an alert: the page
    is otherwise unchanged, no request is sent and nothing is raised. *)
Theorem executeQuery_rejects_locally (d : Document) :
  trim (questionText d) = [] \/ activeChips d = [] ->
  exists message,
    executeQuery typeErrors generateContent d = (alert message d, Normal) /\
    (message = js "Please enter a query" \/
     message = js "Please select at least one database.") /\
    alerts (fst (executeQuery typeErrors generateContent d))
      = alerts d ++ [message] /\
    requests (fst (executeQuery typeErrors generateContent d)) = requests d.
Proof.
  unfold questionText, executeQuery. intros H.
  destruct (queryInput d) as [el|]; cbn [option_map].
  - destruct (value el) as [|c s].
    + exists (js "Please enter a query"). repeat split. left; reflexivity.
    + destruct (trim (c :: s)) as [|c' s'].
      * exists (js "Please enter a query"). repeat split. left; reflexivity.
      * destruct H as [H|H]; [discriminate H|]. rewrite H.
        exists (js "Please select at least one database.").
        repeat split. right; reflexivity.
  - exists (js "Please enter a query"). repeat split. left; reflexivity.
Qed.

(** C5: after a dispatched submission, whatever the service answers, the
    submit control is enabled again, the busy indicator is hidden and the
    text of the button is shown, the one request has been sent, and the
    call returns normally: the handler of the failure raises nothing. *)
Theorem executeQuery_releases_controls (d : Document) :
  dispatched d ->
  let r := executeQuery typeErrors generateContent d in
  buttonDisabled (fst r) = assign false (buttonDisabled d) /\
  buttonTextHidden (fst r) = assign false (buttonTextHidden d) /\
  loadingHidden (fst r) = assign true (loadingHidden d) /\
  requests (fst r)
    = requests d ++ [buildPrompt (questionText d) (activeChips d)] /\
  snd r = Normal.
Proof.
  intros Hd. cbv zeta. rewrite (executeQuery_dispatched d Hd).
  pose proof (tryCatchFinally_controls (questionText d) (activeChips d)
                (showLoading d)) as H.
  cbv zeta in H. destruct H as (Hb & Ht & Hl & Hr & Hc).
  rewrite Hb, Ht, Hl, Hr, Hc. cbn [showLoading buttonDisabled
    buttonTextHidden loadingHidden requests setButtonTextHidden
    setLoadingHidden setButtonDisabled setResultHidden].
  rewrite !assign_assign. repeat split.
Qed.

(** When the seven display elements are in the document, the formatter
    gets past its guard. *)
Lemma displayEls_present (d : Document) :
  (forall el, display d el <> None) ->
  forallb (fun el => match display d el with
                     | Some _ => true | None => false end) displayEls
  = true.
Proof.
  intros H. cbn [forallb displayEls].
  repeat match goal with
  | |- context [display d ?el] =>
      let E := fresh "E" in
      destruct (display d el) eqn:E; [|exfalso; exact (H el E)]
  end.
  reflexivity.
Qed.

Ltac written_leaf H :=
  cbn [andb negb fst snd firstn existsb written convertible writeOrder];
  repeat rewrite andb_false_r;
  split;
  [ let el := fresh "el" in
    intros el; pose proof (H el); destruct el;
    cbn [existsb firstn DisplayEl_eqb orb fst display write setContent
         analysis contentOf];
    repeat match goal with
           | E : ?l = _ |- context [?l] => rewrite E
           end;
    try reflexivity;
    match goal with
    | |- assign _ ?x = _ => destruct x; [reflexivity|contradiction]
    end
  | reflexivity ].

(** The formatter on a record, on a page with the seven display
    elements: the elements are written in the order of lines 260-267, up
    to the first conversion that throws, and the others keep what they
    held; the call returns normally exactly when no conversion throws. *)
Lemma displayQueryResult_written (data : QueryResult) (d : Document) :
  (forall el, display d el <> None) ->
  let f := renderFields data in
  let r := displayQueryResult typeErrors (Some data) d in
  (forall el,
     display (fst r) el
     = if existsb (DisplayEl_eqb el) (firstn (written f) writeOrder)
       then contentOf f el else display d el) /\
  snd r = (if formats data then Normal else Throw (raised typeErrors data)).
Proof.
  intros H. cbv zeta. unfold displayQueryResult.
  rewrite (displayEls_present d H).
  unfold formats, raised, written, converts.
  cbn [forallb displayEls writeOrder convertible contentOf].
  set (f := renderFields data).
  destruct (confidence f) as [c|] eqn:Ec; [|written_leaf H].
  destruct (optimization f) as [o|] eqn:Eo; [|written_leaf H].
  unfold andThen, setTextContent, setInnerHTML, setHighlighted.
  cbn [Value.ToString].
  destruct (Value.ToString (complexity f)) as [s1|] eqn:E1; [|written_leaf H].
  destruct (Value.ToString (time f)) as [s2|] eqn:E2; [|written_leaf H].
  destruct (Value.ToString (targets f)) as [s3|] eqn:E3; [|written_leaf H].
  destruct (Value.ToString (reasoning f)) as [s4|] eqn:E4; [|written_leaf H].
  destruct (sqlQuery f) eqn:E5; written_leaf H.
Qed.

Lemma formats_written (data : QueryResult) :
  formats data = true -> written (renderFields data) = 7%nat.
Proof.
  unfold formats, written, converts.
  cbn [forallb displayEls writeOrder convertible contentOf].
  set (f := renderFields data).
  destruct (confidence f); [|discriminate].
  destruct (optimization f);
    [|intros H; repeat rewrite andb_false_r in H; discriminate H].
  destruct (Value.ToString (complexity f)); [|discriminate].
  destruct (Value.ToString (time f)); [|discriminate].
  destruct (Value.ToString (targets f)); [|discriminate].
  destruct (Value.ToString (reasoning f));
    [|intros H; repeat rewrite andb_false_r in H; discriminate H].
  destruct (sqlQuery f); try discriminate. reflexivity.
Qed.

(** A record that the formatter gets through is displayed, each element
    with its content. *)
Lemma displayQueryResult_writes (data : QueryResult) (d : Document) :
  (forall el, display d el <> None) ->
  formats data = true ->
  (forall el,
     display (fst (displayQueryResult typeErrors (Some data) d)) el
     = contentOf (renderFields data) el) /\
  snd (displayQueryResult typeErrors (Some data) d) = Normal.
Proof.
  intros H Hf.
  destruct (displayQueryResult_written data d H) as [Hw Hc].
  cbv zeta in Hw, Hc. rewrite Hf in Hc. split; [|exact Hc].
  intros el. rewrite Hw, (formats_written data Hf).
  destruct el; reflexivity.
Qed.


Lemma displayQueryResult_null_throws (d : Document) :
  (forall el, display d el <> None) ->
  displayQueryResult typeErrors None d = (d, Throw (nullRead typeErrors)).
Proof.
  intros H. unfold displayQueryResult.
  rewrite (displayEls_present d H). reflexivity.
Qed.

(** On a page with the seven display elements the formatter touches
    nothing but their content, and removes none of them. *)
Lemma displayQueryResult_keeps (data : option QueryResult) (d : Document) :
  (forall el, display d el <> None) ->
  let d' := fst (displayQueryResult typeErrors data d) in
  (forall el, display d' el <> None) /\
  console d' = console d /\
  alerts d' = alerts d /\
  queryInput d' = queryInput d /\
  activeChips d' = activeChips d.
Proof.
  intros H. cbv zeta.
  apply (formatter_invariant
           (fun d' =>
              (forall el, display d' el <> None) /\
              console d' = console d /\
              alerts d' = alerts d /\
              queryInput d' = queryInput d /\
              activeChips d' = activeChips d)).
  - intros el content d0 (Hp & Hrest). split; [|exact Hrest].
    intros x. specialize (Hp x). unfold write. cbn [display setContent].
    destruct (DisplayEl_eqb x el); [|exact Hp].
    destruct (display d0 x); [discriminate|contradiction].
  - apply displayEls_present. exact H.
  - split; [exact H|]. repeat split.
Qed.




End Dispatcher.

Lemma executeQuery_rejects_locally_witness :
  requests (fst (executeQuery v8Errors transportFailure blankPage)) = [] /\
  requests
    (fst (executeQuery v8Errors transportFailure (page (js "count orders") [])))
  = [].
Proof.
  split.
  - destruct (executeQuery_rejects_locally v8Errors transportFailure
                blankPage) as (m & _ & _ & _ & H).
    + left; reflexivity.
    + exact H.
  - destruct (executeQuery_rejects_locally v8Errors transportFailure
                (page (js "count orders") [])) as (m & _ & _ & _ & H).
    + right; reflexivity.
    + exact H.
Defined.

Lemma askedPage_dispatched : dispatched askedPage.
Proof. split; intros H; vm_compute in H; discriminate H. Defined.

Lemma executeQuery_releases_controls_witness :
  buttonDisabled (fst (executeQuery v8Errors transportFailure askedPage))
    = Some false /\
  snd (executeQuery v8Errors transportFailure askedPage) = Normal.
Proof.
  destruct (executeQuery_releases_controls v8Errors transportFailure
              askedPage askedPage_dispatched) as (H & _ & _ & _ & Hc).
  split; [exact H|exact Hc].
Defined.



(** ** The formatter *)

Lemma written_formats (data : QueryResult) :
  written (renderFields data) = 7%nat -> formats data = true.
Proof.
  unfold formats, written, converts.
  cbn [forallb displayEls writeOrder convertible contentOf].
  set (f := renderFields data).
  destruct (confidence f); [|discriminate].
  destruct (optimization f); [|discriminate].
  destruct (Value.ToString (complexity f)); [|discriminate].
  destruct (Value.ToString (time f)); [|discriminate].
  destruct (Value.ToString (targets f)); [|discriminate].
  destruct (Value.ToString (reasoning f)); [|discriminate].
  destruct (sqlQuery f); try discriminate. reflexivity.
Qed.

Lemma orElse_string (v : option JSON.json) (fallback : jsstring) :
  stringOrAbsent v = true -> exists s, orElse v fallback = JSON.JStr s.
Proof.
  destruct v as [[| | |s| |]|]; try discriminate; intros _; cbn.
  - destruct s; eexists; reflexivity.
  - eexists; reflexivity.
Qed.

(** A record of the types of the schema never makes the formatter
    throw. *)
Lemma conforms_formats (data : QueryResult) :
  conforms data = true -> formats data = true.
Proof.
  unfold conforms. rewrite !andb_true_iff.
  intros ((((((H1 & H2) & H3) & H4) & H5) & H6) & H7).
  unfold formats, converts.
  cbn [forallb displayEls contentOf renderFields confidence complexity time
       targets reasoning optimization sqlQuery].
  destruct (orElse_string _ (js "N/A") H1) as [s1 ->].
  destruct (orElse_string _ (js "N/A") H2) as [s2 ->].
  destruct (orElse_string _ (js "N/A") H3) as [s3 ->].
  destruct (orElse_string _ (js "-- No query generated --") H5) as [s5 ->].
  destruct (orElse_string _ (js "No reasoning provided.") H6) as [s6 ->].
  cbn [Value.ToString andb].
  destruct (confidenceScore data) as [[| |x| | |]|]; try discriminate H4;
    destruct (optimizationApplied data) as [[| | |[|c o]| |]|];
    try discriminate H7;
    cbn [Value.ToBoolean Value.ToNumber Value.ToString option_map];
    try destruct (Number.toBoolean x); reflexivity.
Qed.


(** [toFixed(0)] writes the nearest integer: for a value below [10^21]
    the digits are those of an integer that lies within one half of the
    value. *)
Lemma nearestInteger_spec (m : positive) (e : Z) :
  let (num, den) := Number.scaled m e 0 in
  (0 < den /\ 2 * Z.abs (nearestInteger m e * den - num) <= den)%Z.
Proof.
  unfold nearestInteger. destruct (Number.scaled m e 0) as [num den] eqn:E.
  assert (Hden : (0 < den)%Z).
  { unfold Number.scaled in E. injection E as _ <-. cbn.
    destruct (0 <=? e)%Z eqn:He; [reflexivity|].
    apply Z.leb_gt in He. rewrite Z.mul_1_r.
    apply Z.pow_pos_nonneg; lia. }
  split; [exact Hden|].
  pose proof (Z.div_mod (2 * num + den) (2 * den) ltac:(lia)) as Hdm.
  pose proof (Z.mod_pos_bound (2 * num + den) (2 * den) ltac:(lia)) as Hb.
  set (n := ((2 * num + den) / (2 * den))%Z) in *.
  set (r := ((2 * num + den) mod (2 * den))%Z) in *.
  nia.
Qed.

Lemma toFixed0_nearest (neg : bool) (m : positive) (e : Z) :
  (fst (Number.scaled m e 0) < 10 ^ 21 * snd (Number.scaled m e 0))%Z ->
  Number.toFixed0 (S754_finite neg m e) =
  (if neg then js "-" else []) ++ decimal (Z.to_N (nearestInteger m e)).
Proof.
  unfold Number.toFixed0, nearestInteger.
  destruct (Number.scaled m e 0) as [num den]. cbn [fst snd]. intros H.
  destruct (10 ^ 21 * den <=? num)%Z eqn:E; [|reflexivity].
  apply Z.leb_le in E. lia.
Qed.

(** On a page with the seven display elements, the confidence element
    is written as soon as the two template literals have been evaluated,
    whatever happens to the assignments after it. *)
Lemma displayQueryResult_confidence (typeErrors : TypeErrors)
    (data : QueryResult) (d : Document) (text : jsstring) :
  (forall el, display d el <> None) ->
  confidence (renderFields data) = Some text ->
  optimization (renderFields data) <> None ->
  display (fst (displayQueryResult typeErrors (Some data) d)) confidenceEl
  = Some text.
Proof.
  intros Hd Hc Ho.
  destruct (displayQueryResult_written typeErrors data d Hd) as [Hw _].
  cbv zeta in Hw. rewrite Hw. unfold written. rewrite Hc.
  destruct (optimization (renderFields data)); [|contradiction].
  cbn [convertible writeOrder contentOf]. rewrite Hc.
  cbn [firstn existsb DisplayEl_eqb orb]. reflexivity.
Qed.

(** C7, as amended: a confidence score that is present and truthy (not
    zero, not NaN) is shown as the score times 100 with no decimals,
    followed by the percent sign, and this is the text that the
    confidence element receives, for every record of the types of the
    schema and for every other one whose optimization the template
    literal of line 257 can convert.  When the product is finite
    and below [10^21] the digits are those of the integer nearest to it.
    The Number of the numeral [0.873], the value that [JSON.parse] gives
    it, is shown as [87%]. *)
Theorem confidence_rendering (typeErrors : TypeErrors) (data : QueryResult)
    (score : Number.number) (d : Document) :
  confidenceScore data = Some (JSON.JNum score) ->
  Number.toBoolean score = true ->
  (forall el, display d el <> None) ->
  confidence (renderFields data)
    = Some (Number.toFixed0 (Number.mul score hundred) ++ js "%") /\
  (conforms data = true \/ optimization (renderFields data) <> None ->
   display (fst (displayQueryResult typeErrors (Some data) d)) confidenceEl
   = Some (Number.toFixed0 (Number.mul score hundred) ++ js "%")) /\
  (forall neg m e,
     Number.mul score hundred = S754_finite neg m e ->
     (fst (Number.scaled m e 0) < 10 ^ 21 * snd (Number.scaled m e 0))%Z ->
     confidence (renderFields data)
       = Some ((if neg then js "-" else []) ++
               decimal (Z.to_N (nearestInteger m e)) ++ js "%") /\
     (2 * Z.abs (nearestInteger m e * snd (Number.scaled m e 0)
                 - fst (Number.scaled m e 0))
      <= snd (Number.scaled m e 0))%Z) /\
  JSON.parse (js "0.873") = Some (JSON.JNum score873) /\
  confidence (renderFields (withScore score873)) = Some (js "87%").
Proof.
  intros Hs Ht Hd.
  assert (H : confidence (renderFields data)
              = Some (Number.toFixed0 (Number.mul score hundred) ++ js "%")).
  { unfold renderFields. cbn [confidence]. rewrite Hs.
    cbn [Value.ToBoolean Value.ToNumber option_map]. rewrite Ht.
    reflexivity. }
  split; [exact H|]. split; [|split; [|split]].
  - intros [Hc|Ho]; apply displayQueryResult_confidence; try assumption.
    apply conforms_formats in Hc. unfold formats in Hc.
    rewrite forallb_forall in Hc.
    specialize (Hc optimizationEl ltac:(simpl; tauto)).
    unfold converts in Hc. cbn [contentOf] in Hc.
    intros E. rewrite E in Hc. discriminate Hc.
  - intros neg m e Hmul Hlt. split.
    + rewrite H, Hmul, (toFixed0_nearest neg m e Hlt), <- app_assoc.
      reflexivity.
    + pose proof (nearestInteger_spec m e) as Hn.
      destruct (Number.scaled m e 0) as [num den]. cbn [fst snd].
      apply Hn.
  - vm_compute; reflexivity.
  - vm_compute; reflexivity.
Qed.

Lemma confidence_rendering_witness :
  display
    (fst (displayQueryResult v8Errors (Some (withScore score873)) askedPage))
    confidenceEl
  = Some (js "87%").
Proof.
  destruct (confidence_rendering v8Errors (withScore score873) score873
              askedPage) as (_ & H & _).
  - reflexivity.
  - reflexivity.
  - intros el; discriminate.
  - rewrite H; [vm_compute; reflexivity|left; reflexivity].
Defined.

(** C7, as stated, fails for a score that is present and zero: the
    formatter shows [N/A], not the [0%] that [toFixed] gives. *)
Lemma confidence_zero_not_percent :
  confidenceScore (withScore zero) = Some (JSON.JNum zero) /\
  confidence (renderFields (withScore zero)) = Some (js "N/A") /\
  Number.toFixed0 (Number.mul zero hundred) ++ js "%" = js "0%" /\
  confidence (renderFields (withScore zero))
    <> Some (Number.toFixed0 (Number.mul zero hundred) ++ js "%").
Proof.
  split; [reflexivity|].
  split; [vm_compute; reflexivity|].
  split; [vm_compute; reflexivity|].
  intros H. vm_compute in H. discriminate H.
Qed.

(** The placeholder for a missing query is a comment, and its span is
    corrupted like the one of the SQL example. *)
Lemma highlight_placeholder :
  highlightCode placeholder = placeholderMarkup.
Proof. vm_compute. reflexivity. Qed.

(** C8: for a record of the types of the schema, and for every other
    one that the formatter gets through, on a page with the seven
    display elements, a missing score, complexity, time or targets
    is shown as [N/A], a missing reasoning as the placeholder sentence
    and a missing optimization as the empty fragment, as the claim says.
    For a missing query the text to show is the placeholder comment, but
    the code element does not receive it in a comment span:
    [highlightCode] wraps the class attribute of the span in a string
    span, the defect of the SQL example. *)
Theorem missing_query_placeholder_corrupted (typeErrors : TypeErrors)
    (data : QueryResult) (d : Document) :
  (forall el, display d el <> None) ->
  conforms data = true \/ formats data = true ->
  let d' := fst (displayQueryResult typeErrors (Some data) d) in
  (confidenceScore data = None -> display d' confidenceEl = Some (js "N/A")) /\
  (queryComplexity data = None -> display d' complexityEl = Some (js "N/A")) /\
  (estimatedExecutionTime data = None ->
   display d' timeEl = Some (js "N/A")) /\
  (targetDatabases data = None -> display d' targetsEl = Some (js "N/A")) /\
  (queryReasoning data = None ->
   display d' reasoningEl = Some (js "No reasoning provided.")) /\
  (optimizationApplied data = None -> display d' optimizationEl = Some []) /\
  (generatedSQL data = None ->
   sqlQuery (renderFields data) = JSON.JStr (js "-- No query generated --") /\
   display d' sqlCodeEl = Some placeholderMarkup /\
   placeholderMarkup <> placeholderIntended /\
   placeholderMarkup <> js "-- No query generated --").
Proof.
  intros Hd Hcf. cbv zeta.
  assert (Hf : formats data = true)
    by (destruct Hcf as [Hc|Hf]; [apply conforms_formats|]; assumption).
  destruct (displayQueryResult_writes typeErrors data d Hd Hf) as [Hw _].
  rewrite !Hw. unfold renderFields.
  cbn [contentOf confidence complexity time targets reasoning optimization
       sqlQuery].
  do 6 (split; [intros ->; reflexivity|]).
  intros ->. cbn [orElse].
  change (js "-- No query generated --") with placeholder.
  rewrite highlight_placeholder.
  split; [reflexivity|]. split; [reflexivity|].
  split; intros E; vm_compute in E; discriminate E.
Qed.

Lemma missing_query_placeholder_corrupted_witness :
  display
    (fst (displayQueryResult v8Errors (Some emptyResult) askedPage))
    reasoningEl
  = Some (js "No reasoning provided.") /\
  display
    (fst (displayQueryResult v8Errors (Some emptyResult) askedPage))
    sqlCodeEl
  = Some placeholderMarkup.
Proof.
  destruct (missing_query_placeholder_corrupted v8Errors emptyResult
              askedPage)
    as (_ & _ & _ & _ & H5 & _ & H7).
  - intros el; discriminate.
  - left. reflexivity.
  - split; [exact (H5 eq_refl)|]. exact (proj1 (proj2 (H7 eq_refl))).
Defined.



(** ** The advisory *)

Lemma startsWith_map (f : codeunit -> codeunit) (p s : jsstring) :
  startsWith p s = true -> startsWith (map f p) (map f s) = true.
Proof.
  revert s. induction p as [|a p IH]; intros [|b s]; cbn; try easy.
  intros H. apply andb_true_iff in H. destruct H as [Hab Hps].
  apply N.eqb_eq in Hab. subst b. rewrite N.eqb_refl. cbn.
  apply IH. exact Hps.
Qed.

Lemma includes_map (f : codeunit -> codeunit) (s p : jsstring) :
  includes s p = true -> includes (map f s) (map f p) = true.
Proof.
  induction s as [|c s IH]; cbn [includes map]; intros H;
    apply orb_true_iff in H; apply orb_true_iff.
  - destruct H as [H|H]; [|discriminate H].
    left. exact (startsWith_map f p [] H).
  - destruct H as [H|H].
    + left. exact (startsWith_map f p (c :: s) H).
    + right. apply IH. exact H.
Qed.

Lemma mutatingKeywords_lower (keyword : jsstring) :
  In keyword mutatingKeywords -> toLowerCase keyword = keyword.
Proof.
  intros H. cbn in H.
  repeat (destruct H as [<-|H]; [reflexivity|]). contradiction.
Qed.

(** C9, as amended: the advisory looks at the text in lower case.  A text
    is flagged exactly when its lower-case form contains one of the five
    substrings; every text that contains one of them as written is
    flagged; the advisory changes the style of the input and nothing
    else. *)
Theorem advisory_flags_lower_case (text : jsstring) :
  (isReadOnly text = false <->
   exists keyword,
     In keyword mutatingKeywords /\
     includes (toLowerCase text) keyword = true) /\
  (forall keyword,
     In keyword mutatingKeywords -> includes text keyword = true ->
     isReadOnly text = false) /\
  (forall d el,
     queryInput d = Some el -> value el = text ->
     validateQueryInput d = setQueryInput (Some (advisedStyle text)) d).
Proof.
  assert (Hiff : isReadOnly text = false <->
    exists keyword,
      In keyword mutatingKeywords /\
      includes (toLowerCase text) keyword = true).
  { unfold isReadOnly. rewrite negb_false_iff, existsb_exists. reflexivity. }
  split; [exact Hiff|]. split.
  - intros keyword Hin Hinc. apply Hiff. exists keyword. split; [exact Hin|].
    rewrite <- (mutatingKeywords_lower keyword Hin).
    apply includes_map. exact Hinc.
  - intros d el Hq Hv. unfold validateQueryInput, advisedStyle.
    rewrite Hq, Hv. destruct (isReadOnly text); reflexivity.
Qed.

Lemma advisory_flags_lower_case_witness :
  isReadOnly (js "please delete the old rows") = false.
Proof.
  destruct (advisory_flags_lower_case (js "please delete the old rows"))
    as (_ & H & _).
  apply (H (js "delete")).
  - left; reflexivity.
  - vm_compute; reflexivity.
Defined.

(** C9, as stated, fails for a text in upper case: it contains none of
    the five substrings as written and is flagged all the same. *)
Lemma advisory_flags_upper_case :
  (forall keyword,
     In keyword mutatingKeywords -> includes dropText keyword = false) /\
  isReadOnly dropText = false /\
  borderColor (advisedStyle dropText) = js "var(--warning)".
Proof.
  split; [|split; vm_compute; reflexivity].
  intros keyword H. cbn in H.
  repeat (destruct H as [<-|H]; [vm_compute; reflexivity|]). contradiction.
Qed.

(** ** The library functions on known values *)

Lemma Number_toString_known :
  Number.toString tenth = js "0.1" /\
  Number.toString (Number.mul tenth (Number.ofZ 3))
    = js "0.30000000000000004" /\
  Number.toString (Number.ofDecimal false 1 21) = js "1e+21" /\
  Number.toString (Number.ofDecimal false 123456789012345680000 0)
    = js "123456789012345680000" /\
  Number.toString (Number.ofDecimal false 1 (-7)) = js "1e-7" /\
  Number.toString (Number.ofDecimal true 1 (-6)) = js "-0.000001" /\
  Number.toString (Number.ofDecimal false 9007199254740993 0)
    = js "9007199254740992" /\
  Number.toString (Number.ofDecimal false 5 (-324)) = js "5e-324".
Proof. vm_compute. repeat split. Qed.

Lemma Number_toFixed0_known :
  Number.toFixed0 (Number.mul (Number.ofDecimal false 1005 (-3)) hundred)
    = js "100" /\
  Number.toFixed0 (Number.ofDecimal false 25 (-1)) = js "3" /\
  Number.toFixed0 (Number.ofDecimal true 4 (-1)) = js "-0" /\
  Number.toFixed0 (Number.ofDecimal false 1 21) = js "1e+21" /\
  Number.toFixed0 S754_nan = js "NaN".
Proof. vm_compute. repeat split. Qed.

Lemma JSON_known :
  option_map JSON.stringify (JSON.parse duplicateKeys)
    = Some duplicateKeysPretty /\
  JSON.parse (js "[1,]") = None /\
  JSON.parse (js "[01]") = None /\
  JSON.parse (js "['a']") = None /\
  JSON.parse (js "{} x") = None /\
  option_map JSON.stringify (JSON.parse (js " [ ] ")) = Some (js "[]") /\
  option_map JSON.stringify
    (JSON.parse (js "[" ++ quoted "A\n\/" ++ js ", 1e999, -0]"))
    = Some (lines [js "["; js "  " ++ quoted "A\n/" ++ js ",";
                   js "  null,"; js "  0"; js "]"]).
Proof. vm_compute. repeat split. Qed.

Lemma replace_known :
  ruleNumbers (js "1.5e3 x1 2.x (3.25)")
    = span "token-number" (js "1") ++ js ".5e3 x1 " ++
      span "token-number" (js "2") ++ js ".x (" ++
      span "token-number" (js "3.25") ++ js ")" /\
  ruleKeywords (js "select a from orders order by inner_join")
    = span "token-keyword" (js "select") ++ js " a " ++
      span "token-keyword" (js "from") ++ js " orders " ++
      span "token-keyword" (js "order by") ++ js " inner_join" /\
  ruleBooleans (js "true TRUE nullable null")
    = span "token-boolean" (js "true") ++ js " TRUE nullable " ++
      span "token-boolean" (js "null").
Proof. vm_compute. repeat split. Qed.

(** The conversions on known values, and the value that a text of the
    answer is parsed to. *)
Lemma Value_known :
  map (fun text => Number.toString (Value.StringToNumber (js text)))
    [" 0.5 "; ""; "0x1F"; "-0x1"; "5."; ".5e1"; "1e400"; "-Infinity";
     "1_000"; "12px"]%string
  = map js ["0.5"; "0"; "31"; "NaN"; "5"; "5"; "Infinity"; "-Infinity";
            "NaN"; "NaN"]%string /\
  option_map Value.ToString (JSON.parse (js "[1,null,[2,3],{},true]"))
    = Some (Some (js "1,,2,3,[object Object],true")) /\
  option_map Value.ToString
    (JSON.parse (js "{" ++ quoted "toString" ++ js ":1}"))
    = Some None /\
  option_map Value.ToNumber (JSON.parse (js "[]"))
    = Some (Some (S754_zero false)) /\
  option_map Value.ToNumber (JSON.parse (js "{}")) = Some (Some S754_nan) /\
  option_map properties (JSON.parse numericQueryText)
    = Some (Some numericQuery) /\
  option_map properties (JSON.parse (js "null")) = Some None /\
  option_map properties (JSON.parse (js "[1,2]")) = Some (Some emptyResult).
Proof. vm_compute. repeat split. Qed.

End Properties.

(** * Further properties of the application *)

Module Extras.

Import Highlight App Examples Notions Properties.

(** ** [highlightCode] and white space *)

Lemma trimStart_blank (w : jsstring) : isBlank w = true -> trimStart w = [].
Proof.
  induction w as [|c w IH]; [reflexivity|]. cbn. intros H.
  apply andb_true_iff in H. destruct H as [Hc Hw]. rewrite Hc. auto.
Qed.

Lemma trimStart_app_blank (w s : jsstring) :
  isBlank w = true -> trimStart (w ++ s) = trimStart s.
Proof.
  induction w as [|c w IH]; [reflexivity|]. cbn. intros H.
  apply andb_true_iff in H. destruct H as [Hc Hw]. rewrite Hc. auto.
Qed.

Lemma trimStart_nil_blank (s : jsstring) :
  trimStart s = [] -> isBlank s = true.
Proof.
  induction s as [|c s IH]; [reflexivity|]. cbn.
  destruct (isWhiteSpace c); [exact IH|discriminate].
Qed.

Lemma trimStart_app_nonblank (s t : jsstring) :
  trimStart s <> [] -> trimStart (s ++ t) = trimStart s ++ t.
Proof.
  induction s as [|c s IH]; [intros H; contradiction H; reflexivity|].
  cbn. destruct (isWhiteSpace c); [exact IH|reflexivity].
Qed.

Lemma isBlank_app (a b : jsstring) :
  isBlank (a ++ b) = isBlank a && isBlank b.
Proof. apply forallb_app. Qed.

Lemma isBlank_rev (w : jsstring) : isBlank (rev w) = isBlank w.
Proof.
  induction w as [|c w IH]; [reflexivity|].
  cbn [rev]. rewrite isBlank_app, IH. cbn. rewrite andb_true_r.
  apply andb_comm.
Qed.

Lemma trimEnd_app_blank (s w : jsstring) :
  isBlank w = true -> trimEnd (s ++ w) = trimEnd s.
Proof.
  intros H. unfold trimEnd. rewrite rev_app_distr, trimStart_app_blank;
    [reflexivity|]. rewrite isBlank_rev. exact H.
Qed.

Lemma trim_padded (w1 s w2 : jsstring) :
  isBlank w1 = true -> isBlank w2 = true ->
  trim (w1 ++ s ++ w2) = trim s.
Proof.
  intros H1 H2. unfold trim. rewrite (trimStart_app_blank w1 _ H1).
  destruct (trimStart s) as [|c r] eqn:E.
  - rewrite trimStart_blank; [reflexivity|].
    rewrite isBlank_app, H2, (trimStart_nil_blank s E). reflexivity.
  - rewrite trimStart_app_nonblank by (rewrite E; discriminate).
    rewrite E. apply trimEnd_app_blank. exact H2.
Qed.

(** X1: white space around the query text does not count: the markup of
    a text with leading and trailing white space is the markup of the
    text without it; a text of white space only gives the empty
    markup. *)
Theorem highlightCode_ignores_padding (w1 code w2 : jsstring) :
  isBlank w1 = true -> isBlank w2 = true ->
  highlightCode (w1 ++ code ++ w2) = highlightCode code /\
  highlightCode w1 = [].
Proof.
  intros H1 H2. split.
  - unfold highlightCode. rewrite (trim_padded w1 code w2 H1 H2).
    reflexivity.
  - unfold highlightCode.
    replace (trim w1) with (@nil codeunit).
    + vm_compute. reflexivity.
    + unfold trim. rewrite (trimStart_blank w1 H1). reflexivity.
Qed.

Lemma highlightCode_ignores_padding_witness :
  highlightCode ([0x20; 0xA; 0x9] ++ sqlExample ++ [0xA0; 0xD; 0xA])
    = highlightCode sqlExample.
Proof.
  destruct (highlightCode_ignores_padding [0x20; 0xA; 0x9] sqlExample
              [0xA0; 0xD; 0xA]) as [H _].
  - reflexivity.
  - reflexivity.
  - exact H.
Defined.

(** ** Escaping *)

Lemma unescapeHtml_units (s : jsstring) :
  unescapeHtml (flat_map escapeUnit s) = s.
Proof.
  induction s as [|c s IH]; [reflexivity|].
  cbn [flat_map]. unfold escapeUnit at 1.
  change (ch "&") with 38; change (ch "<") with 60; change (ch ">") with 62.
  destruct (N.eqb_spec c 38) as [->|H38].
  { cbn. rewrite IH. reflexivity. }
  destruct (N.eqb_spec c 60) as [->|H60].
  { cbn. rewrite IH. reflexivity. }
  destruct (N.eqb_spec c 62) as [->|H62].
  { cbn. rewrite IH. reflexivity. }
  cbn [app unescapeHtml]. change (ch "&") with 38.
  destruct (N.eqb_spec c 38); [contradiction|].
  rewrite IH. reflexivity.
Qed.

(** X2: escaping loses nothing: reading the three entities back gives
    the text that was escaped, so two different texts never have the same
    escaped form. *)
Theorem escapeHtml_lossless (a b : jsstring) :
  unescapeHtml (escapeHtml a) = a /\
  (escapeHtml a = escapeHtml b -> a = b).
Proof.
  assert (H : forall s, unescapeHtml (escapeHtml s) = s)
    by (intros s; rewrite escapeHtml_units; apply unescapeHtml_units).
  split; [apply H|].
  intros E. rewrite <- (H a), <- (H b), E. reflexivity.
Qed.

Lemma escapeHtml_lossless_witness :
  unescapeHtml (escapeHtml (js "a < b && c > &lt;")) = js "a < b && c > &lt;".
Proof.
  exact (proj1 (escapeHtml_lossless (js "a < b && c > &lt;") [])).
Defined.

(** ** The formatter and its guard *)

Lemma displayEls_complete (el : DisplayEl) : In el displayEls.
Proof. destruct el; cbn; tauto. Qed.

Lemma displayEls_missing (d : Document) (el : DisplayEl) :
  display d el = None ->
  forallb (fun el => match display d el with
                     | Some _ => true | None => false end) displayEls
  = false.
Proof.
  intros H.
  destruct (forallb _ displayEls) eqn:E; [|reflexivity].
  rewrite forallb_forall in E. specialize (E el (displayEls_complete el)).
  rewrite H in E. discriminate E.
Qed.

Lemma displayQueryResult_missing (typeErrors : TypeErrors)
    (data : option QueryResult) (d : Document) (el : DisplayEl) :
  display d el = None ->
  displayQueryResult typeErrors data d
  = (consoleError ElementsNotFound d, Normal).
Proof.
  intros H. unfold displayQueryResult.
  rewrite (displayEls_missing d el H). reflexivity.
Qed.

Lemma convertible_content (f : Fields) (els : list DisplayEl)
    (el : DisplayEl) :
  In el (firstn (convertible f els) els) -> contentOf f el <> None.
Proof.
  induction els as [|x els IH]; cbn [convertible]; [intros []|].
  destruct (contentOf f x) eqn:E; [|intros []].
  cbn [firstn]. intros [<-|H]; [rewrite E; discriminate|].
  apply IH. exact H.
Qed.

(** X3: the formatter writes the display elements in a fixed order and
    stops where a conversion throws.  When an element is missing from
    the page nothing is written, whatever the data, and nothing is
    raised.  Otherwise [null] throws before anything is written, and for
    a record the elements written are a beginning of the sequence
    confidence, complexity, time, targets, reasoning, optimization,
    code: each of them holds its content, the others hold what they held
    before.  The call returns normally exactly when all seven are
    written, as they are for every record of the types of the schema; a
    query that is truthy and no string leaves the six elements before
    the code element rewritten and the code element stale. *)
Theorem displayQueryResult_writes_in_order (typeErrors : TypeErrors)
    (data : option QueryResult) (d : Document) :
  let r := displayQueryResult typeErrors data d in
  (forall el, display d el = None ->
              r = (consoleError ElementsNotFound d, Normal)) /\
  ((forall el, display d el <> None) ->
   match data with
   | None => r = (d, Throw (nullRead typeErrors))
   | Some record =>
       let f := renderFields record in
       (forall el, In el (firstn (written f) writeOrder) ->
                   display (fst r) el = contentOf f el /\
                   contentOf f el <> None) /\
       (forall el, In el (skipn (written f) writeOrder) ->
                   display (fst r) el = display d el) /\
       (snd r = Normal <-> written f = 7%nat) /\
       (conforms record = true -> written f = 7%nat) /\
       ((forall s, sqlQuery f <> JSON.JStr s) ->
        (written f <= 6)%nat /\
        display (fst r) sqlCodeEl = display d sqlCodeEl)
   end).
Proof.
  cbv zeta. split; [intros el; apply displayQueryResult_missing|].
  intros H. destruct data as [record|];
    [|apply displayQueryResult_null_throws; exact H].
  destruct (displayQueryResult_written typeErrors record d H) as [Hw Hc].
  cbv zeta in Hw, Hc.
  assert (Hn : forall el, In el (firstn (written (renderFields record))
                                   writeOrder) ->
                          contentOf (renderFields record) el <> None).
  { intros el. unfold written.
    destruct (confidence (renderFields record));
      [|intros []].
    destruct (optimization (renderFields record)); [|intros []].
    apply convertible_content. }
  assert (Hsql : (forall s, sqlQuery (renderFields record) <> JSON.JStr s) ->
                 (written (renderFields record) <= 6)%nat).
  { intros Hs. unfold written.
    cbn [convertible writeOrder contentOf].
    destruct (confidence (renderFields record)); [|apply Nat.le_0_l].
    destruct (optimization (renderFields record)); [|apply Nat.le_0_l].
    destruct (Value.ToString (complexity (renderFields record)));
      [|cbn; lia].
    destruct (Value.ToString (time (renderFields record))); [|cbn; lia].
    destruct (Value.ToString (targets (renderFields record))); [|cbn; lia].
    destruct (Value.ToString (reasoning (renderFields record)));
      [|cbn; lia].
    destruct (sqlQuery (renderFields record)) as [| | |code| |];
      cbn; try lia.
    exfalso. apply (Hs code). reflexivity. }
  split; [|split; [|split; [|split]]].
  - intros el Hin. split; [|apply Hn; exact Hin].
    rewrite Hw. revert Hin.
    destruct (written (renderFields record))
      as [|[|[|[|[|[|[|[|k]]]]]]]];
      destruct el; cbn; intuition discriminate.
  - intros el Hin. rewrite Hw. revert Hin.
    destruct (written (renderFields record))
      as [|[|[|[|[|[|[|[|k]]]]]]]];
      destruct el; cbn; intuition discriminate.
  - rewrite Hc. split.
    + destruct (formats record) eqn:Hf; [|discriminate].
      intros _. apply formats_written. exact Hf.
    + intros H7. rewrite (written_formats record H7). reflexivity.
  - intros Hcf. apply formats_written, conforms_formats. exact Hcf.
  - intros Hs. pose proof (Hsql Hs) as Hle. split; [exact Hle|].
    rewrite Hw. revert Hle.
    destruct (written (renderFields record))
      as [|[|[|[|[|[|[|k]]]]]]]; cbn; try reflexivity.
    intros Hle. lia.
Qed.

Lemma displayQueryResult_writes_in_order_witness :
  display
    (fst (displayQueryResult v8Errors (Some fullResult)
            pageWithoutReasoning)) confidenceEl
  = Some (js "earlier result") /\
  written (renderFields numericQuery) = 6%nat /\
  display (fst (displayQueryResult v8Errors (Some numericQuery) askedPage))
    complexityEl
  = Some (js "Tier 1") /\
  display (fst (displayQueryResult v8Errors (Some numericQuery) askedPage))
    sqlCodeEl
  = Some (js "earlier result") /\
  snd (displayQueryResult v8Errors (Some numericQuery) askedPage) <> Normal.
Proof.
  assert (Hp : forall el, display askedPage el <> None)
    by (intros el; discriminate).
  split; [|split; [reflexivity|split; [|split]]].
  - destruct (displayQueryResult_writes_in_order v8Errors
                (Some fullResult) pageWithoutReasoning) as [H _].
    rewrite (H reasoningEl); reflexivity.
  - destruct (displayQueryResult_writes_in_order v8Errors
                (Some numericQuery) askedPage) as [_ H].
    destruct (H Hp) as (H1 & _).
    destruct (H1 complexityEl) as [E _];
      [right; left; reflexivity|].
    rewrite E. reflexivity.
  - destruct (displayQueryResult_writes_in_order v8Errors
                (Some numericQuery) askedPage) as [_ H].
    destruct (H Hp) as (_ & _ & _ & _ & H5).
    destruct H5 as [_ E]; [intros s; discriminate|].
    rewrite E. reflexivity.
  - destruct (displayQueryResult_writes_in_order v8Errors
                (Some numericQuery) askedPage) as [_ H].
    destruct (H Hp) as (_ & _ & H3 & _).
    intros E. apply H3 in E. discriminate E.
Defined.

(** ** The dispatcher *)

Section Dispatch.

Variable typeErrors : TypeErrors.
Variable generateContent : jsstring -> Outcome.

Lemma displayQueryResult_present (data : QueryResult) (d : Document) :
  (forall el, display d el <> None) ->
  formats data = true ->
  let r := displayQueryResult typeErrors (Some data) d in
  snd r = Normal /\
  console (fst r) = console d /\
  alerts (fst r) = alerts d /\
  analysis (fst r) = analysis d /\
  resultHidden (fst r) = resultHidden d /\
  (forall el, display (fst r) el = contentOf (renderFields data) el).
Proof.
  intros H Hf. cbv zeta.
  destruct (displayQueryResult_writes typeErrors data d H Hf) as [Hw Hn].
  destruct (displayQueryResult_keeps typeErrors (Some data) d H)
    as (_ & Hc & Ha & _).
  destruct (displayQueryResult_controls typeErrors (Some data) d)
    as (_ & _ & _ & Hr & Han & _).
  cbv zeta in Hc, Ha, Hr, Han.
  exact (conj Hn (conj Hc (conj Ha (conj Han (conj Hr Hw))))).
Qed.

(** X4: an answer that parses to a value which the formatter gets
    through, as it does every record of the types of the schema, is
    displayed: on a page with the seven display elements each one
    receives its content, the result container is shown and nothing is
    logged.  The analysis element is not written: an error message left
    there by an earlier failure stays. *)
Theorem executeQuery_success_displays (d : Document) (data : QueryResult) :
  dispatched d ->
  (forall el, display d el <> None) ->
  generateContent (buildPrompt (questionText d) (activeChips d))
    = Parsed (Some data) ->
  conforms data = true \/ formats data = true ->
  let d' := fst (executeQuery typeErrors generateContent d) in
  (forall el, display d' el = contentOf (renderFields data) el) /\
  (forall el, display d' el <> None) /\
  resultHidden d' = assign false (resultHidden d) /\
  analysis d' = analysis d /\
  console d' = console d /\
  alerts d' = alerts d /\
  snd (executeQuery typeErrors generateContent d) = Normal.
Proof.
  intros Hd Hel Ho Hcf. cbv zeta.
  assert (Hf : formats data = true)
    by (destruct Hcf as [Hc|Hf]; [apply conforms_formats|]; assumption).
  rewrite (executeQuery_dispatched _ _ d Hd).
  unfold tryCatchFinally, body, afterAwait. rewrite Ho.
  set (d2 := setResultHidden _ _).
  assert (H2 : forall el, display d2 el <> None) by (intros el; apply Hel).
  pose proof (displayQueryResult_present data d2 H2 Hf) as P. cbv zeta in P.
  pose proof (displayQueryResult_keeps typeErrors (Some data) d2 H2) as K.
  cbv zeta in K.
  destruct (displayQueryResult typeErrors (Some data) d2) as [d3 c3].
  cbn [fst snd] in P, K.
  destruct P as (Hc & Hcon & Hal & Han & Hres & Hdis).
  destruct K as (Hpres & _).
  subst c3. cbn [fst snd finalizer].
  split; [intros el; cbn; apply Hdis|].
  split; [intros el; cbn; apply Hpres|].
  split; [cbn; rewrite Hres; unfold d2; cbn; apply assign_assign|].
  split; [cbn; rewrite Han; reflexivity|].
  split; [cbn; rewrite Hcon; reflexivity|].
  split; [cbn; rewrite Hal; reflexivity|reflexivity].
Qed.

(** A call that is rejected, or whose text is not JSON, reaches the
    handler on a page that differs from the first one in the controls
    and the request only. *)
Lemma executeQuery_caught (d : Document) (e : Thrown) :
  dispatched d ->
  generateContent (buildPrompt (questionText d) (activeChips d))
    = Rejected e \/
  generateContent (buildPrompt (questionText d) (activeChips d))
    = NotJson e ->
  exists d1,
    executeQuery typeErrors generateContent d
      = (finalizer (fst (handler typeErrors e d1)),
         snd (handler typeErrors e d1)) /\
    analysis d1 = analysis d /\
    (forall el, display d1 el = display d el) /\
    (forall el, insideAnalysis d1 el = insideAnalysis d el) /\
    console d1 = console d /\
    assign false (resultHidden d1) = assign false (resultHidden d).
Proof.
  intros Hd Ho. rewrite (executeQuery_dispatched _ _ d Hd).
  unfold tryCatchFinally, body, afterAwait.
  set (prompt := buildPrompt (questionText d) (activeChips d)) in *.
  set (d0 := send prompt (showLoading d)).
  destruct Ho as [Ho|Ho]; rewrite Ho.
  - exists d0. split; [destruct (handler typeErrors e d0); reflexivity|].
    cbn; rewrite ?assign_assign; repeat split.
  - exists (setResultHidden (assign false (resultHidden d0)) d0).
    split; [destruct (handler typeErrors e _); reflexivity|].
    cbn; rewrite ?assign_assign; repeat split.
Qed.

(** X5: on a page without the analysis element a failed call has no
    place for its message: the error is logged to the console, and the
    display elements are still reset to the fallbacks of an empty
    record. *)
Theorem executeQuery_failure_without_analysis (d : Document) (e : Thrown) :
  dispatched d ->
  analysis d = None ->
  (forall el, display d el <> None) ->
  generateContent (buildPrompt (questionText d) (activeChips d))
    = Rejected e \/
  generateContent (buildPrompt (questionText d) (activeChips d))
    = NotJson e ->
  let d' := fst (executeQuery typeErrors generateContent d) in
  analysis d' = None /\
  console d' = console d ++ [QueryError e] /\
  (forall el, display d' el = contentOf (renderFields emptyResult) el).
Proof.
  intros Hd Ha Hel Ho. cbv zeta.
  destruct (executeQuery_caught d e Hd Ho)
    as (d1 & E & Han & Hdis & _ & Hcon & _).
  rewrite E. cbn [fst]. unfold handler. cbv zeta.
  set (d2 := writeAnalysis _ _).
  assert (Ed2 : analysis d2 = None /\ console d2 = console d ++ [QueryError e]
                /\ forall el, display d2 el = display d el).
  { unfold d2, writeAnalysis. cbn [analysis setResultHidden consoleError].
    assert (A1 : analysis d1 = None) by (rewrite Han; exact Ha).
    rewrite A1. cbn. rewrite A1, Hcon.
    split; [reflexivity|]. split; [reflexivity|]. intros el. apply Hdis. }
  destruct Ed2 as (A2 & C2 & D2).
  assert (H2 : forall el, display d2 el <> None)
    by (intros el; rewrite D2; apply Hel).
  pose proof (displayQueryResult_present emptyResult d2 H2 eq_refl) as P.
  cbv zeta in P. destruct (displayQueryResult typeErrors _ d2) as [d3 c3].
  cbn [fst snd] in P. destruct P as (_ & Hc3 & _ & Ha3 & _ & Hd3).
  repeat split.
  - cbn. rewrite Ha3. exact A2.
  - cbn. rewrite Hc3. exact C2.
  - intros el. cbn. apply Hd3.
Qed.


End Dispatch.

Lemma executeQuery_success_displays_witness :
  display (fst (executeQuery v8Errors success askedPage)) confidenceEl
    = Some (js "87%") /\
  analysis (fst (executeQuery v8Errors success askedPage))
    = Some (js "earlier analysis").
Proof.
  destruct (executeQuery_success_displays v8Errors success askedPage
              fullResult askedPage_dispatched) as (H & _ & _ & Ha & _).
  - intros el; discriminate.
  - reflexivity.
  - left. reflexivity.
  - split; [rewrite H; vm_compute; reflexivity|exact Ha].
Defined.

Lemma pageWithoutAnalysis_dispatched : dispatched pageWithoutAnalysis.
Proof. split; intros H; vm_compute in H; discriminate H. Defined.

Lemma executeQuery_failure_without_analysis_witness :
  display (fst (executeQuery v8Errors transportFailure pageWithoutAnalysis))
    reasoningEl
  = Some (js "No reasoning provided.").
Proof.
  destruct (executeQuery_failure_without_analysis v8Errors
              transportFailure pageWithoutAnalysis
              (ErrorObject (js "Failed to fetch"))
              pageWithoutAnalysis_dispatched) as (_ & _ & H).
  - reflexivity.
  - intros el; discriminate.
  - left; reflexivity.
  - rewrite H. reflexivity.
Defined.



(** ** The request *)

Lemma startsWith_app (p b : jsstring) : startsWith p (p ++ b) = true.
Proof.
  induction p as [|c p IH]; [reflexivity|].
  cbn. rewrite N.eqb_refl. exact IH.
Qed.

Lemma includes_prefix (s p : jsstring) :
  startsWith p s = true -> includes s p = true.
Proof. intros H. destruct s; cbn [includes]; rewrite H; reflexivity. Qed.

Lemma includes_app_l (a s p : jsstring) :
  includes s p = true -> includes (a ++ s) p = true.
Proof.
  intros H. induction a as [|c a IH]; [exact H|].
  cbn [app includes]. rewrite IH. apply orb_true_r.
Qed.

Lemma buildPrompt_includes (q : jsstring) (dbs : list (option jsstring)) :
  includes (buildPrompt q dbs) ([dquote] ++ q ++ [dquote]) = true /\
  includes (buildPrompt q dbs)
    (join (js ", ")
       (map (fun db => match db with Some s => s | None => [] end) dbs))
  = true.
Proof.
  unfold buildPrompt. split.
  - do 6 apply includes_app_l. apply includes_prefix.
    rewrite (app_assoc q [dquote]), (app_assoc [dquote] (q ++ [dquote])).
    apply startsWith_app.
  - do 13 apply includes_app_l. apply includes_prefix.
    apply startsWith_app.
Qed.

(** X7: a dispatched submission sends one request, whose text carries the
    question exactly as it stands in the input (it is validated trimmed
    but sent untrimmed) between double quotes, and the names of the
    selected engines joined by a comma and a space (a chip without a
    [data-db] gives an empty name). *)
Theorem executeQuery_sends_question (typeErrors : TypeErrors)
    (generateContent : jsstring -> Outcome) (d : Document) :
  dispatched d ->
  exists prompt,
    requests (fst (executeQuery typeErrors generateContent d))
      = requests d ++ [prompt] /\
    includes prompt ([dquote] ++ questionText d ++ [dquote]) = true /\
    includes prompt
      (join (js ", ")
         (map (fun db => match db with Some s => s | None => [] end)
            (activeChips d)))
    = true.
Proof.
  intros Hd. exists (buildPrompt (questionText d) (activeChips d)).
  split; [|apply buildPrompt_includes].
  rewrite (executeQuery_dispatched _ _ d Hd).
  pose proof (tryCatchFinally_controls typeErrors generateContent
                (questionText d) (activeChips d) (showLoading d)) as H.
  cbv zeta in H. destruct H as (_ & _ & _ & Hr & _). exact Hr.
Qed.

Lemma executeQuery_sends_question_witness :
  exists prompt,
    requests (fst (executeQuery v8Errors transportFailure
                     (page (js "  list users ") [Some (js "mysql"); None])))
      = [prompt] /\
    includes prompt ([dquote] ++ js "  list users " ++ [dquote]) = true /\
    includes prompt (js "mysql, ") = true.
Proof.
  destruct (executeQuery_sends_question v8Errors transportFailure
              (page (js "  list users ") [Some (js "mysql"); None]))
    as (prompt & H1 & H2 & H3).
  - split; intros H; vm_compute in H; discriminate H.
  - exists prompt. split; [exact H1|]. split; [exact H2|exact H3].
Defined.

(** ** The advisory and the submission *)

Section Advisory.

Variable typeErrors : TypeErrors.
Variable generateContent : jsstring -> Outcome.
Variable v : option TextArea.

Lemma displayQueryResult_setQueryInput (data : option QueryResult)
    (d : Document) :
  displayQueryResult typeErrors data (setQueryInput v d)
  = (setQueryInput v (fst (displayQueryResult typeErrors data d)),
     snd (displayQueryResult typeErrors data d)).
Proof.
  assert (Hseq : forall first next : statement,
             (forall d, first (setQueryInput v d)
                        = (setQueryInput v (fst (first d)), snd (first d))) ->
             (forall d, next (setQueryInput v d)
                        = (setQueryInput v (fst (next d)), snd (next d))) ->
             forall d, andThen first next (setQueryInput v d)
                       = (setQueryInput v (fst (andThen first next d)),
                          snd (andThen first next d))).
  { intros first next Hf Hn d0. unfold andThen. rewrite Hf.
    destruct (first d0) as [d1 [|e]]; cbn [fst snd]; [apply Hn|reflexivity]. }
  assert (Ht : forall el x d,
             setTextContent typeErrors el x (setQueryInput v d)
             = (setQueryInput v (fst (setTextContent typeErrors el x d)),
                snd (setTextContent typeErrors el x d))).
  { intros el x d0. unfold setTextContent.
    destruct (Value.ToString x); reflexivity. }
  assert (Hh : forall el x d,
             setHighlighted typeErrors el x (setQueryInput v d)
             = (setQueryInput v (fst (setHighlighted typeErrors el x d)),
                snd (setHighlighted typeErrors el x d))).
  { intros el x d0. unfold setHighlighted. destruct x; reflexivity. }
  unfold displayQueryResult. cbn [display setQueryInput].
  destruct (forallb _ displayEls); [destruct data as [data|]|];
    try reflexivity.
  cbv zeta.
  destruct (confidence (renderFields data)); [|reflexivity].
  destruct (optimization (renderFields data)); [|reflexivity].
  repeat (apply Hseq; [apply Ht|]).
  apply Hseq; [reflexivity|apply Hh].
Qed.

Lemma afterAwait_setQueryInput (o : Outcome) (d : Document) :
  afterAwait typeErrors o (setQueryInput v d)
  = (setQueryInput v (fst (afterAwait typeErrors o d)),
     snd (afterAwait typeErrors o d)).
Proof.
  unfold afterAwait. destruct o as [e|e|data]; try reflexivity.
  apply (displayQueryResult_setQueryInput data
           (setResultHidden (assign false (resultHidden d)) d)).
Qed.

Lemma handler_setQueryInput (e : Thrown) (d : Document) :
  handler typeErrors e (setQueryInput v d)
  = (setQueryInput v (fst (handler typeErrors e d)),
     snd (handler typeErrors e d)).
Proof.
  unfold handler. cbv zeta.
  match goal with
  | |- displayQueryResult _ _ ?x = (setQueryInput v (fst (displayQueryResult _ _ ?y)), _) =>
      replace x with (setQueryInput v y)
  end.
  - apply displayQueryResult_setQueryInput.
  - unfold writeAnalysis. cbn [analysis setQueryInput setResultHidden
      consoleError]. destruct (analysis d); reflexivity.
Qed.

Lemma tryCatchFinally_setQueryInput (q : jsstring)
    (dbs : list (option jsstring)) (d : Document) :
  tryCatchFinally (body typeErrors generateContent q dbs) (handler typeErrors)
    finalizer (setQueryInput v d)
  = (setQueryInput v
       (fst (tryCatchFinally (body typeErrors generateContent q dbs)
               (handler typeErrors) finalizer d)),
     snd (tryCatchFinally (body typeErrors generateContent q dbs)
            (handler typeErrors) finalizer d)).
Proof.
  unfold tryCatchFinally, body. cbv zeta.
  change (send (buildPrompt q dbs) (setQueryInput v d))
    with (setQueryInput v (send (buildPrompt q dbs) d)).
  rewrite afterAwait_setQueryInput.
  destruct (afterAwait typeErrors _ (send (buildPrompt q dbs) d)) as [d1 c1].
  cbn [fst snd]. destruct c1 as [|e]; [reflexivity|].
  rewrite handler_setQueryInput.
  destruct (handler typeErrors e d1) as [d2 c2]. reflexivity.
Qed.

Lemma displayQueryResult_queryInput (data : option QueryResult)
    (d : Document) :
  queryInput (fst (displayQueryResult typeErrors data d)) = queryInput d.
Proof.
  apply (displayQueryResult_invariant typeErrors
           (fun d' => queryInput d' = queryInput d)).
  - intros el content d0 H. exact H.
  - intros d0 H. exact H.
  - reflexivity.
Qed.

Lemma executeQuery_queryInput (d : Document) :
  queryInput (fst (executeQuery typeErrors generateContent d)) = queryInput d.
Proof.
  unfold executeQuery.
  destruct (option_map value (queryInput d)) as [[|c s]|]; try reflexivity.
  destruct (trim (c :: s)); [reflexivity|].
  destruct (activeChips d) eqn:Ec; [reflexivity|]. rewrite <- Ec.
  assert (Hh : forall e d0,
             queryInput (fst (handler typeErrors e d0)) = queryInput d0).
  { intros e d0. unfold handler. cbv zeta.
    rewrite displayQueryResult_queryInput. unfold writeAnalysis.
    cbn [analysis setResultHidden consoleError].
    destruct (analysis d0); reflexivity. }
  unfold tryCatchFinally, body, afterAwait. cbv zeta.
  destruct (generateContent _) as [e|e|data].
  - specialize (Hh e (send (buildPrompt (c :: s) (activeChips d))
                        (showLoading d))).
    destruct (handler typeErrors e _) as [d2 c2]. cbn in Hh |- *. exact Hh.
  - match goal with
    | |- context [handler typeErrors e ?x] => specialize (Hh e x)
    end.
    destruct (handler typeErrors e _) as [d2 c2]. cbn in Hh |- *. exact Hh.
  - match goal with
    | |- context [displayQueryResult typeErrors data ?x] =>
        pose proof (displayQueryResult_queryInput data x) as Hq
    end.
    destruct (displayQueryResult typeErrors data _) as [d1 [|e]].
    + cbn in Hq |- *. exact Hq.
    + specialize (Hh e d1).
      destruct (handler typeErrors e d1) as [d2 c2].
      cbn in Hh, Hq |- *. rewrite Hh. exact Hq.
Qed.

Lemma executeQuery_setQueryInput (d : Document) :
  option_map value v = option_map value (queryInput d) ->
  executeQuery typeErrors generateContent (setQueryInput v d)
  = (setQueryInput v (fst (executeQuery typeErrors generateContent d)),
     snd (executeQuery typeErrors generateContent d)).
Proof.
  intros Hv. unfold executeQuery.
  cbn [queryInput setQueryInput activeChips]. rewrite Hv.
  destruct (option_map value (queryInput d)) as [[|c s]|]; try reflexivity.
  destruct (trim (c :: s)); [reflexivity|].
  destruct (activeChips d) eqn:Ec; [reflexivity|]. rewrite <- Ec.
  change (showLoading (setQueryInput v d))
    with (setQueryInput v (showLoading d)).
  apply tryCatchFinally_setQueryInput.
Qed.

End Advisory.

(** X8: the advisory never stands in the way of a submission.  Running
    it twice is running it once, and a submission after the advisory
    proceeds exactly as the submission without it: the same alerts,
    requests, display and completion, on a page that differs only in the
    style the advisory gives the input.  A flagged text is sent like any
    other. *)
Theorem validateQueryInput_does_not_block (typeErrors : TypeErrors)
    (generateContent : jsstring -> Outcome) (d : Document) :
  validateQueryInput (validateQueryInput d) = validateQueryInput d /\
  executeQuery typeErrors generateContent (validateQueryInput d)
  = (validateQueryInput (fst (executeQuery typeErrors generateContent d)),
     snd (executeQuery typeErrors generateContent d)).
Proof.
  split.
  - unfold validateQueryInput.
    destruct (queryInput d) as [el|] eqn:E; [|rewrite E; reflexivity].
    destruct (isReadOnly (value el)) eqn:R; cbn; rewrite R; reflexivity.
  - unfold validateQueryInput at 2.
    rewrite (executeQuery_queryInput typeErrors generateContent d).
    unfold validateQueryInput.
    destruct (queryInput d) as [el|] eqn:E;
      [|destruct (executeQuery typeErrors generateContent d); reflexivity].
    destruct (negb (isReadOnly (value el)));
      apply executeQuery_setQueryInput; rewrite E; reflexivity.
Qed.

(** ** The chips *)

Import Events.

Lemma updateAt_length {A} (i : nat) (f : A -> A) (l : list A) :
  length (updateAt i f l) = length l.
Proof.
  revert i. induction l as [|x l IH]; intros [|i]; cbn; auto.
Qed.

Lemma updateAt_updateAt {A} (i : nat) (f g : A -> A) (l : list A) :
  updateAt i f (updateAt i g l) = updateAt i (fun x => f (g x)) l.
Proof.
  revert i. induction l as [|x l IH]; intros [|i]; cbn; auto.
  rewrite IH. reflexivity.
Qed.

Lemma updateAt_Forall {A} (P : A -> Prop) (i : nat) (f : A -> A)
    (l : list A) :
  (forall x, P (f x)) -> Forall P l -> Forall P (updateAt i f l).
Proof.
  intros Hf. revert i. induction l as [|x l IH]; intros i H.
  - destruct i; constructor.
  - inversion H as [|? ? Hx Hl]; subst.
    destruct i; cbn; constructor; auto.
Qed.

Lemma updateAt_selectedDbs (i : nat) (f : Chip -> Chip) (l : list Chip) :
  (forall c, active (f c) = active c /\ db (f c) = db c) ->
  selectedDbs (updateAt i f l) = selectedDbs l.
Proof.
  intros Hf. unfold selectedDbs. revert i.
  induction l as [|x l IH]; intros [|i]; cbn [updateAt]; try reflexivity.
  - cbn [filter]. destruct (Hf x) as [Ha Hd]. rewrite Ha.
    destruct (active x); cbn [map]; rewrite ?Hd; reflexivity.
  - cbn [filter]. destruct (active x); cbn [map]; rewrite IH; reflexivity.
Qed.

Lemma updateAt_map {A B} (g : A -> B) (i : nat) (f : A -> A) (l : list A) :
  (forall x, g (f x) = g x) -> map g (updateAt i f l) = map g l.
Proof.
  intros Hf. revert i.
  induction l as [|x l IH]; intros [|i]; cbn; rewrite ?Hf, ?IH; reflexivity.
Qed.

Lemma toggleDbChip_consistent (c : Chip) : consistent (toggleDbChip c).
Proof. reflexivity. Qed.

(** X9: toggling a chip twice gives back the selection: the engines that
    a submission would name are the ones from before.  After a toggle the
    chip has an [aria-checked] that says what its class says; no toggle
    changes the number of chips or their [data-db]. *)
Theorem toggleDbChip_twice (i : nat) (cs : list Chip) :
  selectedDbs (updateAt i toggleDbChip (updateAt i toggleDbChip cs))
    = selectedDbs cs /\
  map active (updateAt i toggleDbChip (updateAt i toggleDbChip cs))
    = map active cs /\
  map db (updateAt i toggleDbChip cs) = map db cs /\
  length (updateAt i toggleDbChip cs) = length cs /\
  (forall c, nth_error (updateAt i toggleDbChip cs) i = Some c ->
             consistent c).
Proof.
  split; [|split; [|split; [|split]]].
  - rewrite updateAt_updateAt. apply updateAt_selectedDbs.
    intros c. cbn. rewrite negb_involutive. split; reflexivity.
  - rewrite updateAt_updateAt. apply updateAt_map.
    intros c. cbn. apply negb_involutive.
  - apply updateAt_map. reflexivity.
  - apply updateAt_length.
  - revert i. induction cs as [|x cs IH]; intros [|i] c; cbn; try discriminate.
    + intros H. injection H as <-. apply toggleDbChip_consistent.
    + apply IH.
Qed.

Lemma toggleDbChip_twice_witness :
  selectedDbs (updateAt 1 toggleDbChip (updateAt 1 toggleDbChip threeChips))
    = [Some (js "postgresql")] /\
  selectedDbs (updateAt 1 toggleDbChip threeChips)
    = [Some (js "postgresql"); Some (js "mysql")] /\
  exists c, nth_error (updateAt 1 toggleDbChip threeChips) 1 = Some c /\
            consistent c.
Proof.
  destruct (toggleDbChip_twice 1 threeChips) as (H1 & _ & _ & _ & H5).
  split; [exact H1|]. split; [reflexivity|].
  eexists. split; [reflexivity|]. apply H5. reflexivity.
Defined.

(** ** The page under any sequence of events *)

Section Machine.

Variable typeErrors : TypeErrors.

(** The call as a whole is its two parts, when nothing happens on the
    page while it is suspended. *)
Lemma executeQuery_split (generateContent : jsstring -> Outcome)
    (d : Document) :
  executeQuery typeErrors generateContent d
  = if snd (startQuery d)
    then resumeQuery typeErrors
           (generateContent (buildPrompt (questionText d) (activeChips d)))
           (fst (startQuery d))
    else (fst (startQuery d), Normal).
Proof.
  unfold executeQuery, startQuery, resumeQuery, questionText.
  destruct (queryInput d) as [el|]; cbn [option_map]; [|reflexivity].
  destruct (value el) as [|c s]; [reflexivity|].
  destruct (trim (c :: s)); [reflexivity|].
  destruct (activeChips d); reflexivity.
Qed.

Lemma startQuery_dispatched (d : Document) :
  dispatched d ->
  startQuery d
  = (send (buildPrompt (questionText d) (activeChips d)) (showLoading d),
     true).
Proof.
  unfold dispatched, questionText, startQuery. intros [Hq Hdb].
  destruct (queryInput d) as [el|]; cbn [option_map];
    [|contradiction Hq; reflexivity].
  destruct (value el) as [|c s]; [contradiction Hq; reflexivity|].
  destruct (trim (c :: s)); [contradiction Hq; reflexivity|].
  destruct (activeChips d); [contradiction Hdb; reflexivity|].
  reflexivity.
Qed.

(** A call that returns from the validation leaves an alert and nothing
    else. *)
Lemma startQuery_returned (d : Document) :
  snd (startQuery d) = false ->
  exists message, fst (startQuery d) = alert message d.
Proof.
  unfold startQuery.
  destruct (option_map value (queryInput d)) as [[|c s]|];
    try (intros _; eexists; reflexivity).
  destruct (trim (c :: s)); [intros _; eexists; reflexivity|].
  destruct (activeChips d); [intros _; eexists; reflexivity|].
  discriminate.
Qed.

Lemma resumeQuery_idle (o : Outcome) (d : Document) :
  idle (fst (resumeQuery typeErrors o d)) /\
  snd (resumeQuery typeErrors o d) = Normal.
Proof.
  destruct (resumption_releases_controls typeErrors o d)
    as (Hb & Ht & Hl & Hc).
  cbv zeta in *. fold (resumeQuery typeErrors o d) in *.
  split; [|exact Hc]. unfold idle. rewrite Hb, Ht, Hl.
  rewrite !assign_assign. repeat split.
Qed.

Lemma updateAt_Forall_step {A} (P : A -> Prop) (i : nat) (f : A -> A)
    (l : list A) :
  (forall x, P x -> P (f x)) -> Forall P l -> Forall P (updateAt i f l).
Proof.
  intros Hf. revert i. induction l as [|x l IH]; intros i H.
  - destruct i; constructor.
  - inversion H as [|? ? Hx Hl]; subst.
    destruct i; cbn; constructor; auto.
Qed.

Lemma chipKeydown_sound (e : KeyboardEvent) (c : Chip) :
  (consistent c -> consistent (fst (chipKeydown e c))) /\
  db (fst (chipKeydown e c)) = db c.
Proof.
  unfold chipKeydown.
  destruct (eqb (key e) (js " ") || eqb (key e) (js "Enter"));
    split; auto; intros _; apply toggleDbChip_consistent.
Qed.

Lemma documentKeydown_sound (e : KeyboardEvent) (p : Page) :
  let p' := fst (documentKeydown e p) in
  chips p' = chips p /\
  rejections p' = rejections p /\
  buttonDisabled (document p') = buttonDisabled (document p) /\
  loadingHidden (document p') = loadingHidden (document p) /\
  buttonTextHidden (document p') = buttonTextHidden (document p) /\
  requests (document p') = requests (document p) /\
  alerts (document p') = alerts (document p) /\
  pending p' = pending p.
Proof.
  unfold documentKeydown.
  destruct ((ctrlKey e || metaKey e) && eqb (key e) (js "k"));
    destruct (eqb (key e) (js "Escape")); cbn; repeat split.
Qed.

Lemma callExecuteQuery_frame (p : Page) :
  let p' := callExecuteQuery p in
  document p' = fst (startQuery (currentDocument p)) /\
  pending p'
  = (if snd (startQuery (currentDocument p)) then S (pending p)
     else pending p) /\
  rejections p' = rejections p /\
  demoTimers p' = demoTimers p /\
  chips p' = chips p.
Proof.
  unfold callExecuteQuery.
  destruct (startQuery (currentDocument p)) as [d awaiting].
  cbn. repeat split.
Qed.

Lemma callExecuteQuery_sound (p : Page) :
  (pending p = 0%nat -> idle (document p)) ->
  let p' := callExecuteQuery p in
  chips p' = chips p /\
  rejections p' = rejections p /\
  (pending p' = 0%nat -> idle (document p')).
Proof.
  intros Hi. destruct (callExecuteQuery_frame p) as (Hd & Hp & Hr & _ & Hc).
  cbv zeta in *. split; [exact Hc|]. split; [exact Hr|].
  rewrite Hd, Hp.
  destruct (snd (startQuery (currentDocument p))) eqn:E; [discriminate|].
  intros H0. destruct (startQuery_returned (currentDocument p) E)
    as [message ->].
  exact (Hi H0).
Qed.

Lemma settleQuery_sound (o : Outcome) (p : Page) :
  (pending p = 0%nat -> idle (document p)) ->
  let p' := settleQuery typeErrors o p in
  chips p' = chips p /\
  rejections p' = rejections p /\
  (pending p' = 0%nat -> idle (document p')) /\
  pending p' = pred (pending p) /\
  (pending p <> 0%nat -> idle (document p')).
Proof.
  intros Hi. unfold settleQuery. destruct (pending p) as [|n] eqn:E.
  - cbv zeta. rewrite E.
    split; [reflexivity|]. split; [reflexivity|]. split; [exact Hi|].
    split; [reflexivity|]. intros H. contradiction.
  - destruct (resumeQuery_idle o (document p)) as [Hidle Hn].
    destruct (resumeQuery typeErrors o (document p)) as [d c].
    cbn [fst snd] in *. subst c. cbn.
    split; [reflexivity|]. split; [reflexivity|].
    split; [intros _; exact Hidle|]. split; [reflexivity|].
    intros _. exact Hidle.
Qed.

Lemma validateQueryInput_controls (d : Document) :
  buttonDisabled (validateQueryInput d) = buttonDisabled d /\
  loadingHidden (validateQueryInput d) = loadingHidden d /\
  buttonTextHidden (validateQueryInput d) = buttonTextHidden d.
Proof.
  unfold validateQueryInput. destruct (queryInput d) as [el|];
    [destruct (negb (isReadOnly (value el)))|]; repeat split.
Qed.

Lemma handle_sound (ev : Event) (p : Page) :
  (pending p = 0%nat -> idle (document p)) ->
  Forall consistent (chips p) ->
  let p' := handle typeErrors ev p in
  rejections p' = rejections p /\
  (pending p' = 0%nat -> idle (document p')) /\
  Forall consistent (chips p') /\
  map db (chips p') = map db (chips p).
Proof.
  intros Hi Hc. destruct ev as [i|i e|e|e|text|demo| | |o]; cbn [handle].
  - cbn. split; [reflexivity|]. split; [exact Hi|]. split.
    + apply updateAt_Forall; [apply toggleDbChip_consistent|exact Hc].
    + apply updateAt_map. reflexivity.
  - match goal with
    | |- context [documentKeydown e ?q] =>
        destruct (documentKeydown_sound e q)
          as (H1 & H2 & H3 & H4 & H5 & _ & _ & H8)
    end.
    cbv zeta in *. unfold idle. rewrite H1, H2, H3, H4, H5, H8. cbn.
    split; [reflexivity|]. split; [exact Hi|]. split.
    + apply updateAt_Forall_step; [|exact Hc].
      intros c. apply chipKeydown_sound.
    + apply updateAt_map. intros c. apply chipKeydown_sound.
  - match goal with
    | |- context [documentKeydown e ?q] =>
        destruct (documentKeydown_sound e q)
          as (H1 & H2 & H3 & H4 & H5 & _ & _ & H8)
    end.
    cbv zeta in *. unfold idle. rewrite H1, H2, H3, H4, H5, H8.
    unfold inputKeydown.
    destruct (ctrlKey e && eqb (key e) (js "Enter")); cbn [fst].
    + destruct (callExecuteQuery_sound p Hi) as (C1 & C2 & C3).
      cbv zeta in *. rewrite C1, C2.
      split; [reflexivity|]. split; [exact C3|]. split; [exact Hc|reflexivity].
    + split; [reflexivity|]. split; [exact Hi|]. split; [exact Hc|reflexivity].
  - destruct (documentKeydown_sound e p)
      as (H1 & H2 & H3 & H4 & H5 & _ & _ & H8).
    cbv zeta in *. unfold idle. rewrite H1, H2, H3, H4, H5, H8.
    split; [reflexivity|]. split; [exact Hi|]. split; [exact Hc|reflexivity].
  - unfold inputEdited. cbn [rejections chips document setDocument pending].
    destruct (validateQueryInput_controls (setValue text (document p)))
      as (V1 & V2 & V3).
    unfold idle. rewrite V1, V2, V3. cbn.
    split; [reflexivity|]. split; [exact Hi|]. split; [exact Hc|reflexivity].
  - unfold loadDemoQuery. cbn.
    split; [reflexivity|]. split; [exact Hi|]. split; [exact Hc|reflexivity].
  - unfold demoTimer. destruct (demoTimers p) as [|n].
    + split; [reflexivity|]. split; [exact Hi|].
      split; [exact Hc|reflexivity].
    + match goal with
      | |- context [callExecuteQuery ?q] =>
          destruct (callExecuteQuery_sound q Hi) as (C1 & C2 & C3)
      end.
      cbv zeta in *. rewrite C1, C2.
      split; [reflexivity|]. split; [exact C3|]. split; [exact Hc|reflexivity].
  - destruct (callExecuteQuery_sound p Hi) as (C1 & C2 & C3).
    cbv zeta in *. rewrite C1, C2.
    split; [reflexivity|]. split; [exact C3|]. split; [exact Hc|reflexivity].
  - destruct (settleQuery_sound o p Hi) as (C1 & C2 & C3 & _).
    cbv zeta in *. rewrite C1, C2.
    split; [reflexivity|]. split; [exact C3|]. split; [exact Hc|reflexivity].
Qed.

Lemma run_sound (evs : list Event) (p : Page) :
  (pending p = 0%nat -> idle (document p)) ->
  Forall consistent (chips p) ->
  let p' := run typeErrors evs p in
  rejections p' = rejections p /\
  (pending p' = 0%nat -> idle (document p')) /\
  Forall consistent (chips p') /\
  map db (chips p') = map db (chips p).
Proof.
  unfold run. revert p. induction evs as [|ev evs IH]; intros p Hi Hc.
  - cbn. split; [reflexivity|]. split; [exact Hi|].
    split; [exact Hc|reflexivity].
  - cbn [fold_left].
    destruct (handle_sound ev p Hi Hc) as (H1 & H2 & H3 & H4).
    cbv zeta in *.
    destruct (IH (handle typeErrors ev p) H2 H3) as (I1 & I2 & I3 & I4).
    rewrite I1, I4, H1, H4.
    split; [reflexivity|]. split; [exact I2|]. split; [exact I3|reflexivity].
Qed.

Lemma run_settles_pending (os : list Outcome) (p : Page) :
  pending (run typeErrors (map Settles os) p)
  = (pending p - length os)%nat.
Proof.
  revert p. induction os as [|o os IH]; intros p.
  - cbn. lia.
  - cbn [map length]. unfold run in *. cbn [fold_left handle].
    rewrite IH. unfold settleQuery.
    destruct (pending p) as [|n] eqn:E; [rewrite E; reflexivity|].
    destruct (resumeQuery typeErrors o (document p)) as [d c]. cbn. lia.
Qed.

(** X10: whatever the user does and whatever the model service answers,
    and in whatever order the events come (clicks and keys on the chips,
    keys on the input and elsewhere, edits, demo queries and their
    timers, submissions, and the answers to the calls that are awaited),
    on a page that is idle when no call is awaited and whose chips have
    an [aria-checked] that is right: no call of [executeQuery] leaves an
    unhandled rejection; whenever no call is awaited the submit control
    is enabled and the busy indicator hidden; every chip keeps an
    [aria-checked] that says what its class says, and the [data-db] of
    the chips never change.  Once the calls that are awaited have all
    been answered, whatever the answers, none is awaited and the page is
    idle. *)
Theorem run_keeps_page_sound (evs : list Event) (p : Page) :
  (pending p = 0%nat -> idle (document p)) ->
  Forall consistent (chips p) ->
  let p' := run typeErrors evs p in
  rejections p' = rejections p /\
  (pending p' = 0%nat -> idle (document p')) /\
  Forall consistent (chips p') /\
  map db (chips p') = map db (chips p) /\
  (forall os,
     length os = pending p' ->
     let p'' := run typeErrors (map Settles os) p' in
     pending p'' = 0%nat /\ idle (document p'') /\
     rejections p'' = rejections p).
Proof.
  intros Hi Hc. cbv zeta.
  destruct (run_sound evs p Hi Hc) as (H1 & H2 & H3 & H4). cbv zeta in *.
  split; [exact H1|]. split; [exact H2|]. split; [exact H3|].
  split; [exact H4|].
  intros os Hos.
  assert (P0 : pending (run typeErrors (map Settles os)
                          (run typeErrors evs p)) = 0%nat)
    by (rewrite run_settles_pending; lia).
  destruct (run_sound (map Settles os) (run typeErrors evs p) H2 H3)
    as (S1 & S2 & _).
  cbv zeta in *. split; [exact P0|]. split; [exact (S2 P0)|].
  rewrite S1. exact H1.
Qed.

End Machine.

Lemma threeChips_consistent : Forall consistent threeChips.
Proof. repeat constructor. Defined.

Lemma run_keeps_page_sound_witness :
  let p' := run v8Errors
              [Edit (js "count orders"); ChipClick 2; Submit;
               InputKey (keyOf "Enter" true);
               Settles transportFailure_outcome;
               OtherKey (keyOf "Escape" false);
               DemoClick (Some (js "top customers"));
               DemoTimerFires; ChipKey 0 (keyOf " " false);
               Settles (Parsed None)]
              (startPage []) in
  rejections p' = [] /\
  pending p' = 1%nat /\
  buttonDisabled (document p') = Some false /\
  length (requests (document p')) = 3%nat /\
  buttonDisabled
    (document (run v8Errors [Settles (Parsed (Some numericQuery))] p'))
  = Some false.
Proof.
  cbv zeta.
  destruct (run_keeps_page_sound v8Errors
              [Edit (js "count orders"); ChipClick 2; Submit;
               InputKey (keyOf "Enter" true);
               Settles transportFailure_outcome;
               OtherKey (keyOf "Escape" false);
               DemoClick (Some (js "top customers"));
               DemoTimerFires; ChipKey 0 (keyOf " " false);
               Settles (Parsed None)]
              (startPage [])) as (H1 & _ & _ & _ & H5).
  - intros _. repeat split.
  - exact threeChips_consistent.
  - split; [exact H1|]. split; [vm_compute; reflexivity|].
    split; [vm_compute; reflexivity|]. split; [vm_compute; reflexivity|].
    destruct (H5 [Parsed (Some numericQuery)]) as (_ & Hidle & _);
      [vm_compute; reflexivity|].
    destruct Hidle as (Hb & _). refine (eq_trans Hb _).
    vm_compute. reflexivity.
Defined.

(** ** Keys *)

Lemma eqb_refl (a : jsstring) : eqb a a = true.
Proof.
  unfold eqb. destruct (list_eq_dec N.eq_dec a a); [reflexivity|contradiction].
Qed.

Lemma questionText_currentDocument (p : Page) :
  questionText (currentDocument p) = questionText (document p).
Proof. reflexivity. Qed.

(** X11: the Escape key empties the input without running the advisory
    (the style of the input stays as it was), gives it the focus and
    hides the result; a submission right after it ends in the alert for
    an empty question, sends nothing and awaits nothing. *)
Theorem escape_clears_question (typeErrors : TypeErrors)
    (e : KeyboardEvent) (p : Page) (el : TextArea) :
  key e = js "Escape" ->
  queryInput (document p) = Some el ->
  let p1 := handle typeErrors (OtherKey e) p in
  let p2 := handle typeErrors Submit p1 in
  queryInput (document p1)
    = Some {| value := []; borderColor := borderColor el;
              boxShadow := boxShadow el |} /\
  inputFocused p1 = true /\
  resultHidden (document p1) = assign true (resultHidden (document p)) /\
  alerts (document p2)
    = alerts (document p) ++ [js "Please enter a query"] /\
  requests (document p2) = requests (document p) /\
  rejections p2 = rejections p /\
  pending p2 = pending p.
Proof.
  intros Hk Hq. cbv zeta. cbn [handle]. unfold documentKeydown.
  rewrite Hk. change (eqb (js "Escape") (js "k")) with false.
  rewrite andb_false_r, eqb_refl. cbn [fst].
  unfold callExecuteQuery, currentDocument, startQuery, focusInput,
    setValue.
  cbn [document setDocument queryInput setQueryInput setResultHidden
       setActiveChips chips].
  rewrite Hq. cbn. repeat split.
Qed.

Lemma escape_clears_question_witness :
  let p1 := handle v8Errors (Edit (js "drop table users"))
              (startPage []) in
  let p2 := handle v8Errors (OtherKey (keyOf "Escape" false)) p1 in
  option_map value (queryInput (document p2)) = Some [] /\
  option_map borderColor (queryInput (document p2))
    = Some (js "var(--warning)").
Proof.
  cbv zeta.
  destruct (escape_clears_question v8Errors
              (keyOf "Escape" false)
              (handle v8Errors (Edit (js "drop table users"))
                 (startPage []))
              {| value := js "drop table users";
                 borderColor := js "var(--warning)";
                 boxShadow := js "0 0 0 3px rgba(245, 158, 11, 0.1)" |})
    as (H & _).
  - reflexivity.
  - vm_compute. reflexivity.
  - rewrite H. split; reflexivity.
Defined.

(** X12: Ctrl+Enter in the input does not look at the submit control: a
    question typed while an earlier call is still awaited (the control
    disabled) is dispatched as well, and one more request is sent.  The
    next answer to an awaited call, whatever it is, enables the control,
    whether or not another call is still awaited. *)
Theorem ctrl_enter_ignores_busy (typeErrors : TypeErrors)
    (e : KeyboardEvent) (p : Page) :
  ctrlKey e = true ->
  key e = js "Enter" ->
  dispatched (currentDocument p) ->
  buttonDisabled (document p) = Some true ->
  let p' := handle typeErrors (InputKey e) p in
  requests (document p')
    = requests (document p)
      ++ [buildPrompt (questionText (document p)) (selectedDbs (chips p))] /\
  pending p' = S (pending p) /\
  buttonDisabled (document p') = Some true /\
  (forall o,
     let p'' := handle typeErrors (Settles o) p' in
     buttonDisabled (document p'') = Some false /\
     pending p'' = pending p /\
     rejections p'' = rejections p).
Proof.
  intros Hc Hk Hd Hb. cbv zeta.
  set (p1 := handle typeErrors (InputKey e) p).
  assert (F : requests (document p1)
              = requests (document p)
                ++ [buildPrompt (questionText (document p))
                      (selectedDbs (chips p))] /\
              pending p1 = S (pending p) /\
              buttonDisabled (document p1) = Some true /\
              rejections p1 = rejections p).
  { unfold p1. cbn [handle].
    match goal with
    | |- context [documentKeydown e ?q] =>
        destruct (documentKeydown_sound e q)
          as (_ & H2 & H3 & _ & _ & H6 & _ & H8)
    end.
    cbv zeta in *. rewrite H2, H3, H6, H8. unfold inputKeydown.
    rewrite Hc, Hk, eqb_refl. cbn [andb fst].
    destruct (callExecuteQuery_frame p) as (Ed & Ep & Er & _).
    cbv zeta in *. rewrite Ed, Ep, Er, (startQuery_dispatched _ Hd).
    cbn [fst snd].
    split; [reflexivity|]. split; [reflexivity|].
    split; [cbn; rewrite Hb; reflexivity|reflexivity]. }
  destruct F as (F1 & F2 & F3 & F4).
  split; [exact F1|]. split; [exact F2|]. split; [exact F3|].
  intros o. cbn [handle]. unfold settleQuery, resumeQuery. rewrite F2.
  pose proof (resumption_releases_controls typeErrors o (document p1)) as R.
  cbv zeta in R. destruct R as (Rb & _ & _ & Rn).
  destruct (tryCatchFinally _ _ _ (document p1)) as [d c].
  cbn [fst snd] in *. subst c. cbn. rewrite Rb, F3.
  split; [reflexivity|]. split; [reflexivity|exact F4].
Qed.

Lemma ctrl_enter_ignores_busy_witness :
  let busy :=
    setDocument (setButtonDisabled (Some true)
                   (document (startPage (js "count orders"))))
      (startPage (js "count orders")) in
  length
    (requests (document (handle v8Errors (InputKey (keyOf "Enter" true)) busy)))
  = 1%nat /\
  buttonDisabled
    (document
       (handle v8Errors (Settles (Parsed None))
          (handle v8Errors (InputKey (keyOf "Enter" true)) busy)))
  = Some false.
Proof.
  cbv zeta.
  destruct (ctrl_enter_ignores_busy v8Errors
              (keyOf "Enter" true)
              (setDocument (setButtonDisabled (Some true)
                              (document (startPage (js "count orders"))))
                 (startPage (js "count orders")))) as (H & _ & _ & H').
  - reflexivity.
  - reflexivity.
  - split; intros H; vm_compute in H; discriminate H.
  - reflexivity.
  - split; [rewrite H; reflexivity|]. exact (proj1 (H' (Parsed None))).
Defined.

(** ** Demo queries *)

Lemma stripQuotes_filter (text : jsstring) :
  stripQuotes text = filter (fun c => negb (c =? dquote)) text.
Proof.
  unfold stripQuotes. rewrite replace_chr.
  induction text as [|c text IH]; [reflexivity|].
  cbn [flat_map filter]. rewrite IH, (N.eqb_sym c dquote).
  destruct (dquote =? c); reflexivity.
Qed.

(** X13: a demo query is loaded without its double quotes and submitted
    by its timer: when the input exists, the text without quotes is not
    blank and an engine is selected, the timer sends one request, for
    exactly the text of the demo with every double quote removed and the
    engines selected at that time, and the call awaits the answer. *)
Theorem demo_query_is_submitted (typeErrors : TypeErrors)
    (text : jsstring) (p : Page) (el : TextArea) :
  queryInput (document p) = Some el ->
  trim (stripQuotes text) <> [] ->
  selectedDbs (chips p) <> [] ->
  let p' := handle typeErrors DemoTimerFires
              (handle typeErrors (DemoClick (Some text)) p) in
  requests (document p')
    = requests (document p)
      ++ [buildPrompt (stripQuotes text) (selectedDbs (chips p))] /\
  stripQuotes text = filter (fun c => negb (c =? dquote)) text /\
  ~ In dquote (stripQuotes text) /\
  demoTimers p' = demoTimers p /\
  rejections p' = rejections p /\
  pending p' = S (pending p).
Proof.
  intros Hq Ht Hs. cbv zeta.
  assert (E : exists q,
             handle typeErrors DemoTimerFires
               (handle typeErrors (DemoClick (Some text)) p)
             = callExecuteQuery q /\
             dispatched (currentDocument q) /\
             questionText (currentDocument q) = stripQuotes text /\
             activeChips (currentDocument q) = selectedDbs (chips p) /\
             requests (currentDocument q) = requests (document p) /\
             demoTimers q = demoTimers p /\
             rejections q = rejections p /\
             pending q = pending p).
  { cbn [handle]. unfold loadDemoQuery, demoTimer. cbv zeta.
    cbn [demoTimers scrollToQuery setDocument document chips option_map].
    eexists. split; [reflexivity|].
    unfold currentDocument, questionText, setValue, dispatched.
    cbn [document queryInput setActiveChips setQueryInput chips requests
         activeChips demoTimers rejections pending].
    rewrite Hq. cbn [option_map value].
    destruct (stripQuotes text) as [|c s] eqn:Es;
      [contradiction Ht; reflexivity|].
    repeat split; assumption. }
  destruct E as (q & -> & Hd & Hqt & Hch & Hr & Hdt & Hrj & Hp).
  destruct (callExecuteQuery_frame q) as (Ed & Ep & Er & Et & _).
  cbv zeta in *. rewrite Ed, Ep, Er, Et, (startQuery_dispatched _ Hd).
  cbn [fst snd]. split; [|split; [|split; [|split; [|split]]]].
  - cbn [requests send showLoading setButtonTextHidden setLoadingHidden
         setButtonDisabled setResultHidden].
    rewrite Hr, Hqt, Hch. reflexivity.
  - apply stripQuotes_filter.
  - rewrite stripQuotes_filter, filter_In. intros [_ H].
    rewrite N.eqb_refl in H. discriminate H.
  - exact Hdt.
  - exact Hrj.
  - rewrite Hp. reflexivity.
Qed.

Lemma demo_query_is_submitted_witness :
  let quotedDemo := [dquote] ++ js "Show me top customers" ++ [dquote] in
  requests
    (document
       (handle v8Errors DemoTimerFires
          (handle v8Errors (DemoClick (Some quotedDemo)) (startPage []))))
  = [buildPrompt (js "Show me top customers") [Some (js "postgresql")]].
Proof.
  cbv zeta.
  destruct (demo_query_is_submitted v8Errors
              ([dquote] ++ js "Show me top customers" ++ [dquote])
              (startPage [])
              {| value := []; borderColor := js "var(--border)";
                 boxShadow := js "none" |}) as (H & _).
  - reflexivity.
  - intros H; vm_compute in H; discriminate H.
  - intros H; vm_compute in H; discriminate H.
  - refine (eq_trans H _). vm_compute. reflexivity.
Defined.

(** X14: a demo element without a paragraph, or whose text is blank once
    the double quotes are removed, still starts its timer: the
    submission then ends in the alert for an empty question, sends
    nothing and awaits nothing. *)
Theorem demo_query_without_text (typeErrors : TypeErrors)
    (demo : option jsstring) (p : Page) :
  (forall text, demo = Some text -> trim (stripQuotes text) = []) ->
  let p' := handle typeErrors DemoTimerFires
              (handle typeErrors (DemoClick demo) p) in
  alerts (document p')
    = alerts (document p) ++ [js "Please enter a query"] /\
  requests (document p') = requests (document p) /\
  demoTimers p' = demoTimers p /\
  pending p' = pending p.
Proof.
  intros Hb. cbv zeta. cbn [handle]. unfold loadDemoQuery, demoTimer.
  cbv zeta.
  cbn [demoTimers scrollToQuery setDocument document chips].
  set (query := match option_map stripQuotes demo with
                | Some (c :: s) => c :: s
                | _ => []
                end).
  assert (Hq : trim query = []).
  { unfold query. destruct demo as [text|]; [|reflexivity].
    cbn [option_map]. specialize (Hb text eq_refl).
    destruct (stripQuotes text); [reflexivity|exact Hb]. }
  match goal with
  | |- context [callExecuteQuery ?q] =>
      destruct (callExecuteQuery_frame q) as (Hd & Hp & _ & Ht & _)
  end.
  cbv zeta in *. rewrite Hd, Ht, Hp.
  unfold currentDocument, startQuery, setValue.
  cbn [document queryInput setActiveChips setQueryInput activeChips pending].
  destruct (queryInput (document p)) as [el|]; cbn [option_map value].
  - destruct query as [|c s]; [cbn; repeat split|].
    rewrite Hq. cbn. repeat split.
  - cbn. repeat split.
Qed.

Lemma demo_query_without_text_witness :
  alerts
    (document
       (handle v8Errors DemoTimerFires
          (handle v8Errors (DemoClick None)
             (startPage (js "an earlier question")))))
  = [js "Please enter a query"].
Proof.
  destruct (demo_query_without_text v8Errors None
              (startPage (js "an earlier question"))) as (H & _).
  - intros text E. discriminate E.
  - rewrite H. reflexivity.
Defined.

(** ** The copy button *)

Section CopyButton.

Variable original : jsstring.
Variable textContent : jsstring -> jsstring.
Variable start : CopyButton.

Lemma copyHandle_invariant (ev : CopyEvent) (clicked copied : bool)
    (b : CopyButton) :
  copyInvariant original start clicked copied b ->
  copyInvariant original start (clicked || isClick ev)
    (copied || isCopied ev) (copyHandle original textContent ev b).
Proof.
  intros (Hi & Ht & Hc & Hs).
  destruct ev as [[html|] written|]; cbn [copyHandle isClick isCopied].
  - rewrite orb_true_r. destruct written; cbn [copyClick].
    + rewrite orb_true_r. unfold copyInvariant. cbn.
      repeat split; try discriminate.
      * right. apply in_or_app. right. left. reflexivity.
      * intros _. right. intros E. apply app_eq_nil in E.
        destruct E as [_ E]. discriminate E.
      * intros _. right. apply in_or_app. right. left. reflexivity.
    + rewrite orb_false_r. unfold copyInvariant. cbn.
      repeat split; try discriminate.
      * destruct Hi as [Hi|Hi]; [left; exact Hi|].
        right. apply in_or_app. left. exact Hi.
      * intros _. right. intros E. apply app_eq_nil in E.
        destruct E as [_ E]. discriminate E.
      * intros H. destruct (Hc H) as [Hc'|Hc']; [left; exact Hc'|].
        right. apply in_or_app. left. exact Hc'.
  - rewrite !orb_false_r. cbn [copyClick].
    exact (conj Hi (conj Ht (conj Hc Hs))).
  - rewrite !orb_false_r. unfold copyTimerFires.
    destruct (copyTimers b) as [|[|] ts] eqn:E.
    + unfold copyInvariant. rewrite E.
      exact (conj Hi (conj Ht (conj Hc Hs))).
    + unfold copyInvariant. cbn.
      split; [left; reflexivity|].
      split; [intros _; left; reflexivity|].
      split; [intros _; left; reflexivity|].
      intros H. destruct (Hs H) as (_ & _ & H3). discriminate H3.
    + unfold copyInvariant. cbn.
      split; [|split; [|split]].
      * destruct Hi as [Hi|[Hi|Hi]]; [left; exact Hi|discriminate Hi|].
        right. exact Hi.
      * intros _. left. reflexivity.
      * intros H. destruct (Hc H) as [Hc'|[Hc'|Hc']];
          [left; exact Hc'|discriminate Hc'|right; exact Hc'].
      * intros H. destruct (Hs H) as (_ & _ & H3). discriminate H3.
Qed.

Lemma copyRun_invariant (evs : list CopyEvent) (clicked copied : bool)
    (b : CopyButton) :
  copyInvariant original start clicked copied b ->
  copyInvariant original start (clicked || existsb isClick evs)
    (copied || existsb isCopied evs) (copyRun original textContent evs b).
Proof.
  unfold copyRun. revert clicked copied b.
  induction evs as [|ev evs IH]; intros clicked copied b H.
  - cbn. rewrite !orb_false_r. exact H.
  - cbn [fold_left existsb]. rewrite !orb_assoc.
    apply IH. apply copyHandle_invariant. exact H.
Qed.

Lemma copyTimerFires_length (b : CopyButton) :
  length (copyTimers (copyTimerFires original b))
  = pred (length (copyTimers b)).
Proof.
  unfold copyTimerFires. destruct (copyTimers b) as [|[|] ts] eqn:E;
    cbn; rewrite ?E; reflexivity.
Qed.

Lemma copyRun_timers (n : nat) (b : CopyButton) :
  length (copyTimers (copyRun original textContent (repeat TimerFires n) b))
  = (length (copyTimers b) - n)%nat.
Proof.
  unfold copyRun. revert b. induction n as [|n IH]; intros b.
  - cbn. lia.
  - cbn [repeat fold_left copyHandle]. rewrite IH, copyTimerFires_length.
    lia.
Qed.

Lemma existsb_repeat_TimerFires (f : CopyEvent -> bool) (n : nat) :
  f TimerFires = false -> existsb f (repeat TimerFires n) = false.
Proof.
  intros H. induction n as [|n IH]; [reflexivity|].
  cbn. rewrite H, IH. reflexivity.
Qed.

(** X15: the acknowledgement of the copy button always goes away.
    Whatever the clicks, whether the clipboard takes the text or not, and
    however the clicks and the timers interleave: once the pending timers
    have fired, the icon is the original one, the label is [Copy] if
    there was a click at all, and the colour is the default one if a copy
    succeeded; without a click the label and the colour are as they
    were. *)
Theorem copy_button_settles (evs : list CopyEvent) :
  copyTimers start = [] ->
  copyIcon start = original ->
  let b := settle original textContent
             (copyRun original textContent evs start) in
  copyTimers b = [] /\
  copyIcon b = original /\
  (existsb isClick evs = true -> copyText b = js "Copy") /\
  (existsb isCopied evs = true -> copyColor b = []) /\
  (existsb isClick evs = false ->
   copyText b = copyText start /\ copyColor b = copyColor start).
Proof.
  intros Ht Hi. cbv zeta. unfold settle.
  set (b1 := copyRun original textContent evs start).
  assert (H0 : copyInvariant original start false false start).
  { unfold copyInvariant. rewrite Ht. repeat split; try discriminate.
    left. exact Hi. }
  pose proof (copyRun_invariant evs false false start H0) as H1.
  cbn [orb] in H1. fold b1 in H1.
  pose proof (copyRun_invariant (repeat TimerFires (length (copyTimers b1)))
                _ _ b1 H1) as H2.
  rewrite !existsb_repeat_TimerFires, !orb_false_r in H2 by reflexivity.
  pose proof (copyRun_timers (length (copyTimers b1)) b1) as L.
  rewrite Nat.sub_diag in L. apply length_zero_iff_nil in L.
  destruct H2 as (I1 & I2 & I3 & I4). rewrite L in *.
  repeat split.
  - destruct I1 as [I1|[]]. exact I1.
  - intros H. destruct (I2 H) as [E|E]; [exact E|contradiction E; reflexivity].
  - intros H. destruct (I3 H) as [E|[]]. exact E.
  - apply I4. assumption.
  - apply I4. assumption.
Qed.

End CopyButton.

Lemma copy_button_settles_witness :
  let b := settle (js "<svg/>") (fun html => html)
             (copyRun (js "<svg/>") (fun html => html)
                [Click (Some (js "SELECT 1")) true; Click (Some []) false;
                 TimerFires; Click None true]
                (freshCopyButton (js "<svg/>"))) in
  copyText b = js "Copy" /\ copyIcon b = js "<svg/>" /\ copyColor b = [].
Proof.
  cbv zeta.
  destruct (copy_button_settles (js "<svg/>") (fun html => html)
              (freshCopyButton (js "<svg/>"))
              [Click (Some (js "SELECT 1")) true; Click (Some []) false;
               TimerFires; Click None true])
    as (_ & H2 & H3 & H4 & _).
  - reflexivity.
  - reflexivity.
  - split; [apply H3; reflexivity|]. split; [exact H2|apply H4; reflexivity].
Defined.

(** ** The result container *)

Section ResultContainer.

Variable typeErrors : TypeErrors.
Variable generateContent : jsstring -> Outcome.

Lemma handler_resultHidden (e : Thrown) (d : Document) :
  resultHidden (fst (handler typeErrors e d)) = assign false (resultHidden d).
Proof.
  unfold handler. cbv zeta.
  match goal with
  | |- context [displayQueryResult typeErrors ?data ?x] =>
      destruct (displayQueryResult_controls typeErrors data x)
        as (_ & _ & _ & Hr & _)
  end.
  cbv zeta in Hr. rewrite Hr. unfold writeAnalysis.
  cbn [analysis setResultHidden consoleError].
  destruct (analysis d); reflexivity.
Qed.

(** X16: every dispatched submission ends with the result container
    shown, whatever the call came to and whatever the container then
    holds: a result, the error message, or what it held before. *)
Theorem executeQuery_shows_result (d : Document) :
  dispatched d ->
  resultHidden (fst (executeQuery typeErrors generateContent d))
  = assign false (resultHidden d).
Proof.
  intros Hd. rewrite (executeQuery_dispatched _ _ d Hd).
  unfold tryCatchFinally, body, afterAwait.
  set (d0 := send _ (showLoading d)).
  assert (H0 : assign false (resultHidden d0) = assign false (resultHidden d))
    by (unfold d0; cbn; apply assign_assign).
  destruct (generateContent _) as [e|e|data].
  - pose proof (handler_resultHidden e d0) as H.
    destruct (handler typeErrors e d0) as [d2 c2]. cbn [fst] in *.
    cbn. rewrite H. exact H0.
  - pose proof (handler_resultHidden e
                  (setResultHidden (assign false (resultHidden d0)) d0)) as H.
    destruct (handler typeErrors e _) as [d2 c2]. cbn [fst] in *.
    cbn. rewrite H. cbn. rewrite assign_assign. exact H0.
  - match goal with
    | |- context [displayQueryResult typeErrors data ?x] =>
        destruct (displayQueryResult_controls typeErrors data x)
          as (_ & _ & _ & Hr & _);
        destruct (displayQueryResult typeErrors data x) as [d1 c1]
    end.
    cbv zeta in Hr. cbn [fst] in Hr. destruct c1 as [|e].
    + cbn. rewrite Hr. cbn. exact H0.
    + pose proof (handler_resultHidden e d1) as H.
      destruct (handler typeErrors e d1) as [d2 c2]. cbn [fst] in *.
      cbn. rewrite H, Hr. cbn. rewrite assign_assign. exact H0.
Qed.

End ResultContainer.

Lemma executeQuery_shows_result_witness :
  resultHidden
    (fst (executeQuery v8Errors (fun _ => Parsed None)
            (setResultHidden (Some true) askedPage)))
  = Some false.
Proof.
  refine (eq_trans
            (executeQuery_shows_result v8Errors (fun _ => Parsed None)
               (setResultHidden (Some true) askedPage) _) _).
  - split; intros H; vm_compute in H; discriminate H.
  - reflexivity.
Defined.

(** ** The rules for comments and strings *)

Lemma replaceFrom_no_match (r : regex)
    (f : jsstring -> captures -> jsstring) (s : jsstring) :
  (forall prev a b, s = a ++ b -> exec r prev b = None) ->
  forall prev, replaceFrom r f prev O s = s.
Proof.
  induction s as [|c s IH]; intros H prev.
  - cbn. rewrite (H prev [] [] eq_refl). reflexivity.
  - cbn [replaceFrom]. rewrite (H prev [] (c :: s) eq_refl).
    rewrite IH; [reflexivity|].
    intros prev' a b E. apply (H prev' (c :: a) b). rewrite E. reflexivity.
Qed.

Lemma includes_suffix (a b p : jsstring) :
  includes (a ++ b) p = false -> startsWith p b = false.
Proof.
  intros H. destruct (startsWith p b) eqn:E; [|reflexivity].
  rewrite (includes_app_l a b p (includes_prefix b p E)) in H.
  discriminate H.
Qed.

Lemma exec_comment_none (prev : option codeunit) (b : jsstring) :
  startsWith (js "--") b = false -> exec commentPattern prev b = None.
Proof.
  unfold exec, commentPattern.
  change (js "--") with [45; 45]. change (lit [45; 45]) with (Seq (chr 45) (chr 45)).
  destruct b as [|c1 [|c2 b]]; cbn [matcher chr startsWith]; try reflexivity.
  - destruct (45 =? c1); reflexivity.
  - destruct (45 =? c1); [|reflexivity]. cbn [andb].
    destruct (45 =? c2); [discriminate|reflexivity].
Qed.

Lemma matcher_Group {A} (i : nat) (r : regex) (prev : option codeunit)
    (s : jsstring) (cs : captures)
    (k : option codeunit -> jsstring -> captures -> option A) :
  matcher (Group i r) prev s cs k
  = matcher r prev s cs
      (fun p' s' cs' => k p' s' ((i, firstn (length s - length s') s) :: cs')).
Proof. reflexivity. Qed.

Lemma matcher_Seq {A} (r1 r2 : regex) (prev : option codeunit)
    (s : jsstring) (cs : captures)
    (k : option codeunit -> jsstring -> captures -> option A) :
  matcher (Seq r1 r2) prev s cs k
  = matcher r1 prev s cs (fun p' s' cs' => matcher r2 p' s' cs' k).
Proof. reflexivity. Qed.

Lemma matcher_chr_cons {A} (q c : codeunit) (prev : option codeunit)
    (s : jsstring) (cs : captures)
    (k : option codeunit -> jsstring -> captures -> option A) :
  matcher (chr q) prev (c :: s) cs k
  = if q =? c then k (Some c) s cs else None.
Proof. reflexivity. Qed.

Lemma matcher_Star_cons {A} (p : codeunit -> bool) (c : codeunit)
    (prev : option codeunit) (s : jsstring) (cs : captures)
    (k : option codeunit -> jsstring -> captures -> option A) :
  matcher (Star p) prev (c :: s) cs k
  = if p c then
      match matcher (Star p) (Some c) s cs k with
      | Some x => Some x
      | None => k prev (c :: s) cs
      end
    else k prev (c :: s) cs.
Proof. reflexivity. Qed.

Lemma star_then_quote_fails {A} (q : codeunit) (t : jsstring)
    (cs : captures) (k : option codeunit -> jsstring -> captures -> option A) :
  ~ In q t ->
  forall prev,
    matcher (Star (notChr q)) prev t cs
      (fun p' s' cs' => matcher (chr q) p' s' cs' k) = None.
Proof.
  induction t as [|c t IH]; intros Hq prev; [reflexivity|].
  assert (Hc : (q =? c) = false)
    by (apply N.eqb_neq; intros ->; apply Hq; left; reflexivity).
  assert (Ht : ~ In q t) by (intros H; apply Hq; right; exact H).
  rewrite matcher_Star_cons, (IH Ht (Some c)), matcher_chr_cons, Hc.
  destruct (notChr q c); reflexivity.
Qed.

Lemma exec_quoted_none (q : codeunit) (prev : option codeunit)
    (b : jsstring) :
  (forall t, b = q :: t -> ~ In q t) ->
  exec (quotedPattern q) prev b = None.
Proof.
  intros H. destruct b as [|c t]; [reflexivity|].
  unfold exec, quotedPattern.
  rewrite matcher_Group, matcher_Seq, matcher_chr_cons.
  destruct (N.eqb_spec q c) as [<-|Hc]; [|reflexivity].
  rewrite matcher_Seq. apply star_then_quote_fails. apply H. reflexivity.
Qed.

Lemma single_occurrence (q : codeunit) (a t : jsstring) :
  (length (filter (N.eqb q) (a ++ q :: t)) <= 1)%nat -> ~ In q t.
Proof.
  unfold jsstring, codeunit in *.
  rewrite filter_app, length_app. cbn [filter]. rewrite N.eqb_refl.
  cbn [length]. intros H Hin.
  assert (Hf : In q (filter (N.eqb q) t))
    by (apply filter_In; split; [exact Hin|apply N.eqb_refl]).
  revert H Hf. destruct (filter (N.eqb q) t) as [|x l]; cbn [length In].
  - intros _ [].
  - intros H _. lia.
Qed.

(** X17: the rules for comments and for strings leave alone a text
    without their delimiters: one without two dashes in a row gets no
    comment span, and one with at most one quote character of a kind,
    such as an unterminated string, gets no string span of that kind. *)
Theorem rules_need_their_delimiters (s : jsstring) :
  (includes s (js "--") = false -> ruleComments s = s) /\
  ((length (filter (N.eqb (ch "'")) s) <= 1)%nat ->
   ruleSingleQuoted s = s) /\
  ((length (filter (N.eqb dquote) s) <= 1)%nat -> ruleDoubleQuoted s = s).
Proof.
  split; [|split].
  - intros H. apply replaceFrom_no_match.
    intros prev a b ->. apply exec_comment_none.
    apply (includes_suffix a b). exact H.
  - intros H. apply replaceFrom_no_match.
    intros prev a b ->. apply exec_quoted_none.
    intros t ->. apply (single_occurrence _ a t). exact H.
  - intros H. apply replaceFrom_no_match.
    intros prev a b ->. apply exec_quoted_none.
    intros t ->. apply (single_occurrence _ a t). exact H.
Qed.

Lemma rules_need_their_delimiters_witness :
  ruleComments (js "a - b") = js "a - b" /\
  ruleSingleQuoted (js "it's 5 o clock") = js "it's 5 o clock".
Proof.
  split.
  - apply (proj1 (rules_need_their_delimiters (js "a - b"))). reflexivity.
  - apply (proj1 (proj2 (rules_need_their_delimiters (js "it's 5 o clock")))).
    vm_compute. constructor.
Defined.

(** ** What the string rule makes of a comment span *)

Lemma replaceFrom_skip (r : regex) (f : jsstring -> captures -> jsstring)
    (a rest : jsstring) :
  forall prev,
    replaceFrom r f prev (length a) (a ++ rest)
    = replaceFrom r f (lastUnit a prev) O rest.
Proof.
  induction a as [|c a IH]; intros prev.
  - reflexivity.
  - cbn [length app replaceFrom]. rewrite IH. reflexivity.
Qed.

Lemma firstn_length_app (a rest : jsstring) :
  firstn (length (a ++ rest) - length rest) (a ++ rest) = a.
Proof.
  rewrite length_app, Nat.add_sub, firstn_app, Nat.sub_diag, firstn_all.
  cbn. apply app_nil_r.
Qed.

Lemma replaceFrom_match (r : regex) (f : jsstring -> captures -> jsstring)
    (prev : option codeunit) (c : codeunit) (m rest : jsstring)
    (cs : captures) :
  exec r prev ((c :: m) ++ rest) = Some (rest, cs) ->
  replaceFrom r f prev O ((c :: m) ++ rest)
  = f (c :: m) cs ++ replaceFrom r f (lastUnit (c :: m) prev) O rest.
Proof.
  intros E.
  change (replaceFrom r f prev O ((c :: m) ++ rest))
    with (match exec r prev ((c :: m) ++ rest) with
          | Some (rest', cs') =>
              let len := (length ((c :: m) ++ rest) - length rest')%nat in
              f (firstn len ((c :: m) ++ rest)) cs' ++
              match len with
              | O => c :: replaceFrom r f (Some c) O (m ++ rest)
              | S n => replaceFrom r f (Some c) n (m ++ rest)
              end
          | None => c :: replaceFrom r f (Some c) O (m ++ rest)
          end).
  rewrite E. cbv zeta. rewrite firstn_length_app.
  rewrite length_app, Nat.add_sub. cbn [length].
  rewrite replaceFrom_skip. reflexivity.
Qed.

Lemma star_to_the_end {A} (p : codeunit -> bool) (t : jsstring)
    (cs : captures) (k : option codeunit -> jsstring -> captures -> option A) :
  forallb p t = true ->
  forall prev x,
    k (lastUnit t prev) [] cs = Some x ->
    matcher (Star p) prev t cs k = Some x.
Proof.
  induction t as [|c t IH]; intros Hp prev x Hk; [exact Hk|].
  cbn [forallb] in Hp. apply andb_true_iff in Hp. destruct Hp as [Hc Ht].
  rewrite matcher_Star_cons, Hc, (IH Ht (Some c) x Hk). reflexivity.
Qed.

Lemma star_to_the_quote {A} (q : codeunit) (body rest : jsstring)
    (cs : captures) (k : option codeunit -> jsstring -> captures -> option A) :
  ~ In q body ->
  forall prev x,
    k (lastUnit body prev) (q :: rest) cs = Some x ->
    matcher (Star (notChr q)) prev (body ++ q :: rest) cs k = Some x.
Proof.
  induction body as [|c body IH]; intros Hq prev x Hk.
  - cbn [app]. rewrite matcher_Star_cons. unfold notChr.
    rewrite N.eqb_refl. exact Hk.
  - assert (Hc : notChr q c = true).
    { unfold notChr. apply negb_true_iff, N.eqb_neq. intros ->.
      apply Hq. left. reflexivity. }
    assert (Hb : ~ In q body) by (intros H; apply Hq; right; exact H).
    cbn [app]. rewrite matcher_Star_cons, Hc, (IH Hb (Some c) x Hk).
    reflexivity.
Qed.

Lemma exec_comment_match (prev : option codeunit) (t : jsstring) :
  ~ In newline t ->
  exec commentPattern prev (js "--" ++ t) = Some ([], [(1%nat, js "--" ++ t)]).
Proof.
  intros Hn. unfold exec, commentPattern.
  change (js "--") with [45; 45].
  change (lit [45; 45]) with (Seq (chr 45) (chr 45)).
  cbn [app].
  rewrite matcher_Group, !matcher_Seq, !matcher_chr_cons. cbn [N.eqb Pos.eqb].
  apply star_to_the_end.
  - apply forallb_forall. intros c Hc. unfold notChr.
    apply negb_true_iff, N.eqb_neq. intros ->. contradiction.
  - cbn [length]. rewrite Nat.sub_0_r.
    change (S (S (length t))) with (length (45 :: 45 :: t)).
    rewrite firstn_all. reflexivity.
Qed.

Lemma exec_quoted_match (q : codeunit) (prev : option codeunit)
    (body rest : jsstring) :
  ~ In q body ->
  exec (quotedPattern q) prev ((q :: body ++ [q]) ++ rest)
  = Some (rest, [(1%nat, q :: body ++ [q])]).
Proof.
  intros Hq. unfold exec, quotedPattern.
  cbn [app]. rewrite matcher_Group, matcher_Seq, matcher_chr_cons, N.eqb_refl.
  rewrite matcher_Seq, <- app_assoc. cbn [app].
  apply star_to_the_quote; [exact Hq|].
  rewrite matcher_chr_cons, N.eqb_refl. f_equal. f_equal. f_equal. f_equal.
  change (q :: body ++ q :: rest) with ((q :: body) ++ q :: rest).
  replace ((q :: body) ++ q :: rest) with ((q :: body ++ [q]) ++ rest)
    by (cbn [app]; rewrite <- app_assoc; reflexivity).
  apply firstn_length_app.
Qed.

Lemma replace_quoted_copy (q : codeunit)
    (f : jsstring -> captures -> jsstring) (a s : jsstring) :
  ~ In q a ->
  forall prev,
    replaceFrom (quotedPattern q) f prev O (a ++ s)
    = a ++ replaceFrom (quotedPattern q) f (lastUnit a prev) O s.
Proof.
  induction a as [|c a IH]; intros Hq prev; [reflexivity|].
  assert (Hc : (q =? c) = false)
    by (apply N.eqb_neq; intros ->; apply Hq; left; reflexivity).
  assert (Ha : ~ In q a) by (intros H; apply Hq; right; exact H).
  cbn [app replaceFrom].
  assert (E : exec (quotedPattern q) prev (c :: a ++ s) = None).
  { unfold exec, quotedPattern.
    rewrite matcher_Group, matcher_Seq, matcher_chr_cons, Hc. reflexivity. }
  rewrite E, (IH Ha). reflexivity.
Qed.

Lemma not_In_forallb (q : codeunit) (l : jsstring) :
  forallb (fun c => negb (q =? c)) l = true -> ~ In q l.
Proof.
  intros H Hin. rewrite forallb_forall in H. specialize (H q Hin).
  rewrite N.eqb_refl in H. discriminate H.
Qed.

(** X18: what the first three rules make of a comment.  For every
    comment text free of quote characters and line feeds, the comment
    rule wraps the whole comment in a comment span, the rule for
    single-quoted strings leaves it, and the rule for double-quoted
    strings then takes the class attribute of that span for a string
    literal and wraps it: no comment keeps a well-formed opening tag. *)
Theorem comment_span_is_rewritten (t : jsstring) :
  ~ In dquote t -> ~ In (ch "'") t -> ~ In newline t ->
  ruleComments (js "--" ++ t) = span "token-comment" (js "--" ++ t) /\
  ruleDoubleQuoted (ruleSingleQuoted (ruleComments (js "--" ++ t)))
  = js "<span class=" ++ span "token-string" (quoted "token-comment")
    ++ js ">--" ++ t ++ spanClose.
Proof.
  intros Hd Hs Hn.
  assert (H1 : ruleComments (js "--" ++ t)
               = span "token-comment" (js "--" ++ t)).
  { unfold ruleComments, replace.
    change (js "--" ++ t) with (45 :: 45 :: t).
    rewrite <- (app_nil_r (45 :: 45 :: t)) at 1.
    rewrite replaceFrom_match with (cs := [(1%nat, 45 :: 45 :: t)]).
    - cbn [replaceFrom]. rewrite app_nil_r. reflexivity.
    - rewrite app_nil_r. apply (exec_comment_match None t Hn). }
  split; [exact H1|]. rewrite H1.
  assert (H2 : ruleSingleQuoted (span "token-comment" (js "--" ++ t))
               = span "token-comment" (js "--" ++ t)).
  { unfold ruleSingleQuoted, replace.
    rewrite <- (app_nil_r (span "token-comment" (js "--" ++ t))) at 1.
    rewrite replace_quoted_copy; [cbn [replaceFrom]; apply app_nil_r|].
    unfold span. rewrite !in_app_iff. intros [H|[[H|H]|H]].
    - revert H. apply not_In_forallb. vm_compute. reflexivity.
    - revert H. apply not_In_forallb. vm_compute. reflexivity.
    - exact (Hs H).
    - revert H. apply not_In_forallb. vm_compute. reflexivity. }
  rewrite H2. unfold ruleDoubleQuoted, replace.
  change (span "token-comment" (js "--" ++ t))
    with (js "<span class=" ++
          ((dquote :: js "token-comment" ++ [dquote]) ++
           (js ">--" ++ t ++ spanClose))).
  rewrite replace_quoted_copy
    by (apply not_In_forallb; vm_compute; reflexivity).
  rewrite replaceFrom_match
    with (cs := [(1%nat, dquote :: js "token-comment" ++ [dquote])])
    by (apply exec_quoted_match; apply not_In_forallb; vm_compute;
        reflexivity).
  rewrite <- (app_nil_r (js ">--" ++ t ++ spanClose)) at 1.
  rewrite replace_quoted_copy.
  - cbn [replaceFrom]. rewrite app_nil_r. reflexivity.
  - rewrite !in_app_iff. intros [H|[H|H]].
    + revert H. apply not_In_forallb. vm_compute. reflexivity.
    + exact (Hd H).
    + revert H. apply not_In_forallb. vm_compute. reflexivity.
Qed.

Lemma comment_span_is_rewritten_witness :
  ruleDoubleQuoted (ruleSingleQuoted (ruleComments (js "-- adults")))
  = js "<span class=" ++ span "token-string" (quoted "token-comment")
    ++ js ">-- adults</span>".
Proof.
  refine (eq_trans (proj2 (comment_span_is_rewritten (js " adults") _ _ _)) _).
  - apply not_In_forallb. vm_compute. reflexivity.
  - apply not_In_forallb. vm_compute. reflexivity.
  - apply not_In_forallb. vm_compute. reflexivity.
  - vm_compute. reflexivity.
Defined.

End Extras.
